(** * A shallow embedding of the job-board backend (src/index.js)

    The Express handlers of [src/index.js] are embedded as functions over an
    explicit database state.  A handler is a computation in a state and
    exception monad ([Async]), because the JavaScript threads the Mongo
    collections through [await]ed calls and wraps every handler body in a
    [try]/[catch] that answers 500.

    Conventions.
    - An [ObjectId] is a number; its hexadecimal rendering is injective, so
      the string comparisons of ids in the source are comparisons of ids.
      Route parameters and token ids are taken to be well-formed ObjectIds.
    - Time is counted in whole seconds, the resolution of the [iat] and [exp]
      claims of a token; document timestamps read the same clock.
    - A JSON number is an integer.  A JSON string that is the rendering of
      an ObjectId is written [JId]; [JStr] holds the other strings.
    - A request body is read through the paths its schema declares in
      [src/index.js]; the bookkeeping paths Mongoose adds to every schema
      ([_id], [__v], [createdAt], [updatedAt]) are not read from a body
      that makes a new document.  The update of POST /api/resume is read
      this way when it is plain ([plain_update]); what any other update
      writes is left open ([Resume_updateOther]).
    - A stored document holds values of the types its schema declares, as
      Mongoose wrote them.  Loading it adds the defaults of the paths it
      lacks ([hydrate]); a resume or a job is answered as loaded.
    - The username of a body is a string; the password is a string or
      anything else ([bcrypt_compare_body]).
    - The store either answers every query of a request or none
      ([connected]).  Where a request writes twice, the store may in fact
      go down between the two writes: [deleteJob_at] is DELETE /jobs/:id
      with that case.
    - What the source imports but does not define (bcrypt, the string cast of
      Mongoose, the validators of [models/User.js], the defaults Mongoose
      applies when an upsert inserts, what it makes of an update with
      operators) is gathered in the class [Externals]. *)

From stdpp Require Import base option list strings pretty gmap fin_maps.
From Stdlib Require Import NArith ZArith Lia Sorted.

Set Warnings "-register-all".

Open Scope string_scope.
Open Scope N_scope.
Open Scope list_scope.

(** ** Values *)

Definition ObjectId := N.

Inductive json :=
| JNull
| JBool (b : bool)
| JNum (n : Z)
| JStr (s : string)
| JId (i : ObjectId)
| JArr (l : list json)
| JObj (o : list (string * json)).

(** The types a schema path is declared with in [src/index.js]: [String],
    [[String]], [Array] and [Object]. *)
Inductive SchemaType := TString | TStringArr | TArr | TMixed.

(** A path of a schema, with its [required], [enum] and [default] options.
    The reference paths ([user], [recruiter], [job], [candidate], [resume])
    are typed fields of the documents and are cast apart. *)
Record SchemaPath := mkPath {
  path_name : string;
  path_type : SchemaType;
  path_required : bool;
  path_enum : option (list string);
  path_default : option json }.

(** [name: Type], and [name: { type: Type, required: true }]. *)
Definition plain (name : string) (t : SchemaType) : SchemaPath :=
  mkPath name t false None None.
Definition needed (name : string) (t : SchemaType) : SchemaPath :=
  mkPath name t true None None.

(** ** Documents *)

(** Modelled from the spec: the schema of [models/User.js], which is not
    among the sources.  A user has a unique username, an opaque hashed
    secret, a role and an optional back-reference to a recruiter profile. *)
Record User := mkUser {
  u_id : ObjectId;
  username : string;
  password : string;
  role : string;
  recruiterProfile : option ObjectId }.

(** [recruiterProfileSchema]: the [user] reference and the string paths. *)
Record RecruiterProfile := mkProfile {
  p_id : ObjectId;
  p_user : option ObjectId;
  p_fields : gmap string json }.

(** [resumeSchema], with [timestamps: true]. *)
Record Resume := mkResume {
  r_id : ObjectId;
  r_user : ObjectId;
  r_content : gmap string json;
  r_createdAt : N;
  r_updatedAt : N }.

(** [jobSchema], with [timestamps: true]. *)
Record Job := mkJob {
  j_id : ObjectId;
  recruiter : ObjectId;
  j_fields : gmap string json;
  j_createdAt : N;
  j_updatedAt : N }.

(** [applicationSchema], with [timestamps: true]. *)
Record Application := mkApplication {
  a_id : ObjectId;
  job : ObjectId;
  candidate : ObjectId;
  resume : ObjectId;
  a_status : string;
  a_createdAt : N;
  a_updatedAt : N }.

(** ** Tokens: a symbolic model of jsonwebtoken *)

(** [payload.user] as written by the login route. *)
Record TokenUser := mkTokenUser { tu_id : ObjectId; tu_role : string }.

Record Claims := mkClaims { c_user : TokenUser; iat : N; exp : N }.

(** A header value either does not parse as a signed token, or carries
    claims together with the key its signature was computed under. *)
Inductive Token :=
| Malformed (s : string)
| Jws (key : string) (c : Claims).

(** ** The world a request runs in *)

Record Env := mkEnv {
  connected : bool;       (* the Mongo connection answers *)
  JWT_SECRET : string;    (* process.env.JWT_SECRET *)
  now : N;                (* the clock, in seconds *)
  oid : nat → ObjectId }. (* the ids the ObjectId generator yields, in order *)

Record Db := mkDb {
  users : list User;
  recruiterProfiles : list RecruiterProfile;
  resumes : list Resume;
  jobs : list Job;
  applications : list Application }.

(** ** Responses *)

Inductive Body :=
| Msg (msg : string)                        (* json({ msg }) *)
| Message (message : string)                (* { message } *)
| Text (s : string)                         (* send('...') *)
| TokenBody (token : Token)                 (* json({ token }) *)
| ResumeBody (message : string) (r : Resume)
| JobBody (j : Job)
| UserBody (u : User).

Record Response := mkResponse { status : N; body : Body }.

(** ** Exceptions and the handler monad *)

Inductive exn :=
| MongoError
| CastError
| ValidationError
| JsonWebTokenError
| TokenExpiredError
| IllegalArguments.       (* bcryptjs: Error("Illegal arguments: ...") *)

Inductive outcome (A : Type) :=
| Return (a : A)
| Throw (e : exn).
Arguments Return {A} a.
Arguments Throw {A} e.

Definition Async (A : Type) : Type := Db → outcome A * Db.

Definition ret {A} (a : A) : Async A := λ db, (Return a, db).
Definition throw {A} (e : exn) : Async A := λ db, (Throw e, db).
Definition bind {A B} (m : Async A) (k : A → Async B) : Async B :=
  λ db, match m db with
        | (Return a, db') => k a db'
        | (Throw e, db') => (Throw e, db')
        end.

Notation "x <- m ;; k" := (bind m (λ x, k))
  (at level 100, m at next level, right associativity).
Notation "m ;;; k" := (bind m (λ _, k))
  (at level 100, right associativity).

(** [try { body } catch (err) { handler }] around a whole route body. *)
Definition try_catch (m : Async Response) (h : exn → Response) : Db → Response * Db :=
  λ db, match m db with
        | (Return r, db') => (r, db')
        | (Throw e, db') => (h e, db')
        end.

(** ** Externals *)

Class Externals := {
  (** bcryptjs *)
  bcrypt_hash : string → string;
  bcrypt_compare : string → string → bool;
  (** the validators [models/User.js] declares, run on a new document and
      on the [role] path alone *)
  User_validate : User → bool;
  User_validate_role : string → bool;
  (** Mongoose's cast of a non-null value to a String path; [None] is a
      cast error *)
  castString : json → option string;
  (** the defaults Mongoose writes when the resume upsert inserts *)
  Resume_insertDefaults : gmap string json;
  (** what [Resume.findOneAndUpdate] makes of an update that is not plain
      (see [plain_update]: it carries update operators, dotted paths or
      bookkeeping paths), given the clock, a new id and the resume of the
      user if there is one: the document to write, or [None] when Mongoose
      or the store refuses the update *)
  Resume_updateOther : gmap string json → N → ObjectId → option Resume → option Resume }.

(** ** Mongoose: queries over a collection *)

(** A model gives access to its collection inside the database. *)
Record Model (D : Type) := mkModel {
  docs : Db → list D;
  set_docs : list D → Db → Db;
  doc_id : D → ObjectId }.
Arguments docs {D} _ _.
Arguments set_docs {D} _ _ _.
Arguments doc_id {D} _ _.

Definition UserModel : Model User :=
  mkModel User users
    (λ l db, mkDb l (recruiterProfiles db) (resumes db) (jobs db) (applications db))
    u_id.
Definition RecruiterProfileModel : Model RecruiterProfile :=
  mkModel RecruiterProfile recruiterProfiles
    (λ l db, mkDb (users db) l (resumes db) (jobs db) (applications db))
    p_id.
Definition ResumeModel : Model Resume :=
  mkModel Resume resumes
    (λ l db, mkDb (users db) (recruiterProfiles db) l (jobs db) (applications db))
    r_id.
Definition JobModel : Model Job :=
  mkModel Job jobs
    (λ l db, mkDb (users db) (recruiterProfiles db) (resumes db) l (applications db))
    j_id.
Definition ApplicationModel : Model Application :=
  mkModel Application applications
    (λ l db, mkDb (users db) (recruiterProfiles db) (resumes db) (jobs db) l)
    a_id.

(** The first document a filter selects. *)
Fixpoint first_match {D} (f : D → bool) (l : list D) : option D :=
  match l with
  | [] => None
  | d :: l' => if f d then Some d else first_match f l'
  end.

(** The collection without the first document a filter selects. *)
Fixpoint remove_first {D} (f : D → bool) (l : list D) : list D :=
  match l with
  | [] => []
  | d :: l' => if f d then l' else d :: remove_first f l'
  end.

(** The collection without every document a filter selects. *)
Fixpoint remove_all {D} (f : D → bool) (l : list D) : list D :=
  match l with
  | [] => []
  | d :: l' => if f d then remove_all f l' else d :: remove_all f l'
  end.

(** The collection with the first selected document rewritten. *)
Fixpoint update_first {D} (f : D → bool) (g : D → D) (l : list D) : list D :=
  match l with
  | [] => []
  | d :: l' => if f d then g d :: l' else d :: update_first f g l'
  end.

Section Queries.
Context (env : Env) {D : Type} (M : Model D).

(** Every query fails with a [MongoError] when the store does not answer. *)
Definition query {A} (q : Db → A * Db) : Async A :=
  λ db, if connected env
        then let '(a, db') := q db in (Return a, db')
        else (Throw MongoError, db).

Definition findOne (filter : D → bool) : Async (option D) :=
  query (λ db, (first_match filter (docs M db), db)).

Definition findById (id : ObjectId) : Async (option D) :=
  findOne (λ d, doc_id M d =? id).

Definition deleteOne (filter : D → bool) : Async unit :=
  query (λ db, (tt, set_docs M (remove_first filter (docs M db)) db)).

Definition deleteMany (filter : D → bool) : Async unit :=
  query (λ db, (tt, set_docs M (remove_all filter (docs M db)) db)).

(** [doc.save()] on a new, validated document. *)
Definition insertOne (d : D) : Async unit :=
  query (λ db, (tt, set_docs M (docs M db ++ [d]) db)).

(** [doc.save()] on a document read from the collection. *)
Definition replaceOne (d : D) : Async unit :=
  query (λ db,
    (tt, set_docs M
           (update_first (λ d', doc_id M d' =? doc_id M d) (λ _, d) (docs M db)) db)).
End Queries.

(** ** Mongoose: casting a request object to the paths of a schema *)

(** The cast to an ObjectId path. *)
Definition castObjectId (v : json) : option ObjectId :=
  match v with JId i => Some i | _ => None end.

Section Casting.
Context `{Externals}.

Definition castPath (t : SchemaType) (v : json) : option json :=
  match v with
  | JNull => Some JNull
  | _ =>
    match t with
    | TString => JStr <$> castString v
    | TMixed => Some v
    | TArr => Some (match v with JArr l => JArr l | _ => JArr [v] end)
    | TStringArr =>
        let elt x := match x with JNull => Some JNull | _ => JStr <$> castString x end in
        JArr <$> match v with
                 | JArr l => mapM elt l
                 | _ => x ← elt v; Some [x]
                 end
    end
  end.

(** Strict mode: only the paths of the schema are read from the object. *)
Fixpoint castFields (schema : list SchemaPath) (obj : gmap string json)
  : option (gmap string json) :=
  match schema with
  | [] => Some ∅
  | sp :: rest =>
      m ← castFields rest obj;
      match obj !! path_name sp with
      | None => Some m
      | Some v => v' ← castPath (path_type sp) v; Some (<[path_name sp := v']> m)
      end
  end.
End Casting.

(** A new document starts with an empty array on each array path. *)
Fixpoint arrayDefaults (schema : list SchemaPath) : gmap string json :=
  match schema with
  | [] => ∅
  | sp :: rest =>
      match path_type sp with
      | TStringArr | TArr => <[path_name sp := JArr []]> (arrayDefaults rest)
      | _ => arrayDefaults rest
      end
  end.

(** The default of a path: the declared one, and the empty array of an
    array path. *)
Definition default_of (sp : SchemaPath) : option json :=
  match path_default sp with
  | Some v => Some v
  | None =>
      match path_type sp with
      | TStringArr | TArr => Some (JArr [])
      | _ => None
      end
  end.

Fixpoint schemaDefaults (schema : list SchemaPath) : gmap string json :=
  match schema with
  | [] => ∅
  | sp :: rest =>
      match default_of sp with
      | Some v => <[path_name sp := v]> (schemaDefaults rest)
      | None => schemaDefaults rest
      end
  end.

(** What Mongoose makes of a stored document when it loads it: a path the
    document lacks takes its default. *)
Definition hydrate (schema : list SchemaPath) (fields : gmap string json)
  : gmap string json :=
  fields ∪ schemaDefaults schema.

(** ** Plain updates *)

(** A key is an update operator ([$set], [$unset], ...) or a dotted path. *)
Definition is_operator (k : string) : bool := String.prefix "$" k.

Definition has_dot (k : string) : bool :=
  match String.index 0 "." k with
  | Some _ => true
  | None => false
  end.

Definition field_name (k : string) : bool := negb (is_operator k) && negb (has_dot k).

(** A value every object of which has field names for keys: the store
    takes it as it is. *)
Fixpoint storable (v : json) : bool :=
  match v with
  | JArr l => forallb storable l
  | JObj o => forallb (λ kv, let '(k, v') := kv in field_name k && storable v') o
  | _ => true
  end.

Definition bookkeeping : list string := [ "_id"; "__v"; "createdAt"; "updatedAt" ].

(** An update is plain when each of its keys is a field name other than
    the bookkeeping paths, and holds a storable value: Mongoose then sets
    the paths it names, and nothing else. *)
Definition plain_update (update : gmap string json) : bool :=
  bool_decide (map_Forall (λ k v, field_name k && negb (existsb (String.eqb k) bookkeeping)
                                  && storable v = true) update).

(** The [required] validator of a String path. *)
Definition required_String (m : gmap string json) (p : string) : bool :=
  match m !! p with
  | Some (JStr s) => negb (String.eqb s "")
  | _ => false
  end.

(** The [enum] validator of a String path; it does not run on a missing value. *)
Definition enum_String (values : list string) (m : gmap string json) (p : string) : bool :=
  match m !! p with
  | Some (JStr s) => existsb (String.eqb s) values
  | _ => true
  end.

(** The validators of one path, and of a schema, on a cast document. *)
Definition validatePath (m : gmap string json) (sp : SchemaPath) : bool :=
  (negb (path_required sp) || required_String m (path_name sp))
  && match path_enum sp with
     | Some values => enum_String values m (path_name sp)
     | None => true
     end.

Definition validate (schema : list SchemaPath) (m : gmap string json) : bool :=
  forallb (validatePath m) schema.

(** ** The schemas of src/index.js *)

Definition recruiterProfileSchema : list SchemaPath :=
  [ plain "companyName" TString; plain "companyWebsite" TString;
    plain "industry" TString; plain "companySize" TString;
    plain "companyAddress" TString; plain "country" TString;
    plain "recruiterFullName" TString; plain "jobTitle" TString;
    plain "recruiterEmail" TString; plain "recruiterPhone" TString;
    plain "linkedInProfile" TString;
    plain "rolesRecruitedFor" TStringArr; plain "preferredLocations" TStringArr;
    plain "hiringVolume" TString; plain "recruitmentModel" TString ].

(** Whether the default of [template] is written when an upsert inserts
    depends on the version of Mongoose: see [Resume_insertDefaults]. *)
Definition resumeSchema : list SchemaPath :=
  [ plain "personalInfo" TMixed; plain "summary" TString;
    plain "experience" TArr; plain "education" TArr; plain "skills" TArr;
    plain "projects" TArr; plain "links" TArr; plain "awards" TArr;
    mkPath "template" TString false None (Some (JStr "classic")) ].

Definition employmentTypes : list string :=
  [ "Full-time"; "Part-time"; "Contract"; "Internship" ].

Definition jobSchema : list SchemaPath :=
  [ needed "jobTitle" TString;
    plain "department" TString;
    plain "reportsTo" TString;
    needed "location" TString;
    mkPath "employmentType" TString true (Some employmentTypes) None;
    needed "jobSummary" TString;
    plain "keyResponsibilities" TStringArr;
    plain "requiredQualifications" TStringArr;
    plain "preferredQualifications" TStringArr;
    plain "coreCompetencies" TStringArr;
    plain "workEnvironment" TString;
    plain "compensationAndBenefits" TString;
    plain "applicationInstructions" TString;
    needed "companyName" TString ].

(** A resume and a job as Mongoose loads them. *)
Definition hydrate_resume (r : Resume) : Resume :=
  mkResume (r_id r) (r_user r) (hydrate resumeSchema (r_content r))
           (r_createdAt r) (r_updatedAt r).

Definition hydrate_job (j : Job) : Job :=
  mkJob (j_id j) (recruiter j) (hydrate jobSchema (j_fields j))
        (j_createdAt j) (j_updatedAt j).

(** The [status] path of [applicationSchema]. *)
Definition applicationStatus : SchemaPath :=
  mkPath "status" TString false
    (Some [ "Submitted"; "Viewed"; "Rejected"; "Interviewing" ])
    (Some (JStr "Submitted")).

Definition roles : list string := [ "Candidate"; "Recruiter"; "Admin" ].

(** ** jsonwebtoken *)

(** [expiresIn: '5h'], in seconds. *)
Definition expiresIn : N := 5 * 60 * 60.

Definition jwt_sign (payload : TokenUser) (secret : string) (clock : N) : Token :=
  Jws secret (mkClaims payload clock (clock + expiresIn)).

Definition jwt_verify (token : Token) (secret : string) (clock : N) : outcome Claims :=
  match token with
  | Malformed _ => Throw JsonWebTokenError
  | Jws key c =>
      if String.eqb key secret
      then if exp c <=? clock then Throw TokenExpiredError else Return c
      else Throw JsonWebTokenError
  end.

(** ** Middleware *)

(** [auth]: the header is [None] when it is missing or empty. *)
Definition auth (env : Env) (token : option Token) : Response + TokenUser :=
  match token with
  | None => inl (mkResponse 401 (Msg "No token, authorization denied"))
  | Some token =>
      match jwt_verify token (JWT_SECRET env) (now env) with
      | Return decoded => inr (c_user decoded)
      | Throw _ => inl (mkResponse 401 (Msg "Token is not valid"))
      end
  end.

(** The role checks answer [None] when they call [next()]. *)
Definition isCandidate (user : TokenUser) : option Response :=
  if negb (String.eqb (tu_role user) "Candidate")
  then Some (mkResponse 403 (Msg "Only candidates can perform this action."))
  else None.

Definition isAdmin (user : TokenUser) : option Response :=
  if negb (String.eqb (tu_role user) "Admin")
  then Some (mkResponse 403 (Msg "Admin access denied"))
  else None.

Definition isRecruiter (user : TokenUser) : option Response :=
  if negb (String.eqb (tu_role user) "Recruiter")
  then Some (mkResponse 401 (Msg "Only recruiters can access this route"))
  else None.

(** [app.METHOD(path, auth, guard, handler)]. *)
Definition guarded (env : Env) (guard : TokenUser → option Response)
    (handler : TokenUser → Db → Response * Db) (token : option Token)
  : Db → Response * Db :=
  match auth env token with
  | inl r => λ db, (r, db)
  | inr user =>
      match guard user with
      | Some r => λ db, (r, db)
      | None => handler user
      end
  end.

(** ** Route handlers *)

Section Handlers.
Context `{Externals} (env : Env).

(** *** POST /register: the spec's [register] *)

(** [new RecruiterProfile({ user: user._id, ...profileData })] followed by
    [save()]: a path that does not cast fails the validation. *)
Definition RecruiterProfile_save (id user_id : ObjectId) (profileData : gmap string json)
  : Async unit :=
  let obj := profileData ∪ {[ "user" := JId user_id ]} in
  let user := match obj !! "user" with
              | Some JNull | None => Some None
              | Some v => Some <$> castObjectId v
              end in
  match user, castFields recruiterProfileSchema obj with
  | Some user, Some fields =>
      insertOne env RecruiterProfileModel
        (mkProfile id user (fields ∪ arrayDefaults recruiterProfileSchema))
  | _, _ => throw ValidationError
  end.

(** Modelled from the spec: the pre-save hook of [models/User.js], which
    replaces the plaintext password by its hash.  [user.save()] on a new
    user runs the validators, then the hook, then inserts. *)
Definition User_save (user : User) : Async unit :=
  if User_validate user
  then insertOne env UserModel
         (mkUser (u_id user) (username user) (bcrypt_hash (password user))
                 (role user) (recruiterProfile user))
  else throw ValidationError.

Definition register (username' password' role' : string) (profileData : gmap string json)
  : Db → Response * Db :=
  try_catch
    (user <- findOne env UserModel (λ u, String.eqb (username u) username') ;;
     match user with
     | Some _ => ret (mkResponse 400 (Msg "User already exists"))
     | None =>
         let user_id := oid env 0 in
         profile <- (if String.eqb role' "Recruiter"
                     then (let profile_id := oid env 1 in
                           RecruiterProfile_save profile_id user_id profileData ;;;
                           ret (Some profile_id))
                     else ret None) ;;
         User_save (mkUser user_id username' password' role' profile) ;;;
         ret (mkResponse 201 (Message "User registered successfully"))
     end)
    (λ err, mkResponse 500 (Text "Server error")).

(** *** POST /login: the spec's [authenticate], followed by [issue] *)

(** [await bcrypt.compare(password, hash)] on [req.body.password], which
    is [Some s] when the body holds the string s under [password] and
    [None] when the key is missing or holds a value of another type:
    bcryptjs rejects an argument that is not a string. *)
Definition bcrypt_compare_body (password' : option string) (hash : string) : Async bool :=
  match password' with
  | Some s => ret (bcrypt_compare s hash)
  | None => throw IllegalArguments
  end.

Definition login (username' : string) (password' : option string)
  : Db → Response * Db :=
  try_catch
    (user <- findOne env UserModel (λ u, String.eqb (username u) username') ;;
     match user with
     | None => ret (mkResponse 400 (Msg "Invalid credentials"))
     | Some user =>
         isMatch <- bcrypt_compare_body password' (password user) ;;
         if negb isMatch
         then ret (mkResponse 400 (Msg "Invalid credentials"))
         else
           let payload := mkTokenUser (u_id user) (role user) in
           ret (mkResponse 200 (TokenBody (jwt_sign payload (JWT_SECRET env) (now env))))
     end)
    (λ err, mkResponse 500 (Text "Server error")).

(** *** POST /api/resume: the spec's [saveResume] *)

(** [Resume.findOneAndUpdate({ user }, update, { new: true, upsert: true,
    runValidators: true })].  The write is one atomic command on the
    first document of the user; without such a document one is inserted.
    Mongoose moves the keys of the update that are not operators into
    [$set].  A plain update is nothing else: each of its paths is set and
    the others are kept.  What another update writes to the content is
    left to [Resume_updateOther]; the [user] the route supplies is set
    all the same, since the store refuses an update that reaches one path
    twice, and so is the [_id] of a document that exists, which the store
    does not let change; a new document under an [_id] that is taken is
    refused.  [resumeSchema] declares no validator. *)
Definition Resume_findOneAndUpdate (user : ObjectId) (update : gmap string json)
  : Async Resume :=
  (* the route always supplies the caller's id under [user] *)
  let owner := match update !! "user" with
               | None => Some None
               | Some v => Some <$> castObjectId v
               end in
  if plain_update update
  then
    match owner, castFields resumeSchema update with
    | Some owner, Some fields =>
        query env (λ db,
          match first_match (λ r, r_user r =? user) (resumes db) with
          | Some old =>
              let updated := mkResume (r_id old) (default (r_user old) owner)
                               (fields ∪ r_content old) (r_createdAt old) (now env) in
              (updated,
               set_docs ResumeModel
                 (update_first (λ r, r_user r =? user) (λ _, updated) (resumes db)) db)
          | None =>
              let inserted := mkResume (oid env 0) (default user owner)
                                (fields ∪ Resume_insertDefaults) (now env) (now env) in
              (inserted, set_docs ResumeModel (resumes db ++ [inserted]) db)
          end)
    | _, _ => throw CastError
    end
  else
    match owner with
    | Some owner =>
        λ db,
          if connected env
          then
            let found := first_match (λ r, r_user r =? user) (resumes db) in
            match Resume_updateOther update (now env) (oid env 0) found, found with
            | Some r, Some old =>
                let updated := mkResume (r_id old) (default (r_user old) owner)
                                 (r_content r) (r_createdAt r) (r_updatedAt r) in
                (Return updated,
                 set_docs ResumeModel
                   (update_first (λ r, r_user r =? user) (λ _, updated) (resumes db)) db)
            | Some r, None =>
                if existsb (λ r', r_id r' =? r_id r) (resumes db)
                then (Throw MongoError, db)
                else
                  let inserted := mkResume (r_id r) (default user owner)
                                    (r_content r) (r_createdAt r) (r_updatedAt r) in
                  (Return inserted, set_docs ResumeModel (resumes db ++ [inserted]) db)
            | None, _ => (Throw MongoError, db)
            end
          else (Throw MongoError, db)
    | None => throw CastError
    end.

(** [res.status(201).json({ message, resume: updatedResume })]: the
    document [new: true] answers is the written one as Mongoose loads it. *)
Definition saveResume (user_id : ObjectId) (body : gmap string json)
  : Db → Response * Db :=
  try_catch
    (let resumeData := <["user" := JId user_id]> body in
     updatedResume <- Resume_findOneAndUpdate user_id resumeData ;;
     ret (mkResponse 201 (ResumeBody "Resume saved successfully!"
                            (hydrate_resume updatedResume))))
    (λ error, mkResponse 500 (Message "Failed to save resume.")).

(** *** POST /jobs: the spec's [createJob] *)

(** The validation [save()] runs on [new Job(obj)]: every path casts, the
    required paths are filled and the employment type is in the enum. *)
Definition Job_validate (obj : gmap string json) : option (ObjectId * gmap string json) :=
  r ← obj !! "recruiter" ≫= castObjectId;
  m ← castFields jobSchema obj;
  if validate jobSchema m then Some (r, m ∪ arrayDefaults jobSchema) else None.

Definition Job_save (id : ObjectId) (obj : gmap string json) : Async Job :=
  match Job_validate obj with
  | Some (r, fields) =>
      let job := mkJob id r fields (now env) (now env) in
      insertOne env JobModel job ;;;
      ret job
  | None => throw ValidationError
  end.

Definition createJob (user_id : ObjectId) (body : gmap string json)
  : Db → Response * Db :=
  try_catch
    (job <- Job_save (oid env 0) (<["recruiter" := JId user_id]> body) ;;
     ret (mkResponse 201 (JobBody job)))
    (λ err, mkResponse 500 (Text "Server Error")).

(** *** DELETE /jobs/:id: the spec's [deleteJob] *)

Definition deleteJob (user_id id : ObjectId) : Db → Response * Db :=
  try_catch
    (found <- findById env JobModel id ;;
     match found with
     | None => ret (mkResponse 404 (Msg "Job not found"))
     | Some job' =>
         if negb (recruiter job' =? user_id)
         then ret (mkResponse 401 (Msg "User not authorized"))
         else
           deleteOne env JobModel (λ j, j_id j =? id) ;;;
           deleteMany env ApplicationModel (λ a, job a =? id) ;;;
           ret (mkResponse 200 (Msg "Job removed"))
     end)
    (λ err, mkResponse 500 (Text "Server Error")).

(** *** POST /api/jobs/:id/apply: the spec's [apply] *)

(** [new Application({ job, candidate, resume })]: the status takes its
    default; the three required references are set, so [save()] passes
    the validation. *)
Definition Application_new (id job' candidate' resume' : ObjectId) : Application :=
  let status' := match path_default applicationStatus with
                 | Some (JStr s) => s
                 | _ => ""
                 end in
  mkApplication id job' candidate' resume' status' (now env) (now env).

Definition applyJob (user_id id : ObjectId) : Db → Response * Db :=
  try_catch
    (found <- findById env JobModel id ;;
     match found with
     | None => ret (mkResponse 404 (Msg "Job not found"))
     | Some _ =>
         found_resume <- findOne env ResumeModel (λ r, r_user r =? user_id) ;;
         match found_resume with
         | None => ret (mkResponse 400 (Msg "You must have a saved resume to apply."))
         | Some resume' =>
             existingApplication <-
               findOne env ApplicationModel
                 (λ a, (job a =? id) && (candidate a =? user_id)) ;;
             match existingApplication with
             | Some _ => ret (mkResponse 400 (Msg "You have already applied for this job."))
             | None =>
                 insertOne env ApplicationModel
                   (Application_new (oid env 0) id user_id (r_id resume')) ;;;
                 ret (mkResponse 201 (Msg "Application submitted successfully!"))
             end
         end
     end)
    (λ err, mkResponse 500 (Text "Server Error")).

(** *** PUT /api/users/:id/role: the spec's [changeRole] *)

(** [['Candidate', 'Recruiter', 'Admin'].includes(role)] *)
Definition includes_role (role' : option json) : bool :=
  match role' with
  | Some (JStr s) => existsb (String.eqb s) roles
  | _ => false
  end.

Definition changeRole (user_id id : ObjectId) (body : gmap string json)
  : Db → Response * Db :=
  let role' := body !! "role" in
  if negb (includes_role role')
  then λ db, (mkResponse 400 (Msg "Invalid role specified."), db)
  else
    try_catch
      (found <- findById env UserModel id ;;
       match found with
       | None => ret (mkResponse 404 (Msg "User not found"))
       | Some user =>
           if u_id user =? user_id
           then ret (mkResponse 400 (Msg "You cannot change your own role."))
           else
             let new_role := match role' with Some (JStr s) => s | _ => role user end in
             let user := mkUser (u_id user) (username user) (password user)
                                new_role (recruiterProfile user) in
             (if User_validate_role new_role
              then replaceOne env UserModel user
              else throw ValidationError) ;;;
             ret (mkResponse 200 (UserBody user))
       end)
      (λ err, mkResponse 500 (Text "Server Error")).

(** *** The routes, behind their middleware *)

Definition POST_api_resume (token : option Token) (body : gmap string json) :=
  guarded env isCandidate (λ user, saveResume (tu_id user) body) token.

Definition POST_jobs (token : option Token) (body : gmap string json) :=
  guarded env isRecruiter (λ user, createJob (tu_id user) body) token.

Definition DELETE_jobs (token : option Token) (id : ObjectId) :=
  guarded env isRecruiter (λ user, deleteJob (tu_id user) id) token.

Definition POST_api_jobs_apply (token : option Token) (id : ObjectId) :=
  guarded env isCandidate (λ user, applyJob (tu_id user) id) token.

Definition PUT_api_users_role (token : option Token) (id : ObjectId)
    (body : gmap string json) :=
  guarded env isAdmin (λ user, changeRole (tu_id user) id body) token.
End Handlers.

(** ** Vocabulary of the statements *)

Definition has_job (db : Db) (id : ObjectId) : Prop :=
  ∃ j, j ∈ jobs db ∧ j_id j = id.

Definition has_application (db : Db) (id user_id : ObjectId) : Prop :=
  ∃ a, a ∈ applications db ∧ job a = id ∧ candidate a = user_id.

Definition has_username (db : Db) (name : string) : Prop :=
  ∃ u, u ∈ users db ∧ username u = name.

(** What [Resume.findOne({ user })] answers: the candidate's current resume. *)
Definition Resume_of (db : Db) (user_id : ObjectId) : option Resume :=
  first_match (λ r, r_user r =? user_id) (resumes db).

(** The number of resumes a user owns. *)
Definition resume_count (db : Db) (user_id : ObjectId) : nat :=
  length (filter (λ r, r_user r = user_id) (resumes db)).

(** The database after the resume [r] of a user was written. *)
Definition written (db : Db) (user_id : ObjectId) (r : Resume) : Db :=
  mkDb (users db) (recruiterProfiles db)
       (match Resume_of db user_id with
        | Some _ => update_first (λ r, r_user r =? user_id) (λ _, r) (resumes db)
        | None => resumes db ++ [r]
        end)
       (jobs db) (applications db).

(** A resume with its [updatedAt] stamp blanked. *)
Definition forget_updatedAt (r : Resume) : Resume :=
  mkResume (r_id r) (r_user r) (r_content r) (r_createdAt r) 0.

(** A body names one of the three roles. *)
Definition names_role (body : gmap string json) : Prop :=
  ∃ s, body !! "role" = Some (JStr s) ∧ s ∈ roles.

(** The declared type of a path. *)
Fixpoint schema_type (schema : list SchemaPath) (p : string) : option SchemaType :=
  match schema with
  | [] => None
  | sp :: rest => if String.eqb (path_name sp) p then Some (path_type sp) else schema_type rest p
  end.

(** The paths a schema marks [required: true]. *)
Definition required_paths (schema : list SchemaPath) : list string :=
  path_name <$> filter (λ sp, path_required sp = true) schema.

(** A body leaves a path out: the key is absent or holds [null]. *)
Definition leaves_out (body : gmap string json) (p : string) : Prop :=
  body !! p = None ∨ body !! p = Some JNull.

(** Successive calls of POST /api/resume by one candidate. *)
Section Sequences.
Context `{Externals}.

(** The document a save with a plain body writes for a user, given the
    cast fields of the body: the first resume of the user with these
    fields set, or a new resume holding them over the insert defaults. *)
Definition saved (env : Env) (db : Db) (user_id : ObjectId) (fields : gmap string json)
  : Resume :=
  match Resume_of db user_id with
  | Some old =>
      mkResume (r_id old) user_id (fields ∪ r_content old) (r_createdAt old) (now env)
  | None =>
      mkResume (oid env 0) user_id (fields ∪ Resume_insertDefaults) (now env) (now env)
  end.

Fixpoint saveResume_seq (calls : list (Env * gmap string json)) (user_id : ObjectId)
    (db : Db) : Db :=
  match calls with
  | [] => db
  | (env, body) :: rest => saveResume_seq rest user_id (saveResume env user_id body db).2
  end.
End Sequences.

(** ** Sample data *)

Definition sample_externals : Externals := {|
  bcrypt_hash s := "$2a$" +:+ s;
  bcrypt_compare s h := String.eqb ("$2a$" +:+ s) h;
  User_validate u := existsb (String.eqb (role u)) roles;
  User_validate_role r := existsb (String.eqb r) roles;
  castString v := match v with
                  | JStr s => Some s
                  | JId i => Some (pretty i)
                  | JNum n => Some (pretty n)
                  | JBool b => Some (if b then "true" else "false")
                  | _ => None
                  end;
  Resume_insertDefaults := schemaDefaults resumeSchema;
  Resume_updateOther _ _ _ _ := None |}.

Definition ids (n : nat) : ObjectId := 100 + N.of_nat n.

Definition sample_env : Env := mkEnv true "secret" 1000 ids.
Definition offline_env : Env := mkEnv false "secret" 1000 ids.
(** One second before the five hours are over, and at the five hours. *)
Definition late_env : Env := mkEnv true "secret" 18999 ids.
Definition expired_env : Env := mkEnv true "secret" 19000 ids.

Definition sample_job_body : gmap string json :=
  list_to_map [ ("jobTitle", JStr "Engineer"); ("location", JStr "Dhaka");
                ("employmentType", JStr "Contract"); ("jobSummary", JStr "Proofs");
                ("companyName", JStr "ACME") ].

Definition admin : User := mkUser 1 "admin" "$2a$adminpassword" "Admin" None.
Definition alice : User := mkUser 2 "alice" "$2a$wonderland" "Candidate" None.
Definition rita : User := mkUser 3 "rita" "$2a$books" "Recruiter" (Some 4).

Definition admin_token : Token := jwt_sign (mkTokenUser 1 "Admin") "secret" 1000.
Definition former_admin_token : Token := jwt_sign (mkTokenUser 7 "Admin") "secret" 1000.
Definition alice_token : Token := jwt_sign (mkTokenUser 2 "Candidate") "secret" 1000.
Definition rita_token : Token := jwt_sign (mkTokenUser 3 "Recruiter") "secret" 1000.

Definition sample_job : Job := mkJob 10 3 sample_job_body 500 500.
Definition other_job : Job := mkJob 11 3 sample_job_body 600 600.
Definition sample_resume : Resume := mkResume 20 2 {[ "summary" := JStr "a" ]} 700 700.
Definition sample_application : Application := mkApplication 30 10 2 20 "Submitted" 800 800.
Definition other_application : Application := mkApplication 31 11 5 21 "Viewed" 810 810.

Definition sample_db : Db :=
  mkDb [admin; alice; rita] [mkProfile 4 (Some 3) ∅] [sample_resume]
       [sample_job; other_job] [sample_application; other_application].

Definition empty_db : Db := mkDb [] [] [] [] [].

Definition first_save : gmap string json :=
  list_to_map [ ("summary", JStr "a"); ("skills", JArr [JStr "Rocq"]) ].
Definition second_save : gmap string json :=
  list_to_map [ ("summary", JStr "b") ].

Definition unicorn : gmap string json := {[ "role" := JStr "Unicorn" ]}.

(** The scenario of the spec: a candidate registers, logs in, saves a
    resume and applies to a job; the recruiter deletes the job; the
    candidate applies again. *)
Definition env_at (clock base : N) : Env :=
  mkEnv true "secret" clock (λ n, base + N.of_nat n).

Definition carol_token : Token := jwt_sign (mkTokenUser 200 "Candidate") "secret" 2010.

Definition registered :=
  register (H := sample_externals) (env_at 2000 200) "carol" "pw" "Candidate" ∅ sample_db.
Definition logged_in :=
  login (H := sample_externals) (env_at 2010 210) "carol" (Some "pw") registered.2.
Definition resume_saved :=
  POST_api_resume (H := sample_externals) (env_at 2020 220) (Some carol_token) first_save
    logged_in.2.
Definition applied :=
  POST_api_jobs_apply (env_at 2030 230) (Some carol_token) 10 resume_saved.2.
Definition job_deleted :=
  DELETE_jobs (env_at 2040 240) (Some rita_token) 10 applied.2.
Definition applied_again :=
  POST_api_jobs_apply (env_at 2050 250) (Some carol_token) 10 job_deleted.2.

(** Membership in a list that is written out, and its refutation. *)
Ltac member :=
  cbn; repeat first [apply list_elem_of_here | apply list_elem_of_further].
Ltac no_member H :=
  cbn in H;
  repeat (let E := fresh "E" in
          apply elem_of_cons in H as [E | H];
          [first [discriminate E | subst; done] |]);
  inversion H.

Ltac run :=
  unfold try_catch, bind, ret, throw, findById, findOne, deleteOne, deleteMany,
    insertOne, replaceOne, query; simpl.

(** A list that is written out has no duplicates. *)
Ltac distinct :=
  cbn;
  repeat (apply NoDup_cons; split; [let Hin := fresh "Hin" in intros Hin; no_member Hin |]);
  apply NoDup_nil_2.


(** Externals in which an update with [$unset] removes the paths it
    names from the resume, and every other update that is not plain is
    refused. *)
Definition unset_externals : Externals := {|
  bcrypt_hash := bcrypt_hash (Externals := sample_externals);
  bcrypt_compare := bcrypt_compare (Externals := sample_externals);
  User_validate := User_validate (Externals := sample_externals);
  User_validate_role := User_validate_role (Externals := sample_externals);
  castString := castString (Externals := sample_externals);
  Resume_insertDefaults := schemaDefaults resumeSchema;
  Resume_updateOther update clock fresh old :=
    match update !! "$unset", old with
    | Some (JObj paths), Some r =>
        Some (mkResume (r_id r) (r_user r)
                (foldr (λ kv content, delete kv.1 content) (r_content r) paths)
                (r_createdAt r) clock)
    | _, _ => None
    end |}.

Definition unset_summary : gmap string json :=
  list_to_map [ ("$unset", JObj [ ("summary", JStr "") ]); ("user", JId 3) ].

Definition to_recruiter : gmap string json := {[ "role" := JStr "Recruiter" ]}.


(** ** The other routes of src/index.js

    A resume or a job is answered as Mongoose loads it ([hydrate_resume],
    [hydrate_job]).  [doc.remove()] is
    [Document.prototype.remove] as Mongoose has it up to version 6: it
    deletes the document by its [_id].  PUT /api/resume/template is left
    out: what [save()] writes there depends on the change tracking of the
    loaded document.  GET /api/users is left out with the schema of
    [models/User.js], and GET / with it: it answers a fixed text. *)

(** The answer of a route that sends data: [res.json(a)] with the default
    status, or one of the responses above. *)
Inductive Reply (A : Type) :=
| Sent (r : Response)
| Json (a : A).
Arguments Sent {A} r.
Arguments Json {A} a.

(** [try]/[catch] around the body of such a route. *)
Definition try_reply {A} (m : Async (Reply A)) (h : exn → Response) : Db → Reply A * Db :=
  λ db, match m db with
        | (Return r, db') => (r, db')
        | (Throw e, db') => (Sent (h e), db')
        end.

(** [app.get(path, auth, guard, handler)] for such a route. *)
Definition guarded_reply {A} (env : Env) (guard : TokenUser → option Response)
    (handler : TokenUser → Db → Reply A * Db) (token : option Token)
  : Db → Reply A * Db :=
  match auth env token with
  | inl r => λ db, (Sent r, db)
  | inr user =>
      match guard user with
      | Some r => λ db, (Sent r, db)
      | None => handler user
      end
  end.

(** [Model.find(filter)] *)
Definition find (env : Env) {D : Type} (M : Model D) (filter : D → bool) : Async (list D) :=
  query env (λ db, (List.filter filter (docs M db), db)).

(** [.sort({ createdAt: -1 })]: newest first.  The order among jobs of one
    stamp is the store's; here the one met first stays first. *)
Fixpoint insert_newest (j : Job) (l : list Job) : list Job :=
  match l with
  | [] => [j]
  | j' :: l' =>
      if j_createdAt j' <? j_createdAt j
      then j :: j' :: l'
      else j' :: insert_newest j l'
  end.

Definition sort_newest (l : list Job) : list Job :=
  foldr insert_newest [] l.

(** What [populate] puts in place of a reference: the selected paths of the
    referenced document, or [null]. *)
Record JobCard := mkJobCard { jc_id : ObjectId; jc_fields : gmap string json }.
Record CandidateCard := mkCandidateCard { cc_id : ObjectId; cc_username : string }.

(** [populate('job', 'jobTitle companyName location')] *)
Definition populate_job (db : Db) (a : Application) : option JobCard :=
  (λ j, mkJobCard (j_id j)
          (filter (λ kv, kv.1 ∈ [ "jobTitle"; "companyName"; "location" ]) (j_fields j)))
  <$> first_match (λ j, j_id j =? job a) (jobs db).

(** [populate('candidate', 'username')] *)
Definition populate_candidate (db : Db) (a : Application) : option CandidateCard :=
  (λ u, mkCandidateCard (u_id u) (username u))
  <$> first_match (λ u, u_id u =? candidate a) (users db).

(** [populate('resume')] *)
Definition populate_resume (db : Db) (a : Application) : option Resume :=
  hydrate_resume <$> first_match (λ r, r_id r =? resume a) (resumes db).

Record CandidateApplication := mkCandidateApplication {
  ca_application : Application;
  ca_job : option JobCard }.

Record JobApplication := mkJobApplication {
  ja_application : Application;
  ja_candidate : option CandidateCard;
  ja_resume : option Resume }.

Section OtherHandlers.
Context `{Externals} (env : Env).

(** *** DELETE /api/resume: the spec's [deleteResume] *)

Definition deleteResume (user_id : ObjectId) : Db → Response * Db :=
  try_catch
    (found <- findOne env ResumeModel (λ r, r_user r =? user_id) ;;
     match found with
     | None => ret (mkResponse 404 (Msg "Resume not found"))
     | Some resume' =>
         (* resume.remove() *)
         deleteOne env ResumeModel (λ r, r_id r =? r_id resume') ;;;
         ret (mkResponse 200 (Msg "Resume deleted successfully"))
     end)
    (λ err, mkResponse 500 (Msg "Server Error")).

(** *** GET /api/my-resume-id *)

Definition myResumeId (user_id : ObjectId) : Db → Reply ObjectId * Db :=
  try_reply
    (found <- findOne env ResumeModel (λ r, r_user r =? user_id) ;;
     match found with
     | None => ret (Sent (mkResponse 404 (Msg "Resume not found for this user.")))
     | Some resume' => ret (Json (r_id resume'))
     end)
    (λ err, mkResponse 500 (Msg "Server Error")).

(** *** GET /api/my-resume *)

Definition myResume (user_id : ObjectId) : Db → Reply (option Resume) * Db :=
  try_reply
    (found <- findOne env ResumeModel (λ r, r_user r =? user_id) ;;
     ret (Json (hydrate_resume <$> found)))
    (λ err, mkResponse 500 (Msg "Server Error")).

(** *** GET /api/resume/:id *)

Definition getResume (id : ObjectId) : Db → Reply Resume * Db :=
  try_reply
    (found <- findById env ResumeModel id ;;
     match found with
     | None => ret (Sent (mkResponse 404 (Msg "Resume not found")))
     | Some resume' => ret (Json (hydrate_resume resume'))
     end)
    (λ err, mkResponse 500 (Msg "Server Error")).

(** *** GET /jobs *)

Definition getJobs (user_id : ObjectId) : Db → Reply (list Job) * Db :=
  try_reply
    (found <- find env JobModel (λ j, recruiter j =? user_id) ;;
     ret (Json (hydrate_job <$> sort_newest found)))
    (λ err, mkResponse 500 (Text "Server Error")).

(** *** GET /api/public-jobs and GET /api/public-jobs/:id *)

Definition publicJobs : Db → Reply (list Job) * Db :=
  try_reply
    (found <- find env JobModel (λ _, true) ;;
     ret (Json (hydrate_job <$> sort_newest found)))
    (λ err, mkResponse 500 (Text "Server Error")).

Definition publicJob (id : ObjectId) : Db → Reply Job * Db :=
  try_reply
    (found <- findById env JobModel id ;;
     match found with
     | None => ret (Sent (mkResponse 404 (Msg "Job not found")))
     | Some job' => ret (Json (hydrate_job job'))
     end)
    (λ err, mkResponse 500 (Text "Server Error")).

(** *** GET /api/candidate/applications *)

Definition candidateApplications (user_id : ObjectId)
  : Db → Reply (list CandidateApplication) * Db :=
  try_reply
    (found <- find env ApplicationModel (λ a, candidate a =? user_id) ;;
     populated <- query env (λ db,
                    ((λ a, mkCandidateApplication a (populate_job db a)) <$> found, db)) ;;
     ret (Json populated))
    (λ err, mkResponse 500 (Msg "Server Error")).

(** *** GET /api/jobs/:id/applications *)

Definition jobApplications (user_id id : ObjectId)
  : Db → Reply (list JobApplication) * Db :=
  try_reply
    (found <- findById env JobModel id ;;
     match found with
     | None => ret (Sent (mkResponse 404 (Msg "Job not found")))
     | Some job' =>
         if negb (recruiter job' =? user_id)
         then ret (Sent (mkResponse 401 (Msg "User not authorized")))
         else
           found <- find env ApplicationModel (λ a, job a =? id) ;;
           populated <- query env (λ db,
                          ((λ a, mkJobApplication a (populate_candidate db a)
                                   (populate_resume db a)) <$> found, db)) ;;
           ret (Json populated)
     end)
    (λ err, mkResponse 500 (Msg "Server Error")).

(** *** DELETE /api/users/:id: the spec's [deleteUser] *)

Definition deleteUser (user_id id : ObjectId) : Db → Response * Db :=
  try_catch
    (found <- findById env UserModel id ;;
     match found with
     | None => ret (mkResponse 404 (Msg "User not found"))
     | Some user =>
         if u_id user =? user_id
         then ret (mkResponse 400 (Msg "You cannot delete your own account."))
         else
           (* user.remove() *)
           deleteOne env UserModel (λ u, u_id u =? u_id user) ;;;
           ret (mkResponse 200 (Msg "User removed"))
     end)
    (λ err, mkResponse 500 (Text "Server Error")).

(** *** DELETE /jobs/:id, when the store goes down between its two writes

    [Job.deleteOne] and [Application.deleteMany] are awaited one after the
    other.  Here the store is [env] up to the first and [env'] at the
    second; [deleteJob env] is [deleteJob_at env env]. *)
Definition deleteJob_at (env' : Env) (user_id id : ObjectId) : Db → Response * Db :=
  try_catch
    (found <- findById env JobModel id ;;
     match found with
     | None => ret (mkResponse 404 (Msg "Job not found"))
     | Some job' =>
         if negb (recruiter job' =? user_id)
         then ret (mkResponse 401 (Msg "User not authorized"))
         else
           deleteOne env JobModel (λ j, j_id j =? id) ;;;
           deleteMany env' ApplicationModel (λ a, job a =? id) ;;;
           ret (mkResponse 200 (Msg "Job removed"))
     end)
    (λ err, mkResponse 500 (Text "Server Error")).

(** *** The script that creates the first administrator

    It answers what it logs. *)
Definition createAdmin : Db → string * Db :=
  λ db,
    match (adminExists <- findOne env UserModel (λ u, String.eqb (role u) "Admin") ;;
           match adminExists with
           | Some _ => ret "Admin user already exists."
           | None =>
               User_save env (mkUser (oid env 0) "admin" "adminpassword" "Admin" None) ;;;
               ret "Admin user created successfully!"
           end) db with
    | (Return log, db') => (log, db')
    | (Throw _, db') => ("Error creating admin user:", db')
    end.

(** *** These routes, behind their middleware *)

Definition DELETE_api_resume (token : option Token) :=
  guarded env isCandidate (λ user, deleteResume (tu_id user)) token.

Definition GET_api_my_resume_id (token : option Token) :=
  guarded_reply env isCandidate (λ user, myResumeId (tu_id user)) token.

Definition GET_api_my_resume (token : option Token) :=
  guarded_reply env isCandidate (λ user, myResume (tu_id user)) token.

Definition GET_api_resume (token : option Token) (id : ObjectId) :=
  guarded_reply env (λ _, None) (λ _, getResume id) token.

Definition GET_jobs (token : option Token) :=
  guarded_reply env isRecruiter (λ user, getJobs (tu_id user)) token.

Definition GET_api_candidate_applications (token : option Token) :=
  guarded_reply env isCandidate (λ user, candidateApplications (tu_id user)) token.

Definition GET_api_jobs_applications (token : option Token) (id : ObjectId) :=
  guarded_reply env isRecruiter (λ user, jobApplications (tu_id user) id) token.

Definition DELETE_api_users (token : option Token) (id : ObjectId) :=
  guarded env isAdmin (λ user, deleteUser (tu_id user) id) token.
End OtherHandlers.

(** ** Invariants of the collections *)

(** At most one application per job and candidate. *)
Definition applications_unique (db : Db) : Prop :=
  NoDup ((λ a, (job a, candidate a)) <$> applications db).

(** Every application refers to a stored job. *)
Definition applications_have_job (db : Db) : Prop :=
  ∀ a, a ∈ applications db → has_job db (job a).

(** At most one resume per user. *)
Definition resumes_unique (db : Db) : Prop :=
  NoDup (r_user <$> resumes db).

(** Every stored job passes the validators of [jobSchema]. *)
Definition jobs_valid (db : Db) : Prop :=
  ∀ j, j ∈ jobs db → validate jobSchema (j_fields j) = true.

(** Newest first. *)
Definition newer_or_same (j j' : Job) : Prop := j_createdAt j' ≤ j_createdAt j.

(** * Properties *)

(** ** Queries over a collection *)

Section ListQueries.
Context {D : Type} (f : D → bool).

Lemma first_match_None (l : list D) :
  first_match f l = None ↔ ∀ d, d ∈ l → f d = false.
Proof.
  induction l as [|d l IH]; simpl.
  - split; [intros _ d Hd; inversion Hd | done].
  - destruct (f d) eqn:Hf.
    + split; [done | intros Hall]. rewrite Hall in Hf; [done | left].
    + rewrite IH. split.
      * intros Hall d' Hd'. inversion Hd'; subst; auto.
      * intros Hall d' Hd'. apply Hall. by right.
Qed.

Lemma first_match_Some (l : list D) (d : D) :
  first_match f l = Some d → d ∈ l ∧ f d = true.
Proof.
  induction l as [|d' l IH]; simpl; [done |].
  destruct (f d') eqn:Hf.
  - intros [= <-]. split; [left | done].
  - intros Hd. destruct (IH Hd). split; [by right | done].
Qed.

Lemma first_match_is_Some (l : list D) (d : D) :
  d ∈ l → f d = true → is_Some (first_match f l).
Proof.
  intros Hd Hf. destruct (first_match f l) eqn:Hm; [eauto |].
  rewrite first_match_None in Hm. rewrite (Hm d Hd) in Hf. done.
Qed.

Lemma first_match_app_None (l : list D) (d : D) :
  first_match f l = None → first_match f (l ++ [d]) = if f d then Some d else None.
Proof.
  induction l as [|d' l IH]; simpl; [done |].
  destruct (f d'); [done | exact IH].
Qed.

Lemma elem_of_remove_all (l : list D) (d : D) :
  d ∈ remove_all f l ↔ d ∈ l ∧ f d = false.
Proof.
  induction l as [|d' l IH]; simpl.
  - split; [intros Hd; inversion Hd | intros [Hd _]; inversion Hd].
  - destruct (f d') eqn:Hf.
    + rewrite IH. split.
      * intros [Hd Hfd]. split; [by right | done].
      * intros [Hd Hfd]. inversion Hd; subst; [congruence | done].
    + rewrite !elem_of_cons, IH. split.
      * intros [-> | [Hd Hfd]]; auto.
      * intros [[-> | Hd] Hfd]; auto.
Qed.

Lemma remove_all_id (l : list D) :
  (∀ d, d ∈ l → f d = false) → remove_all f l = l.
Proof.
  induction l as [|d l IH]; simpl; [done |]. intros Hall.
  rewrite (Hall d) by left. f_equal. apply IH. intros d' Hd'. apply Hall. by right.
Qed.

End ListQueries.

(** With unique keys, removing the first document of a key removes the key. *)
Lemma remove_first_remove_all {D} (key : D → ObjectId) (id : ObjectId) (l : list D) :
  NoDup (key <$> l) →
  remove_first (λ d, key d =? id) l = remove_all (λ d, key d =? id) l.
Proof.
  induction l as [|d l IH]; simpl; [done |].
  intros Hnd. apply NoDup_cons in Hnd as [Hd Hnd].
  destruct (key d =? id) eqn:Hk.
  - apply N.eqb_eq in Hk. symmetry. apply remove_all_id.
    intros d' Hd'. apply N.eqb_neq. intros Hk'. apply Hd.
    rewrite Hk, <- Hk'. apply list_elem_of_fmap. eauto.
  - f_equal. by apply IH.
Qed.

Lemma remove_all_filter {D} (key : D → ObjectId) (id : ObjectId) (l : list D) :
  remove_all (λ d, key d =? id) l = filter (λ d, key d ≠ id) l.
Proof.
  induction l as [|d l IH]; simpl; [done |].
  destruct (key d =? id) eqn:Hk.
  - apply N.eqb_eq in Hk. rewrite filter_cons_False; [done | ]. intros Hne. by apply Hne.
  - apply N.eqb_neq in Hk. rewrite filter_cons_True by done. by rewrite IH.
Qed.

Section Apply.

Lemma job_lookup_None db id :
  ¬ has_job db id → first_match (λ j, j_id j =? id) (jobs db) = None.
Proof.
  intros Hno. apply first_match_None. intros j Hj. apply N.eqb_neq.
  intros Hid. apply Hno. by exists j.
Qed.

Lemma job_lookup_Some db id :
  has_job db id → is_Some (first_match (λ j, j_id j =? id) (jobs db)).
Proof.
  intros (j & Hj & Hid). apply (first_match_is_Some _ _ j Hj). by apply N.eqb_eq.
Qed.

Lemma application_lookup_None db id user_id :
  ¬ has_application db id user_id →
  first_match (λ a, (job a =? id) && (candidate a =? user_id)) (applications db) = None.
Proof.
  intros Hno. apply first_match_None. intros a Ha.
  destruct (job a =? id) eqn:Hj, (candidate a =? user_id) eqn:Hc; try done.
  apply N.eqb_eq in Hj, Hc. exfalso. apply Hno. by exists a.
Qed.

Lemma application_lookup_Some db id user_id :
  has_application db id user_id →
  is_Some (first_match (λ a, (job a =? id) && (candidate a =? user_id)) (applications db)).
Proof.
  intros (a & Ha & Hj & Hc). apply (first_match_is_Some _ _ a Ha).
  apply andb_true_intro. split; by apply N.eqb_eq.
Qed.

(** C1: while the store answers, applying to a job answers 404 "Job not
    found" when no job has the id; otherwise 400 "You must have a saved
    resume to apply." when the candidate owns no resume; otherwise 400
    "You have already applied for this job." when an application of the
    candidate to the job exists; the database is unchanged in the three
    cases.  Otherwise exactly one application is appended, for this job
    and candidate, referring to the id of the candidate's current resume,
    with status "Submitted"; a second call for the same pair then answers
    the 400 of a repeated application and changes nothing. *)
Theorem applyJob_spec (env : Env) (db : Db) (user_id id : ObjectId) :
  connected env = true →
  (¬ has_job db id →
     applyJob env user_id id db = (mkResponse 404 (Msg "Job not found"), db)) ∧
  (has_job db id → (∀ r, r ∈ resumes db → r_user r ≠ user_id) →
     applyJob env user_id id db
     = (mkResponse 400 (Msg "You must have a saved resume to apply."), db)) ∧
  (has_job db id → (∃ r, r ∈ resumes db ∧ r_user r = user_id) →
   has_application db id user_id →
     applyJob env user_id id db
     = (mkResponse 400 (Msg "You have already applied for this job."), db)) ∧
  (has_job db id → ¬ has_application db id user_id →
   ∀ r, Resume_of db user_id = Some r →
     ∃ a, applyJob env user_id id db
          = (mkResponse 201 (Msg "Application submitted successfully!"),
             mkDb (users db) (recruiterProfiles db) (resumes db) (jobs db)
                  (applications db ++ [a]))
          ∧ job a = id ∧ candidate a = user_id ∧ resume a = r_id r
          ∧ a_status a = "Submitted") ∧
  (∀ db' env',
     applyJob env user_id id db
     = (mkResponse 201 (Msg "Application submitted successfully!"), db') →
     connected env' = true →
     applyJob env' user_id id db'
     = (mkResponse 400 (Msg "You have already applied for this job."), db')).
Proof.
  intros Hc.
  assert (Hconflict : ∀ e d, connected e = true → has_job d id →
            (∃ r, r ∈ resumes d ∧ r_user r = user_id) → has_application d id user_id →
            applyJob e user_id id d
            = (mkResponse 400 (Msg "You have already applied for this job."), d)).
  { intros e d He Hj (r & Hr & Hu) Ha. unfold applyJob. run. rewrite He.
    destruct (job_lookup_Some _ _ Hj) as [j ->]. simpl.
    destruct (first_match_is_Some (λ r, r_user r =? user_id) _ r Hr) as [r' ->];
      [by apply N.eqb_eq |]. simpl.
    by destruct (application_lookup_Some _ _ _ Ha) as [a ->]. }
  repeat split.
  - intros Hno. unfold applyJob. run. rewrite Hc.
    by rewrite (job_lookup_None _ _ Hno).
  - intros Hj Hno. unfold applyJob. run. rewrite Hc.
    destruct (job_lookup_Some _ _ Hj) as [j ->]. simpl.
    assert (first_match (λ r, r_user r =? user_id) (resumes db) = None) as ->; [| done].
    apply first_match_None. intros r Hr. apply N.eqb_neq. by apply Hno.
  - by apply Hconflict.
  - intros Hj Hno r Hr.
    exists (Application_new env (oid env 0) id user_id (r_id r)).
    split; [| done]. unfold applyJob. run. rewrite Hc.
    destruct (job_lookup_Some _ _ Hj) as [j ->]. simpl.
    unfold Resume_of in Hr. rewrite Hr. simpl.
    by rewrite (application_lookup_None _ _ _ Hno).
  - intros db' env' Hok Hc'. revert Hok. unfold applyJob. run. rewrite Hc, Hc'.
    destruct (first_match _ (jobs db)) as [j|] eqn:Hj; simpl; [| done].
    destruct (first_match _ (resumes db)) as [r|] eqn:Hr; simpl; [| done].
    destruct (first_match _ (applications db)) as [a|] eqn:Ha; simpl; [done |].
    intros [= <-]. simpl. rewrite Hj. simpl. rewrite Hr. simpl.
    rewrite (first_match_app_None _ _ _ Ha). simpl. by rewrite !N.eqb_refl.
Qed.
End Apply.

(** The four outcomes on the sample database: an unknown job, a recruiter
    without resume, a repeated application, a first application. *)
Lemma applyJob_spec_witness :
  applyJob sample_env 2 99 sample_db = (mkResponse 404 (Msg "Job not found"), sample_db) ∧
  applyJob sample_env 3 10 sample_db
    = (mkResponse 400 (Msg "You must have a saved resume to apply."), sample_db) ∧
  applyJob sample_env 2 10 sample_db
    = (mkResponse 400 (Msg "You have already applied for this job."), sample_db) ∧
  ∃ a, applyJob sample_env 2 11 sample_db
       = (mkResponse 201 (Msg "Application submitted successfully!"),
          mkDb (users sample_db) (recruiterProfiles sample_db) (resumes sample_db)
               (jobs sample_db) (applications sample_db ++ [a]))
       ∧ job a = 11 ∧ candidate a = 2 ∧ resume a = 20 ∧ a_status a = "Submitted".
Proof.
  assert (Hjob10 : has_job sample_db 10) by (exists sample_job; split; [member | done]).
  assert (Hjob11 : has_job sample_db 11) by (exists other_job; split; [member | done]).
  destruct (applyJob_spec sample_env sample_db 2 99 eq_refl) as (Habsent & _).
  destruct (applyJob_spec sample_env sample_db 3 10 eq_refl) as (_ & Hresume & _).
  destruct (applyJob_spec sample_env sample_db 2 10 eq_refl) as (_ & _ & Htwice & _).
  destruct (applyJob_spec sample_env sample_db 2 11 eq_refl) as (_ & _ & _ & Hnew & _).
  split_and!.
  - apply Habsent. intros (j & Hj & Hid). no_member Hj.
  - apply Hresume; [done |]. intros r Hr. no_member Hr.
  - apply Htwice; [done | |].
    + exists sample_resume. split; [member | done].
    + exists sample_application. split; [member | done].
  - assert (Hno : ¬ has_application sample_db 11 2)
      by (intros (a & Ha & Hj & Hcand); no_member Ha).
    exact (Hnew Hjob11 Hno sample_resume eq_refl).
Defined.

(** ** DELETE /jobs/:id *)

Lemma first_match_unique {D} (key : D → ObjectId) (l : list D) (d : D) :
  NoDup (key <$> l) → d ∈ l →
  first_match (λ d', key d' =? key d) l = Some d.
Proof.
  induction l as [|d' l IH]; simpl; intros Hnd Hd; [inversion Hd |].
  apply NoDup_cons in Hnd as [Hfresh Hnd].
  destruct (key d' =? key d) eqn:Hk.
  - apply N.eqb_eq in Hk. apply elem_of_cons in Hd as [-> | Hd]; [done |].
    exfalso. apply Hfresh. rewrite Hk. apply list_elem_of_fmap. eauto.
  - apply elem_of_cons in Hd as [-> | Hd]; [by rewrite N.eqb_refl in Hk |]. by apply IH.
Qed.

(** C2: while the store answers and job ids are unique, deleting a job
    answers 404 "Job not found" when no job has the id and 401 "User not
    authorized" when the job belongs to another recruiter, changing nothing;
    for the owner it removes the job and exactly the applications whose
    [job] is that id, and keeps every other document. *)
Theorem deleteJob_spec (env : Env) (db : Db) (user_id id : ObjectId) :
  connected env = true →
  NoDup (j_id <$> jobs db) →
  (¬ has_job db id →
     deleteJob env user_id id db = (mkResponse 404 (Msg "Job not found"), db)) ∧
  (∀ j, j ∈ jobs db → j_id j = id → recruiter j ≠ user_id →
     deleteJob env user_id id db = (mkResponse 401 (Msg "User not authorized"), db)) ∧
  (∀ j, j ∈ jobs db → j_id j = id → recruiter j = user_id →
     deleteJob env user_id id db
     = (mkResponse 200 (Msg "Job removed"),
        mkDb (users db) (recruiterProfiles db) (resumes db)
             (filter (λ j', j_id j' ≠ id) (jobs db))
             (filter (λ a, job a ≠ id) (applications db)))).
Proof.
  intros Hc Hnd. repeat split.
  - intros Hno. unfold deleteJob. run. rewrite Hc.
    by rewrite (job_lookup_None _ _ Hno).
  - intros j Hj <- Hr. unfold deleteJob. run. rewrite Hc.
    rewrite (first_match_unique j_id _ j Hnd Hj). simpl.
    apply N.eqb_neq in Hr. by rewrite Hr.
  - intros j Hj <- <-. unfold deleteJob. run. rewrite Hc.
    rewrite (first_match_unique j_id _ j Hnd Hj). simpl.
    rewrite N.eqb_refl. simpl.
    rewrite (remove_first_remove_all j_id _ _ Hnd).
    by rewrite !remove_all_filter.
Qed.

(** On the sample database: an unknown job, the job of somebody else, and
    a job of one's own with one application of two referring to it. *)
Lemma deleteJob_spec_witness :
  deleteJob sample_env 3 99 sample_db = (mkResponse 404 (Msg "Job not found"), sample_db) ∧
  deleteJob sample_env 2 10 sample_db = (mkResponse 401 (Msg "User not authorized"), sample_db) ∧
  deleteJob sample_env 3 10 sample_db
    = (mkResponse 200 (Msg "Job removed"),
       mkDb (users sample_db) (recruiterProfiles sample_db) (resumes sample_db)
            [other_job] [other_application]).
Proof.
  assert (Hids : NoDup (j_id <$> jobs sample_db)).
  { cbn. repeat (apply NoDup_cons; split; [intros Hin; no_member Hin |]). apply NoDup_nil_2. }
  destruct (deleteJob_spec sample_env sample_db 3 99 eq_refl Hids) as (Habsent & _).
  destruct (deleteJob_spec sample_env sample_db 2 10 eq_refl Hids) as (_ & Hforeign & _).
  destruct (deleteJob_spec sample_env sample_db 3 10 eq_refl Hids) as (_ & _ & Hown).
  split_and!.
  - apply Habsent. intros (j & Hj & Hid). no_member Hj.
  - apply (Hforeign sample_job); [member | done | done].
  - apply (Hown sample_job); [member | done | done].
Defined.

(** ** Role checks *)

(** C9: [isCandidate] lets exactly the role "Candidate" through and
    otherwise answers 403; [isAdmin] lets exactly "Admin" through and
    otherwise answers 403; [isRecruiter] lets exactly "Recruiter" through
    and otherwise answers 401, which differs from the answer of the other
    two checks. *)
Theorem role_checks (user : TokenUser) :
  (isCandidate user = None ↔ tu_role user = "Candidate") ∧
  (tu_role user ≠ "Candidate" →
     isCandidate user
     = Some (mkResponse 403 (Msg "Only candidates can perform this action."))) ∧
  (isAdmin user = None ↔ tu_role user = "Admin") ∧
  (tu_role user ≠ "Admin" →
     isAdmin user = Some (mkResponse 403 (Msg "Admin access denied"))) ∧
  (isRecruiter user = None ↔ tu_role user = "Recruiter") ∧
  (tu_role user ≠ "Recruiter" →
     isRecruiter user = Some (mkResponse 401 (Msg "Only recruiters can access this route"))) ∧
  (∀ r r', isRecruiter user = Some r →
     (isCandidate user = Some r' ∨ isAdmin user = Some r') →
     status r = 401 ∧ status r' = 403 ∧ r ≠ r').
Proof.
  unfold isCandidate, isAdmin, isRecruiter.
  destruct (String.eqb_spec (tu_role user) "Candidate") as [Hc|Hc],
           (String.eqb_spec (tu_role user) "Admin") as [Ha|Ha],
           (String.eqb_spec (tu_role user) "Recruiter") as [Hr|Hr]; simpl;
    split_and!; try done; try congruence;
    intros r r' Hden [Hden' | Hden']; simplify_eq; done.
Qed.

(** A candidate passes the first check and is turned away by the others. *)
Lemma role_checks_witness :
  isCandidate (mkTokenUser 2 "Candidate") = None ∧
  isAdmin (mkTokenUser 2 "Candidate") = Some (mkResponse 403 (Msg "Admin access denied")) ∧
  isRecruiter (mkTokenUser 2 "Candidate")
    = Some (mkResponse 401 (Msg "Only recruiters can access this route")).
Proof.
  destruct (role_checks (mkTokenUser 2 "Candidate")) as (Hc & _ & _ & Ha & _ & Hr & _).
  split_and!; [by apply Hc | by apply Ha | by apply Hr].
Defined.

(** ** POST /login *)

Section Login.
Context `{Externals}.

Lemma username_lookup_None db name :
  ¬ has_username db name →
  first_match (λ u, String.eqb (username u) name) (users db) = None.
Proof.
  intros Hno. apply first_match_None. intros u Hu. apply String.eqb_neq.
  intros Hn. apply Hno. by exists u.
Qed.

Lemma username_lookup_Some db name :
  has_username db name →
  ∃ u, first_match (λ u, String.eqb (username u) name) (users db) = Some u
       ∧ u ∈ users db ∧ username u = name.
Proof.
  intros (u & Hu & Hn).
  destruct (first_match_is_Some (λ u, String.eqb (username u) name) _ u Hu) as [u' Hu'];
    [by apply String.eqb_eq |].
  exists u'. split; [done |]. apply first_match_Some in Hu' as [? ?].
  split; [done | by apply String.eqb_eq].
Qed.



End Login.



(** ** Tokens *)

Lemma jwt_verify_Return (token : Token) (secret : string) (clock : N) (c : Claims) :
  jwt_verify token secret clock = Return c ↔ token = Jws secret c ∧ clock < exp c.
Proof.
  destruct token as [s | key c']; simpl; [split; [done | by intros [? _]] |].
  destruct (String.eqb_spec key secret) as [-> | Hk].
  - destruct (N.leb_spec (exp c') clock) as [Hle | Hlt].
    + split; [done |]. intros [[= ->] Hlt]. lia.
    + split; [by intros [= ->] | by intros [[= ->] _]].
  - split; [done |]. intros [[= -> ->] _]. done.
Qed.

Section Tokens.
Context `{Externals}.

Lemma login_token (env : Env) (db db' : Db) (name : string) (secret : option string)
    (token : Token) :
  login env name secret db = (mkResponse 200 (TokenBody token), db') →
  ∃ u, u ∈ users db ∧ username u = name
       ∧ token = jwt_sign (mkTokenUser (u_id u) (role u)) (JWT_SECRET env) (now env).
Proof.
  unfold login. run. destruct (connected env); [| done].
  destruct (first_match _ (users db)) as [u|] eqn:Hu; simpl; [| done].
  destruct secret as [s|]; simpl; [| done].
  destruct (bcrypt_compare s (password u)); simpl; [| done].
  intros [= <- <-]. exists u. apply first_match_Some in Hu as [Hu Hn].
  split; [done |]. split; [by apply String.eqb_eq | done].
Qed.

(** C6: a token issued by the login route is accepted by [auth], which
    yields the id and role of the user, as long as fewer than five hours
    have passed since it was issued, and is answered 401 from then on;
    [auth] answers 401 when the header is missing, when the token is
    malformed, when it is expired and when it was signed under another
    key than [JWT_SECRET]; it accepts exactly the unexpired tokens signed
    under [JWT_SECRET]. *)
Theorem auth_spec (env : Env) :
  (∀ env0 db db' name secret token,
     login env0 name secret db = (mkResponse 200 (TokenBody token), db') →
     JWT_SECRET env = JWT_SECRET env0 →
     ∃ u, u ∈ users db ∧ username u = name ∧
          (now env < now env0 + 5 * 3600 →
             auth env (Some token) = inr (mkTokenUser (u_id u) (role u))) ∧
          (now env0 + 5 * 3600 ≤ now env →
             auth env (Some token) = inl (mkResponse 401 (Msg "Token is not valid")))) ∧
  auth env None = inl (mkResponse 401 (Msg "No token, authorization denied")) ∧
  (∀ s, auth env (Some (Malformed s)) = inl (mkResponse 401 (Msg "Token is not valid"))) ∧
  (∀ key c, exp c ≤ now env →
     auth env (Some (Jws key c)) = inl (mkResponse 401 (Msg "Token is not valid"))) ∧
  (∀ key c, key ≠ JWT_SECRET env →
     auth env (Some (Jws key c)) = inl (mkResponse 401 (Msg "Token is not valid"))) ∧
  (∀ token user, auth env (Some token) = inr user ↔
     ∃ c, token = Jws (JWT_SECRET env) c ∧ now env < exp c ∧ user = c_user c).
Proof.
  split_and!.
  - intros env0 db db' name secret token Hlogin Hkey.
    destruct (login_token _ _ _ _ _ _ Hlogin) as (u & Hu & Hn & ->).
    exists u. split_and!; try done.
    + intros Hlt. unfold auth, jwt_sign, jwt_verify. simpl.
      rewrite Hkey, String.eqb_refl.
      destruct (N.leb_spec (now env0 + expiresIn) (now env)) as [Hle | _]; [| done].
      unfold expiresIn in Hle. lia.
    + intros Hle. unfold auth, jwt_sign, jwt_verify. simpl.
      rewrite Hkey, String.eqb_refl.
      destruct (N.leb_spec (now env0 + expiresIn) (now env)) as [_ | Hlt]; [done |].
      unfold expiresIn in Hlt. lia.
  - done.
  - done.
  - intros key c Hexp. unfold auth, jwt_verify.
    destruct (String.eqb key (JWT_SECRET env)); [| done].
    by destruct (N.leb_spec (exp c) (now env)) as [_ | Hlt]; [| lia].
  - intros key c Hkey. unfold auth, jwt_verify.
    apply String.eqb_neq in Hkey. by rewrite Hkey.
  - intros token user. unfold auth.
    destruct (jwt_verify token (JWT_SECRET env) (now env)) as [c|e] eqn:Hv.
    + apply jwt_verify_Return in Hv as [-> Hlt]. split.
      * intros [= <-]. by exists c.
      * intros (c' & [= <-] & _ & ->). done.
    + split; [done |]. intros (c & -> & Hlt & ->).
      assert (jwt_verify (Jws (JWT_SECRET env) c) (JWT_SECRET env) (now env) = Return c)
        as Hv' by (by apply jwt_verify_Return).
      congruence.
Qed.
End Tokens.

(** The token of a sample login, one second before and at the five hours,
    and a token signed under another key. *)
Lemma auth_spec_witness :
  auth late_env (Some alice_token) = inr (mkTokenUser 2 "Candidate") ∧
  auth expired_env (Some alice_token)
    = inl (mkResponse 401 (Msg "Token is not valid")) ∧
  auth sample_env (Some (jwt_sign (mkTokenUser 2 "Admin") "forged" 1000))
    = inl (mkResponse 401 (Msg "Token is not valid")).
Proof.
  assert (Hlogin : login (H := sample_externals) sample_env "alice" (Some "wonderland")
                     sample_db
                   = (mkResponse 200 (TokenBody alice_token), sample_db)) by reflexivity.
  split_and!.
  - destruct (auth_spec (H := sample_externals) late_env) as (Hissued & _).
    destruct (Hissued _ _ _ _ _ _ Hlogin eq_refl) as (u & Hu & Hn & Hvalid & _).
    rewrite Hvalid by (cbn; lia).
    cbn in Hu. repeat (apply elem_of_cons in Hu as [-> | Hu]; [done || discriminate Hn |]).
    inversion Hu.
  - destruct (auth_spec (H := sample_externals) expired_env) as (Hissued & _).
    destruct (Hissued _ _ _ _ _ _ Hlogin eq_refl) as (u & _ & _ & _ & Hexpired).
    apply Hexpired. cbn. lia.
  - destruct (auth_spec (H := sample_externals) sample_env) as (_ & _ & _ & _ & Hkey & _).
    by apply Hkey.
Defined.

(** ** POST /register *)

Section Register.
Context `{Externals}.

Lemma RecruiterProfile_save_users (env : Env) (id user_id : ObjectId)
    (profileData : gmap string json) (db : Db) :
  users (RecruiterProfile_save env id user_id profileData db).2 = users db.
Proof.
  unfold RecruiterProfile_save.
  destruct (match (profileData ∪ {["user" := JId user_id]}) !! "user" with
            | Some JNull | None => Some None
            | Some v => Some <$> castObjectId v
            end) as [pu|]; [| done].
  destruct (castFields recruiterProfileSchema (profileData ∪ {["user" := JId user_id]}))
    as [fields|]; [| done].
  unfold insertOne, query. by destruct (connected env).
Qed.

Lemma User_save_cases (env : Env) (u : User) (db : Db) :
  (∃ e, User_save env u db = (Throw e, db)) ∨
  (connected env = true ∧
   ∃ u', username u' = username u ∧
     User_save env u db
     = (Return (),
        mkDb (users db ++ [u']) (recruiterProfiles db) (resumes db) (jobs db)
             (applications db))).
Proof.
  unfold User_save, insertOne, query, throw.
  destruct (User_validate u); [| by left; eexists].
  destruct (connected env); [| by left; eexists].
  right. split; [done |].
  by exists (mkUser (u_id u) (username u) (bcrypt_hash (password u)) (role u)
                    (recruiterProfile u)).
Qed.

(** What a registration does to the users: nothing, or, when it answers
    201, it adds one user of the requested name that no user had. *)
Lemma register_users (env : Env) (db : Db) (name secret role' : string)
    (profileData : gmap string json) :
  let result := register env name secret role' profileData db in
  (result.1 ≠ mkResponse 201 (Message "User registered successfully")
   ∧ users result.2 = users db) ∨
  (¬ has_username db name ∧ ∃ u, username u = name ∧ users result.2 = users db ++ [u]).
Proof.
  unfold register, try_catch, bind, findOne, query, ret.
  cbv beta iota delta [docs UserModel].
  destruct (connected env) eqn:Hc; [| by left].
  destruct (first_match _ (users db)) as [u|] eqn:Hu; [by left |].
  assert (Hfree : ¬ has_username db name).
  { intros (u & Hin & Hn). rewrite first_match_None in Hu.
    specialize (Hu u Hin). simpl in Hu. by apply String.eqb_neq in Hu. }
  destruct (String.eqb role' "Recruiter").
  - pose proof (RecruiterProfile_save_users env (oid env 1) (oid env 0) profileData db)
      as Hp.
    destruct (RecruiterProfile_save env (oid env 1) (oid env 0) profileData db)
      as [[[]|e] db1]; simpl in Hp; [| by left].
    match goal with |- context [User_save env ?u db1] =>
      destruct (User_save_cases env u db1) as [[e ->] | (_ & u' & Hn & ->)] end.
    + left. simpl. by rewrite Hp.
    + right. split; [done |]. exists u'. simpl. by rewrite Hp.
  - match goal with |- context [User_save env ?u db] =>
      destruct (User_save_cases env u db) as [[e ->] | (_ & u' & Hn & ->)] end.
    + by left.
    + right. split; [done |]. by exists u'.
Qed.

(** C7: while the store answers, registering a username some user has
    answers 400 "User already exists" and changes nothing, whatever the
    secret, role and profile data; so a registration that follows a
    successful one for the same name fails that way; and every
    registration keeps the usernames pairwise distinct. *)
Theorem register_conflict (env : Env) (db : Db) (name secret role' : string)
    (profileData : gmap string json) :
  (connected env = true → has_username db name →
     register env name secret role' profileData db
     = (mkResponse 400 (Msg "User already exists"), db)) ∧
  (∀ db' env' secret' role'' profileData',
     register env name secret role' profileData db
     = (mkResponse 201 (Message "User registered successfully"), db') →
     connected env' = true →
     register env' name secret' role'' profileData' db'
     = (mkResponse 400 (Msg "User already exists"), db')) ∧
  (NoDup (username <$> users db) →
     NoDup (username <$> users (register env name secret role' profileData db).2)).
Proof.
  assert (Hconflict : ∀ e d s r p, connected e = true → has_username d name →
            register e name s r p d = (mkResponse 400 (Msg "User already exists"), d)).
  { intros e d s r p He Hn. unfold register. run. rewrite He.
    by destruct (username_lookup_Some _ _ Hn) as (u & -> & _). }
  pose proof (register_users env db name secret role' profileData) as Husers.
  simpl in Husers. split_and!.
  - apply Hconflict.
  - intros db' env' secret' role'' profileData' Hok Hc'. apply Hconflict; [done |].
    rewrite Hok in Husers. simpl in Husers.
    destruct Husers as [[Hne _] | (_ & u & Hn & Hdb')]; [done |].
    exists u. split; [| done]. rewrite Hdb'. apply elem_of_app. right. by left.
  - intros Hnd. destruct Husers as [[_ ->] | (Hfree & u & Hn & ->)]; [done |].
    rewrite fmap_app. simpl. apply NoDup_app. split_and!; [done | | apply NoDup_singleton].
    intros x Hx Hx'. apply list_elem_of_singleton in Hx'. subst x.
    apply list_elem_of_fmap in Hx as (u' & Heq & Hu'). apply Hfree. exists u'.
    split; [done | congruence].
Qed.
End Register.

(** A taken name, and the usernames after a new recruiter registered. *)
Lemma register_conflict_witness :
  register (H := sample_externals) sample_env "alice" "rabbit" "Admin" ∅ sample_db
    = (mkResponse 400 (Msg "User already exists"), sample_db) ∧
  NoDup (username <$> users
           (register (H := sample_externals) sample_env "bob" "builder" "Recruiter" ∅
              sample_db).2).
Proof.
  destruct (register_conflict (H := sample_externals) sample_env sample_db
              "alice" "rabbit" "Admin" ∅) as (Hconflict & _).
  destruct (register_conflict (H := sample_externals) sample_env sample_db
              "bob" "builder" "Recruiter" ∅) as (_ & _ & Hunique).
  split.
  - apply Hconflict; [done |]. exists alice. split; [member | done].
  - apply Hunique. cbn.
    repeat (apply NoDup_cons; split; [intros Hin; no_member Hin |]). apply NoDup_nil_2.
Defined.

(** ** PUT /api/users/:id/role *)

Section ChangeRole.
Context `{Externals}.

Lemma includes_role_names (body : gmap string json) :
  includes_role (body !! "role") = true ↔ names_role body.
Proof.
  unfold includes_role, names_role.
  destruct (body !! "role") as [[| | |s| | |]|]; try (split; [done | by intros (? & ? & ?)]).
  rewrite existsb_exists. split.
  - intros (x & Hx & Heq). apply String.eqb_eq in Heq. subst x.
    exists s. split; [done |]. by apply list_elem_of_In.
  - intros (s' & [= <-] & Hs). exists s. split; [by apply list_elem_of_In |].
    apply String.eqb_refl.
Qed.

(** C3, amended: a role change whose body names none of the three roles
    answers 400 "Invalid role specified.", whoever is targeted, the actor
    included; with one of the three roles, targeting the actor's own
    stored account while the store answers answers 400 "You cannot change
    your own role."; the database is unchanged in both cases. *)
Theorem changeRole_rejections (env : Env) (db : Db) (user_id id : ObjectId)
    (body : gmap string json) :
  (¬ names_role body →
     changeRole env user_id id body db
     = (mkResponse 400 (Msg "Invalid role specified."), db)) ∧
  (names_role body → connected env = true →
   (∃ u, u ∈ users db ∧ u_id u = user_id) →
     changeRole env user_id user_id body db
     = (mkResponse 400 (Msg "You cannot change your own role."), db)).
Proof.
  split.
  - intros Hbad. unfold changeRole.
    destruct (includes_role (body !! "role")) eqn:Hr; [| done].
    by apply includes_role_names in Hr.
  - intros Hok Hc (u & Hu & Hid). unfold changeRole.
    apply includes_role_names in Hok. rewrite Hok. run. rewrite Hc.
    destruct (first_match_is_Some (λ d, u_id d =? user_id) _ u Hu) as [u' Hu'];
      [by apply N.eqb_eq |].
    rewrite Hu'. simpl. apply first_match_Some in Hu' as [_ Hid'].
    by rewrite Hid'.
Qed.
End ChangeRole.

(** An unknown role for another user, and a known role for oneself. *)
Lemma changeRole_rejections_witness :
  changeRole (H := sample_externals) sample_env 1 2 unicorn sample_db
    = (mkResponse 400 (Msg "Invalid role specified."), sample_db) ∧
  changeRole (H := sample_externals) sample_env 1 1 {[ "role" := JStr "Recruiter" ]} sample_db
    = (mkResponse 400 (Msg "You cannot change your own role."), sample_db).
Proof.
  destruct (changeRole_rejections (H := sample_externals) sample_env sample_db 1 2 unicorn)
    as (Hinvalid & _).
  destruct (changeRole_rejections (H := sample_externals) sample_env sample_db 1 1
              {[ "role" := JStr "Recruiter" ]}) as (_ & Hself).
  split.
  - apply Hinvalid. intros (s & Hs & Hin). vm_compute in Hs. injection Hs as <-.
    no_member Hin.
  - apply Hself; [| done |].
    + exists "Recruiter". split; [done | member].
    + exists admin. split; [member | done].
Defined.

(** C3 as stated fails: an administrator who targets their own account with
    an unknown role is told the role is invalid, not that they may not
    change their own role.  (And the holder of a token whose account is no
    longer stored is told the user is not found.) *)
Lemma changeRole_self_invalid_role :
  PUT_api_users_role (H := sample_externals) sample_env (Some admin_token) 1 unicorn sample_db
    = (mkResponse 400 (Msg "Invalid role specified."), sample_db) ∧
  PUT_api_users_role (H := sample_externals) sample_env (Some admin_token) 1 unicorn sample_db
    ≠ (mkResponse 400 (Msg "You cannot change your own role."), sample_db) ∧
  PUT_api_users_role (H := sample_externals) sample_env (Some former_admin_token) 7
    {[ "role" := JStr "Recruiter" ]} sample_db
    = (mkResponse 404 (Msg "User not found"), sample_db).
Proof. split_and!; [reflexivity | discriminate | reflexivity]. Qed.

(** ** POST /jobs *)

Section Schemas.
Context `{Externals}.

Lemma castFields_lookup (schema : list SchemaPath) (obj m : gmap string json) (p : string) :
  castFields schema obj = Some m →
  m !! p = (t ← schema_type schema p; v ← obj !! p; castPath t v).
Proof.
  revert m. induction schema as [|sp rest IH]; simpl; intros m Hm.
  - by simplify_eq.
  - destruct (castFields rest obj) as [m'|] eqn:Hrest; simpl in Hm; [| done].
    specialize (IH m' eq_refl).
    destruct (String.eqb_spec (path_name sp) p) as [<- | Hqp]; simpl.
    + destruct (obj !! path_name sp) as [v|] eqn:Hv; simpl in *.
      * destruct (castPath (path_type sp) v) as [v'|] eqn:Hcast; simpl in Hm; [| done].
        simplify_eq. by rewrite lookup_insert_eq.
      * simplify_eq. rewrite IH. by destruct (schema_type rest (path_name sp)).
    + destruct (obj !! path_name sp) as [v|] eqn:Hv; simpl in Hm.
      * destruct (castPath (path_type sp) v) as [v'|]; simpl in Hm; [| done].
        simplify_eq. by rewrite lookup_insert_ne.
      * by simplify_eq.
Qed.

(** A cast that succeeds has cast every path the object carries. *)
Lemma castFields_cast (schema : list SchemaPath) (obj m : gmap string json)
    (p : string) (t : SchemaType) (v : json) :
  castFields schema obj = Some m → schema_type schema p = Some t → obj !! p = Some v →
  is_Some (castPath t v).
Proof.
  revert m. induction schema as [|sp rest IH]; simpl; intros m Hm Ht Hv; [done |].
  destruct (castFields rest obj) as [m'|] eqn:Hrest; simpl in Hm; [| done].
  destruct (String.eqb_spec (path_name sp) p) as [Heq | Hne].
  - injection Ht as <-. rewrite Heq, Hv in Hm. simpl in Hm.
    destruct (castPath (path_type sp) v); [eauto | done].
  - by apply (IH m').
Qed.

(** The cast reads an object at the paths of the schema only. *)
Lemma castFields_ext (schema : list SchemaPath) (obj obj' : gmap string json) :
  (∀ p, is_Some (schema_type schema p) → obj !! p = obj' !! p) →
  castFields schema obj = castFields schema obj'.
Proof.
  induction schema as [|sp rest IH]; simpl; intros Hagree; [done |].
  rewrite IH.
  - rewrite (Hagree (path_name sp)); [done |]. by rewrite String.eqb_refl.
  - intros p Hp. apply Hagree. destruct (String.eqb (path_name sp) p); [done | exact Hp].
Qed.

Lemma required_String_leaves_out (schema : list SchemaPath) (obj m : gmap string json)
    (p : string) :
  castFields schema obj = Some m → leaves_out obj p → required_String m p = false.
Proof.
  intros Hm Hout. unfold required_String.
  rewrite (castFields_lookup _ _ _ p Hm).
  destruct (schema_type schema p) as [t|]; simpl; [| done].
  destruct Hout as [-> | ->]; simpl; [done |]. by destruct t.
Qed.

Lemma validate_required (schema : list SchemaPath) (obj m : gmap string json) (p : string) :
  castFields schema obj = Some m → p ∈ required_paths schema → leaves_out obj p →
  validate schema m = false.
Proof.
  intros Hm Hp Hout. apply not_true_is_false. intros Hvalid.
  apply list_elem_of_fmap in Hp as (sp & -> & Hsp).
  apply list_elem_of_filter in Hsp as [Hreq Hsp].
  unfold validate in Hvalid. rewrite forallb_forall in Hvalid.
  specialize (Hvalid sp (proj1 (list_elem_of_In _ _) Hsp)).
  unfold validatePath in Hvalid.
  rewrite Hreq, (required_String_leaves_out _ _ _ _ Hm Hout) in Hvalid. done.
Qed.

Lemma validate_enum (schema : list SchemaPath) (obj m : gmap string json)
    (sp : SchemaPath) (values : list string) (v : json) :
  castFields schema obj = Some m →
  sp ∈ schema → path_enum sp = Some values →
  schema_type schema (path_name sp) = Some TString →
  obj !! path_name sp = Some v → v ≠ JNull →
  (∀ s, castString v = Some s → s ∉ values) →
  validate schema m = false.
Proof.
  intros Hm Hsp Henum Htype Hv Hnull Hout. apply not_true_is_false. intros Hvalid.
  unfold validate in Hvalid. rewrite forallb_forall in Hvalid.
  specialize (Hvalid sp (proj1 (list_elem_of_In _ _) Hsp)).
  unfold validatePath in Hvalid. rewrite Henum in Hvalid.
  apply andb_prop in Hvalid as [_ Hvalid]. revert Hvalid. unfold enum_String.
  rewrite (castFields_lookup _ _ _ _ Hm), Htype, Hv. cbn [mbind option_bind].
  destruct (castFields_cast _ _ _ _ _ _ Hm Htype Hv) as [v' Hcast]. rewrite Hcast.
  assert (castPath TString v = JStr <$> castString v) as Hstr by (by destruct v).
  rewrite Hstr in Hcast. destruct (castString v) as [s|] eqn:Hs; [| done].
  injection Hcast as <-. rewrite existsb_exists.
  intros (x & Hx & Heq). apply String.eqb_eq in Heq. subst x.
  apply (Hout s eq_refl). by apply list_elem_of_In.
Qed.
End Schemas.

(** The paths [jobSchema] requires. *)
Lemma jobSchema_required :
  required_paths jobSchema
  = [ "jobTitle"; "location"; "employmentType"; "jobSummary"; "companyName" ].
Proof. reflexivity. Qed.

Section CreateJob.
Context `{Externals}.

Lemma Job_validate_required (obj : gmap string json) (p : string) :
  p ∈ required_paths jobSchema → leaves_out obj p → Job_validate obj = None.
Proof.
  intros Hp Hout. unfold Job_validate.
  destruct (castFields jobSchema obj) as [m|] eqn:Hm;
    destruct (obj !! "recruiter" ≫= castObjectId) as [r|]; try done.
  cbn [mbind option_bind]. by rewrite (validate_required _ _ _ _ Hm Hp Hout).
Qed.

Lemma Job_validate_enum (obj : gmap string json) (v : json) :
  obj !! "employmentType" = Some v → v ≠ JNull →
  (∀ s, castString v = Some s → s ∉ employmentTypes) →
  Job_validate obj = None.
Proof.
  intros Hv Hnull Hout. unfold Job_validate.
  destruct (castFields jobSchema obj) as [m|] eqn:Hm;
    destruct (obj !! "recruiter" ≫= castObjectId) as [r|]; try done.
  cbn [mbind option_bind].
  rewrite (validate_enum jobSchema obj m
             (mkPath "employmentType" TString true (Some employmentTypes) None)
             employmentTypes v); try done.
  unfold jobSchema. member.
Qed.

Lemma createJob_invalid (env : Env) (db : Db) (user_id : ObjectId)
    (body : gmap string json) :
  Job_validate (<["recruiter" := JId user_id]> body) = None →
  createJob env user_id body db = (mkResponse 500 (Text "Server Error"), db).
Proof. intros Hv. unfold createJob, Job_save. run. by rewrite Hv. Qed.

Lemma createJob_offline (env : Env) (db : Db) (user_id : ObjectId)
    (body : gmap string json) :
  connected env = false →
  createJob env user_id body db = (mkResponse 500 (Text "Server Error"), db).
Proof.
  intros Hc. unfold createJob, Job_save. run.
  destruct (Job_validate _) as [[r m]|]; [| done]. run. by rewrite Hc.
Qed.

(** C4, amended: when the body leaves out one of the required paths or
    carries an employment type outside the enum, creating a job answers
    500 "Server Error" and creates nothing; this is the answer the route
    gives when the store does not answer. *)
Theorem createJob_validation (env : Env) (db : Db) (user_id : ObjectId)
    (body : gmap string json) :
  ((∃ p, p ∈ required_paths jobSchema ∧ leaves_out body p) ∨
   (∃ v, body !! "employmentType" = Some v ∧ v ≠ JNull ∧
         ∀ s, castString v = Some s → s ∉ employmentTypes)) →
  createJob env user_id body db = (mkResponse 500 (Text "Server Error"), db) ∧
  ∀ env' body', connected env' = false →
    (createJob env' user_id body' db).1 = (createJob env user_id body db).1.
Proof.
  intros Hbad.
  assert (createJob env user_id body db = (mkResponse 500 (Text "Server Error"), db)) as Hres.
  { apply createJob_invalid. destruct Hbad as [(p & Hp & Hout) | (v & Hv & Hnull & Hout)].
    - apply (Job_validate_required _ p Hp).
      assert (p ≠ "recruiter") as Hne.
      { intros ->. rewrite jobSchema_required in Hp. no_member Hp. }
      unfold leaves_out. by rewrite lookup_insert_ne.
    - apply (Job_validate_enum _ v); [| done | done]. by rewrite lookup_insert_ne. }
  split; [done |]. intros env' body' Hc'.
  by rewrite Hres, (createJob_offline env' db user_id body' Hc').
Qed.
End CreateJob.

(** A body without title, and a body with an unknown employment type. *)
Lemma createJob_validation_witness :
  createJob (H := sample_externals) sample_env 3 (delete "jobTitle" sample_job_body) sample_db
    = (mkResponse 500 (Text "Server Error"), sample_db) ∧
  createJob (H := sample_externals) sample_env 3
    (<["employmentType" := JStr "Freelance"]> sample_job_body) sample_db
    = (mkResponse 500 (Text "Server Error"), sample_db).
Proof.
  split.
  - apply (createJob_validation (H := sample_externals)). left.
    exists "jobTitle". split; [member | by left].
  - apply (createJob_validation (H := sample_externals)). right.
    exists (JStr "Freelance"). split_and!; [done | done |].
    intros s [= <-] Hin. no_member Hin.
Defined.

(** C4 as stated fails: the answer to an empty body is the answer a valid
    body gets while the store is down. *)
Lemma createJob_validation_not_distinct :
  (createJob (H := sample_externals) sample_env 3 ∅ sample_db).1
    = mkResponse 500 (Text "Server Error") ∧
  (createJob (H := sample_externals) offline_env 3 sample_job_body sample_db).1
    = mkResponse 500 (Text "Server Error") ∧
  (createJob (H := sample_externals) sample_env 3 sample_job_body sample_db).1
    = mkResponse 201
        (JobBody (mkJob 100 3
                    (sample_job_body ∪ arrayDefaults jobSchema) 1000 1000)).
Proof. split_and!; reflexivity. Qed.

(** ** POST /api/resume *)

Section UpdateFirst.
Context {D : Type} (f : D → bool).

Lemma first_match_update_first (l : list D) (d d' : D) :
  first_match f l = Some d → f d' = true →
  first_match f (update_first f (λ _, d') l) = Some d'.
Proof.
  intros Hm Hd'. induction l as [|x l IH]; simpl in *; [done |].
  destruct (f x) eqn:Hx; simpl; [by rewrite Hd' | rewrite Hx; by apply IH].
Qed.

Lemma update_first_twice (l : list D) (d1 d2 : D) :
  f d1 = true →
  update_first f (λ _, d2) (update_first f (λ _, d1) l) = update_first f (λ _, d2) l.
Proof.
  intros Hd1. induction l as [|x l IH]; simpl; [done |].
  destruct (f x) eqn:Hx; simpl; [by rewrite Hd1 | by rewrite Hx, IH].
Qed.

Lemma update_first_app_None (g : D → D) (l : list D) (d : D) :
  first_match f l = None → f d = true → update_first f g (l ++ [d]) = l ++ [g d].
Proof.
  intros Hm Hd. induction l as [|x l IH]; simpl in *; [by rewrite Hd |].
  destruct (f x); [done |]. by rewrite IH.
Qed.

Lemma fmap_update_first {E} (h : D → E) (l : list D) (d1 d2 : D) :
  h d1 = h d2 →
  h <$> update_first f (λ _, d1) l = h <$> update_first f (λ _, d2) l.
Proof.
  intros Hh. induction l as [|x l IH]; simpl; [done |].
  destruct (f x); csimpl; [by rewrite Hh | by rewrite IH].
Qed.

Lemma elem_of_update_first (l : list D) (d d' : D) :
  d ∈ update_first f (λ _, d') l → d ∈ l ∨ d = d'.
Proof.
  induction l as [|x l IH]; simpl; [by left |].
  destruct (f x).
  - intros [-> | Hd]%elem_of_cons; [by right | left; by right].
  - intros [-> | Hd]%elem_of_cons; [left; by left |].
    destruct (IH Hd); [left; by right | by right].
Qed.
End UpdateFirst.

(** Rewriting the first resume of a user into another resume of that user
    keeps the owners of the collection, and touches no resume of anybody
    else. *)
Lemma owners_update_first (user_id : ObjectId) (r' : Resume) (l : list Resume) :
  r_user r' = user_id →
  r_user <$> update_first (λ r, r_user r =? user_id) (λ _, r') l = r_user <$> l.
Proof.
  intros Hu. induction l as [|x l IH]; simpl; [done |].
  destruct (N.eqb_spec (r_user x) user_id) as [Hx | Hx]; csimpl; [congruence |].
  by rewrite IH.
Qed.

Lemma others_update_first (user_id : ObjectId) (r' : Resume) (l : list Resume) :
  r_user r' = user_id →
  filter (λ r, r_user r ≠ user_id) (update_first (λ r, r_user r =? user_id) (λ _, r') l)
  = filter (λ r, r_user r ≠ user_id) l.
Proof.
  intros Hu. induction l as [|x l IH]; simpl; [done |].
  destruct (N.eqb_spec (r_user x) user_id) as [Hx | Hx].
  - rewrite !filter_cons_False; [done | by intros ? | by intros ?].
  - by rewrite !filter_cons, IH.
Qed.

Lemma resume_count_users (db db' : Db) (user_id : ObjectId) :
  r_user <$> resumes db = r_user <$> resumes db' →
  resume_count db user_id = resume_count db' user_id.
Proof.
  unfold resume_count. generalize (resumes db) (resumes db').
  induction l as [|x l IH]; intros [|y l'] Heq; try done.
  apply (inj2 cons) in Heq as [Hxy Heq].
  rewrite !filter_cons, Hxy. destruct (decide _); simpl; by rewrite (IH l').
Qed.

Lemma Resume_of_None_count (db : Db) (user_id : ObjectId) :
  Resume_of db user_id = None ↔ resume_count db user_id = 0%nat.
Proof.
  unfold Resume_of, resume_count. induction (resumes db) as [|x l IH]; simpl; [done |].
  rewrite filter_cons. destruct (N.eqb_spec (r_user x) user_id) as [Hx | Hx].
  - rewrite decide_True by done. done.
  - by rewrite decide_False.
Qed.

Section SaveResume.
Context `{Externals}.

Lemma castFields_owner (schema : list SchemaPath) (key : string) (v : json)
    (body : gmap string json) :
  schema_type schema key = None →
  castFields schema (<[key := v]> body) = castFields schema body.
Proof.
  intros Hkey. apply castFields_ext. intros p [t Hp].
  apply lookup_insert_ne. intros ->. congruence.
Qed.

Lemma plain_update_owner (body : gmap string json) (i : ObjectId) :
  plain_update body = true → plain_update (<["user" := JId i]> body) = true.
Proof.
  unfold plain_update. rewrite !bool_decide_eq_true. intros Hall.
  by apply map_Forall_insert_2.
Qed.

(** The two outcomes of a save with a plain update, written out. *)
Lemma saveResume_unfold (env : Env) (db : Db) (user_id : ObjectId)
    (body : gmap string json) :
  plain_update (<["user" := JId user_id]> body) = true →
  saveResume env user_id body db =
  match castFields resumeSchema body with
  | Some fields =>
      if connected env
      then let r := saved env db user_id fields in
           (mkResponse 201 (ResumeBody "Resume saved successfully!" (hydrate_resume r)),
            mkDb (users db) (recruiterProfiles db)
                 (match Resume_of db user_id with
                  | Some _ => update_first (λ r, r_user r =? user_id) (λ _, r) (resumes db)
                  | None => resumes db ++ [r]
                  end)
                 (jobs db) (applications db))
      else (mkResponse 500 (Message "Failed to save resume."), db)
  | None => (mkResponse 500 (Message "Failed to save resume."), db)
  end.
Proof.
  intros Hplain. unfold saveResume, Resume_findOneAndUpdate, saved, Resume_of.
  rewrite Hplain, lookup_insert_eq.
  rewrite (castFields_owner resumeSchema "user") by done.
  destruct (castFields resumeSchema body) as [fields|]; [| done].
  unfold try_catch, bind, query, ret. cbn [fmap option_fmap option_map castObjectId].
  destruct (connected env); [| done].
  by destruct (first_match _ (resumes db)).
Qed.
End SaveResume.

Section Upsert.
Context `{Externals}.

Lemma saved_user (env : Env) (db : Db) (user_id : ObjectId) (fields : gmap string json) :
  r_user (saved env db user_id fields) = user_id.
Proof. unfold saved. by destruct (Resume_of db user_id). Qed.

Lemma Resume_of_written (db : Db) (user_id : ObjectId) (r : Resume) :
  r_user r = user_id → Resume_of (written db user_id r) user_id = Some r.
Proof.
  intros Hu. unfold written, Resume_of at 1. cbn [resumes].
  assert ((r_user r =? user_id) = true) as Hr by (by apply N.eqb_eq).
  destruct (Resume_of db user_id) as [old|] eqn:Hold.
  - by apply (first_match_update_first _ _ old).
  - rewrite (first_match_app_None _ _ _ Hold). by rewrite Hr.
Qed.

(** Whatever the body, a save fails and changes nothing, or writes one
    resume of the user: in place of the first one the user has, under its
    id, or as a new one. *)
Lemma saveResume_shape (env : Env) (db : Db) (user_id : ObjectId)
    (body : gmap string json) :
  saveResume env user_id body db
    = (mkResponse 500 (Message "Failed to save resume."), db) ∨
  ∃ r, r_user r = user_id ∧
       (∀ old, Resume_of db user_id = Some old → r_id r = r_id old) ∧
       saveResume env user_id body db
       = (mkResponse 201 (ResumeBody "Resume saved successfully!" (hydrate_resume r)),
          written db user_id r).
Proof.
  destruct (plain_update (<["user" := JId user_id]> body)) eqn:Hplain.
  - rewrite (saveResume_unfold _ _ _ _ Hplain).
    destruct (castFields resumeSchema body) as [fields|]; [| by left].
    destruct (connected env); [| by left].
    right. exists (saved env db user_id fields).
    split; [apply saved_user |]. split; [| done].
    intros old Hold. unfold saved. by rewrite Hold.
  - unfold saveResume, Resume_findOneAndUpdate, written, Resume_of.
    rewrite Hplain, lookup_insert_eq.
    cbn [fmap option_fmap option_map castObjectId default].
    unfold try_catch, bind, ret.
    destruct (connected env); [| by left].
    destruct (first_match _ (resumes db)) as [old|];
      destruct (Resume_updateOther _ _ _ _) as [r|]; try (by left).
    + right. eexists (mkResume _ _ _ _ _). split; [done |]. split; [| done].
      by intros ? [= <-].
    + destruct (existsb _ (resumes db)); [by left |].
      right. eexists (mkResume _ _ _ _ _). split; [done |]. split; [done | done].
Qed.

Lemma resume_count_app (db : Db) (user_id : ObjectId) (r : Resume) (l : list Resume) :
  resumes db = l ++ [r] → r_user r = user_id →
  resume_count db user_id = S (length (filter (λ r, r_user r = user_id) l)).
Proof.
  intros Hl Hr. unfold resume_count. rewrite Hl, filter_app, length_app.
  rewrite filter_cons_True by done. simpl. lia.
Qed.

(** A save leaves the number of resumes of the user as it is, or takes it
    from zero to one. *)
Lemma saveResume_count (env : Env) (db : Db) (user_id : ObjectId)
    (body : gmap string json) :
  let db' := (saveResume env user_id body db).2 in
  resume_count db' user_id = resume_count db user_id ∨
  (resume_count db user_id = 0%nat ∧ resume_count db' user_id = 1%nat).
Proof.
  destruct (saveResume_shape env db user_id body) as [-> | (r & Hu & _ & ->)];
    [by left |].
  cbn zeta. unfold written. destruct (Resume_of db user_id) as [old|] eqn:Hold; cbn [snd].
  - left. symmetry. apply resume_count_users. simpl. symmetry.
    by apply owners_update_first.
  - right. pose proof Hold as Hzero.
    apply Resume_of_None_count in Hzero. split; [done |].
    erewrite resume_count_app; [| done | done].
    unfold resume_count in Hzero. by rewrite Hzero.
Qed.

Lemma saveResume_seq_snoc (calls : list (Env * gmap string json))
    (env : Env) (body : gmap string json) (user_id : ObjectId) (db : Db) :
  saveResume_seq (calls ++ [(env, body)]) user_id db
  = (saveResume env user_id body (saveResume_seq calls user_id db)).2.
Proof.
  revert db. induction calls as [|[e b] calls IH]; intros db; simpl; [done |].
  apply IH.
Qed.

Lemma saveResume_seq_count (calls : list (Env * gmap string json))
    (user_id : ObjectId) (db : Db) :
  (resume_count db user_id ≤ 1)%nat →
  (resume_count (saveResume_seq calls user_id db) user_id ≤ 1)%nat.
Proof.
  revert db. induction calls as [|[e b] calls IH]; intros db Hle; simpl; [done |].
  apply IH. destruct (saveResume_count e db user_id b) as [-> | [_ ->]]; lia.
Qed.

Lemma saveResume_written (env : Env) (db : Db) (user_id : ObjectId)
    (body fields : gmap string json) :
  connected env = true → plain_update body = true →
  castFields resumeSchema body = Some fields →
  let r := saved env db user_id fields in
  saveResume env user_id body db
  = (mkResponse 201 (ResumeBody "Resume saved successfully!" (hydrate_resume r)),
     written db user_id r)
  ∧ Resume_of (saveResume env user_id body db).2 user_id = Some r
  ∧ fields ⊆ r_content r.
Proof.
  intros Hc Hplain Hf r.
  rewrite (saveResume_unfold _ _ _ _ (plain_update_owner _ user_id Hplain)), Hf, Hc.
  cbn zeta. fold r. fold (written db user_id r).
  split; [done |]. split.
  - apply Resume_of_written, saved_user.
  - unfold r, saved. destruct (Resume_of db user_id); apply map_union_subseteq_l.
Qed.

(** C8, amended: while the store answers, saving a plain body whose
    paths cast answers 201 with the written resume of the user, as
    Mongoose loads it.  Without a resume of the user one is appended,
    holding the cast fields over the insert defaults; otherwise the first
    resume of the user keeps its id and gets the cast fields set over its
    former content.  The number of resumes of the user stays, or goes
    from zero to one; so after any sequence of saves that starts with at
    most one resume and ends with this save, the user has exactly one
    resume and it holds every field of the body.  Saving the same body
    again changes nothing but the [updatedAt] stamp of that resume, and
    nothing at all at the same clock value. *)
Theorem saveResume_upsert (env : Env) (db : Db) (user_id : ObjectId)
    (body fields : gmap string json) :
  connected env = true →
  plain_update body = true →
  castFields resumeSchema body = Some fields →
  let r := saved env db user_id fields in
  let db' := (saveResume env user_id body db).2 in
  (saveResume env user_id body db).1
    = mkResponse 201 (ResumeBody "Resume saved successfully!" (hydrate_resume r)) ∧
  Resume_of db' user_id = Some r ∧ r_user r = user_id ∧ fields ⊆ r_content r ∧
  (Resume_of db user_id = None →
     resumes db' = resumes db ++ [r] ∧ r_content r = fields ∪ Resume_insertDefaults) ∧
  (∀ old, Resume_of db user_id = Some old →
     resumes db' = update_first (λ r, r_user r =? user_id) (λ _, r) (resumes db)
     ∧ r_id r = r_id old ∧ r_content r = fields ∪ r_content old) ∧
  resume_count db' user_id = Nat.max 1 (resume_count db user_id) ∧
  (∀ calls, (resume_count db user_id ≤ 1)%nat →
     let db'' := saveResume_seq (calls ++ [(env, body)]) user_id db in
     resume_count db'' user_id = 1%nat ∧
     ∃ r', Resume_of db'' user_id = Some r' ∧ r_user r' = user_id
           ∧ fields ⊆ r_content r') ∧
  (∀ env', connected env' = true →
     let again := saveResume env' user_id body db' in
     forget_updatedAt <$> resumes again.2 = forget_updatedAt <$> resumes db' ∧
     users again.2 = users db' ∧ recruiterProfiles again.2 = recruiterProfiles db' ∧
     jobs again.2 = jobs db' ∧ applications again.2 = applications db' ∧
     (now env' = now env → again = (saveResume env user_id body db))).
Proof.
  intros Hc Hplain Hf r db'.
  destruct (saveResume_written env db user_id body fields Hc Hplain Hf)
    as (Hres & Hof & Hsub).
  fold r in Hres, Hof, Hsub. fold db' in Hof.
  assert (Hu : r_user r = user_id) by apply saved_user.
  split_and!; try done.
  - by rewrite Hres.
  - intros Hnone. unfold db'. rewrite Hres. unfold written. cbn [snd resumes].
    rewrite Hnone. split; [done |]. unfold r, saved. by rewrite Hnone.
  - intros old Hold. unfold db'. rewrite Hres. unfold written. cbn [snd resumes].
    rewrite Hold. split; [done |]. unfold r, saved. by rewrite Hold.
  - destruct (saveResume_count env db user_id body) as [Heq | [Hz Hone]];
      fold db' in Heq || fold db' in Hone.
    + rewrite Heq. destruct (resume_count db user_id) eqn:Hn; [| lia].
      exfalso. apply Resume_of_None_count in Hn. revert Heq.
      unfold db'. rewrite Hres. unfold written. cbn [snd]. rewrite Hn.
      erewrite resume_count_app; [| done | done].
      apply Resume_of_None_count in Hn. lia.
    + rewrite Hone, Hz. done.
  - intros calls Hle db''. unfold db''. rewrite saveResume_seq_snoc.
    pose proof (saveResume_seq_count calls user_id db Hle) as Hle'.
    set (mid := saveResume_seq calls user_id db) in *.
    destruct (saveResume_written env mid user_id body fields Hc Hplain Hf)
      as (Hres' & Hof' & Hsub').
    split.
    + destruct (saveResume_count env mid user_id body) as [Heq | [_ Hone]]; [| done].
      rewrite Heq. destruct (resume_count mid user_id) as [|[|n]] eqn:Hn; [| done | lia].
      exfalso. apply Resume_of_None_count in Hn. revert Heq.
      rewrite Hres'. unfold written. cbn [snd]. rewrite Hn.
      erewrite resume_count_app; [| done | apply saved_user].
      apply Resume_of_None_count in Hn. lia.
    + eexists. split; [exact Hof' |]. split; [apply saved_user | done].
  - intros env' Hc' again.
    destruct (saveResume_written env' db' user_id body fields Hc' Hplain Hf)
      as (Hres' & _ & _).
    fold again in Hres'.
    assert (Hsaved : saved env' db' user_id fields
                     = mkResume (r_id r) user_id (r_content r) (r_createdAt r) (now env')).
    { unfold saved. rewrite Hof. f_equal. unfold r, saved.
      destruct (Resume_of db user_id); cbn [r_content];
        by rewrite (assoc_L (∪)), (idemp_L (∪) fields). }
    assert (Hresumes : resumes again.2
              = update_first (λ r, r_user r =? user_id)
                  (λ _, saved env' db' user_id fields) (resumes db')).
    { rewrite Hres'. unfold written. cbn [snd resumes]. by rewrite Hof. }
    assert (Hfixed : update_first (λ r, r_user r =? user_id) (λ _, r) (resumes db')
                     = resumes db').
    { unfold db'. rewrite Hres. unfold written. cbn [snd resumes].
      destruct (Resume_of db user_id) as [old|] eqn:Hold.
      - apply update_first_twice. by apply N.eqb_eq.
      - apply update_first_app_None; [done | by apply N.eqb_eq]. }
    split_and!; try (by rewrite Hres').
    + rewrite Hresumes. rewrite <- Hfixed at 2. apply fmap_update_first.
      rewrite Hsaved. unfold forget_updatedAt. cbn. by rewrite Hu.
    + intros Hnow. rewrite Hres'.
      assert (saved env' db' user_id fields = r) as ->.
      { rewrite Hsaved, Hnow. unfold r, saved. by destruct (Resume_of db user_id). }
      unfold written. rewrite Hof, Hfixed.
      assert (Hpair : saveResume env user_id body db
                      = (mkResponse 201
                           (ResumeBody "Resume saved successfully!" (hydrate_resume r)), db'))
        by (unfold db'; by rewrite Hres).
      rewrite Hpair. f_equal. by destruct db'.
Qed.
End Upsert.

(** A first save into the empty database, and the same save again. *)
Lemma saveResume_upsert_witness :
  let first := saveResume (H := sample_externals) sample_env 2 first_save empty_db in
  first.1 = mkResponse 201
              (ResumeBody "Resume saved successfully!"
                 (mkResume 100 2 (first_save ∪ schemaDefaults resumeSchema) 1000 1000)) ∧
  (∃ r, Resume_of first.2 2 = Some r ∧ r_id r = 100 ∧ r_user r = 2 ∧ first_save ⊆ r_content r) ∧
  resume_count first.2 2 = 1%nat ∧
  saveResume (H := sample_externals) sample_env 2 first_save first.2 = first.
Proof.
  destruct (saveResume_upsert (H := sample_externals) sample_env empty_db 2
              first_save first_save eq_refl eq_refl eq_refl)
    as (Hanswer & Hof & Hu & Hsub & _ & _ & Hcount & _ & Hagain).
  split_and!.
  - exact Hanswer.
  - eexists. split; [exact Hof |]. split_and!; [reflexivity | exact Hu | exact Hsub].
  - exact Hcount.
  - by apply (Hagain sample_env eq_refl).
Defined.

(** C8 as stated fails: after two saves the resume still holds the skills
    of the first body, which the last body does not mention; saving the
    last body alone gives another content.  (And the same save repeated at
    a later time restamps the resume.) *)
Lemma saveResume_keeps_old_fields :
  let db' := saveResume_seq (H := sample_externals)
               [(sample_env, first_save); (sample_env, second_save)] 2 empty_db in
  let fresh := saveResume_seq (H := sample_externals) [(sample_env, second_save)] 2 empty_db in
  let once := saveResume_seq (H := sample_externals) [(sample_env, first_save)] 2 empty_db in
  let twice := saveResume_seq (H := sample_externals)
                 [(sample_env, first_save); (late_env, first_save)] 2 empty_db in
  (∃ r r', Resume_of db' 2 = Some r ∧ Resume_of fresh 2 = Some r' ∧
     second_save !! "skills" = None ∧
     r_content r !! "skills" = Some (JArr [JStr "Rocq"]) ∧
     r_content r' !! "skills" ≠ Some (JArr [JStr "Rocq"]) ∧
     r_content r ≠ r_content r') ∧
  r_updatedAt <$> resumes once = [1000] ∧
  r_updatedAt <$> resumes twice = [18999].
Proof.
  cbn zeta. split; [| split; reflexivity].
  eexists. eexists. split; [reflexivity |]. split; [reflexivity |].
  split_and!; [reflexivity | reflexivity | |].
  - intros Heq. vm_compute in Heq. discriminate Heq.
  - intros Heq. apply (f_equal (λ m : gmap string json, m !! "skills")) in Heq.
    vm_compute in Heq. discriminate Heq.
Qed.

(** ** Ownership of what is written *)

Section Ownership.
Context `{Externals}.

Lemma Job_validate_recruiter (user_id r : ObjectId) (body m : gmap string json) :
  Job_validate (<["recruiter" := JId user_id]> body) = Some (r, m) → r = user_id.
Proof.
  unfold Job_validate. rewrite lookup_insert_eq. cbn [mbind option_bind castObjectId].
  destruct (castFields jobSchema _) as [m'|]; cbn [mbind option_bind]; [| done].
  destruct (validate jobSchema m'); [| done]. by intros [= -> _].
Qed.

Lemma createJob_cases (env : Env) (db : Db) (user_id : ObjectId)
    (body : gmap string json) :
  createJob env user_id body db = (mkResponse 500 (Text "Server Error"), db) ∨
  ∃ j, recruiter j = user_id ∧
       createJob env user_id body db
       = (mkResponse 201 (JobBody j),
          mkDb (users db) (recruiterProfiles db) (resumes db) (jobs db ++ [j])
               (applications db)).
Proof.
  unfold createJob, Job_save.
  destruct (Job_validate _) as [[r m]|] eqn:Hv; [| by left].
  apply Job_validate_recruiter in Hv as ->. run.
  destruct (connected env); [| by left].
  right. by eexists (mkJob _ _ _ _ _).
Qed.

Lemma saveResume_others (env : Env) (db : Db) (user_id : ObjectId)
    (body : gmap string json) :
  let db' := (saveResume env user_id body db).2 in
  filter (λ r, r_user r ≠ user_id) (resumes db')
  = filter (λ r, r_user r ≠ user_id) (resumes db)
  ∧ ∀ r, r ∈ resumes db' → r ∈ resumes db ∨ r_user r = user_id.
Proof.
  destruct (saveResume_shape env db user_id body) as [-> | (r0 & Hu & _ & ->)];
    [by split; [| left] |].
  cbn zeta. unfold written. cbn [snd resumes].
  destruct (Resume_of db user_id) as [old|]; split.
  - by apply others_update_first.
  - intros r Hr. apply elem_of_update_first in Hr as [Hr | ->]; [by left | by right].
  - rewrite filter_app, filter_cons_False by (by intros ?). by rewrite app_nil_r.
  - intros r [Hr | Hr]%elem_of_app; [by left |].
    apply list_elem_of_singleton in Hr as ->. by right.
Qed.

(** C10: for a request whose token [auth] accepts, the resume POST
    /api/resume answers with belongs to the token's user and is that
    user's current resume as Mongoose loads it; every resume in the collection afterwards was
    there before or belongs to the user; the resumes of everybody else
    are unchanged, whatever the body holds, update operators included;
    and a [user] key in the body does not matter.  The job
    POST /jobs answers with has the token's user as recruiter and is
    appended to the jobs, which are otherwise unchanged; and a
    [recruiter] key in the body does not matter. *)
Theorem owner_is_caller (env : Env) (token : option Token) (body : gmap string json)
    (db : Db) (user : TokenUser) :
  auth env token = inr user →
  let save := POST_api_resume env token body db in
  let create := POST_jobs env token body db in
  (∀ m r, save.1 = mkResponse 201 (ResumeBody m r) →
     r_user r = tu_id user ∧
     ∃ stored, Resume_of save.2 (tu_id user) = Some stored ∧ r = hydrate_resume stored) ∧
  (∀ r, r ∈ resumes save.2 → r ∈ resumes db ∨ r_user r = tu_id user) ∧
  filter (λ r, r_user r ≠ tu_id user) (resumes save.2)
    = filter (λ r, r_user r ≠ tu_id user) (resumes db) ∧
  (∀ v, POST_api_resume env token (<["user" := v]> body) db = save) ∧
  (∀ j, create.1 = mkResponse 201 (JobBody j) →
     recruiter j = tu_id user ∧ jobs create.2 = jobs db ++ [j]) ∧
  (jobs create.2 = jobs db ∨ ∃ j, create.1 = mkResponse 201 (JobBody j)) ∧
  (∀ v, POST_jobs env token (<["recruiter" := v]> body) db = create).
Proof.
  intros Hauth save create. unfold save, create, POST_api_resume, POST_jobs, guarded.
  rewrite Hauth. unfold isCandidate, isRecruiter. split_and!.
  - destruct (negb _); [done |]. intros m r.
    destruct (saveResume_shape env db (tu_id user) body) as [-> | (r0 & Hu & _ & ->)];
      [done |].
    cbn [fst snd]. intros [= _ <-]. split; [done |].
    exists r0. split; [by apply Resume_of_written | done].
  - destruct (negb _); [by left |]. apply saveResume_others.
  - destruct (negb _); [done |]. apply saveResume_others.
  - intros v. destruct (negb _); [done |].
    unfold saveResume. by rewrite insert_insert_eq.
  - destruct (negb _); [done |]. intros j.
    destruct (createJob_cases env db (tu_id user) body) as [-> | (j' & Hr & ->)]; [done |].
    by intros [= <-].
  - destruct (negb _); [by left |].
    destruct (createJob_cases env db (tu_id user) body) as [-> | (j' & Hr & ->)];
      [by left | right; by exists j'].
  - intros v. destruct (negb _); [done |].
    unfold createJob. by rewrite insert_insert_eq.
Qed.
End Ownership.

(** A candidate who names somebody else as owner of the resume still writes
    their own, also in an update with an operator, and a recruiter who
    names somebody else as recruiter of the job still creates their own. *)
Lemma owner_is_caller_witness :
  (∃ r, (POST_api_resume (H := sample_externals) sample_env (Some alice_token)
           (<["user" := JId 3]> second_save) sample_db).1
        = mkResponse 201 (ResumeBody "Resume saved successfully!" r)
        ∧ r_user r = 2) ∧
  (∃ r, (POST_api_resume (H := unset_externals) sample_env (Some alice_token)
           unset_summary sample_db).1
        = mkResponse 201 (ResumeBody "Resume saved successfully!" r)
        ∧ r_user r = 2 ∧ r_content r !! "summary" = None) ∧
  (∃ j, (POST_jobs (H := sample_externals) sample_env (Some rita_token)
           (<["recruiter" := JId 2]> sample_job_body) sample_db).1
        = mkResponse 201 (JobBody j)
        ∧ recruiter j = 3).
Proof.
  split_and!.
  - eexists. split; [reflexivity |].
    destruct (owner_is_caller (H := sample_externals) sample_env (Some alice_token)
                (<["user" := JId 3]> second_save) sample_db (mkTokenUser 2 "Candidate")
                eq_refl) as (Hsaved & _).
    exact (proj1 (Hsaved _ _ eq_refl)).
  - eexists. split; [reflexivity |]. split; [| reflexivity].
    destruct (owner_is_caller (H := unset_externals) sample_env (Some alice_token)
                unset_summary sample_db (mkTokenUser 2 "Candidate") eq_refl)
      as (Hsaved & _).
    exact (proj1 (Hsaved _ _ eq_refl)).
  - eexists. split; [reflexivity |].
    destruct (owner_is_caller (H := sample_externals) sample_env (Some rita_token)
                (<["recruiter" := JId 2]> sample_job_body) sample_db
                (mkTokenUser 3 "Recruiter") eq_refl) as (_ & _ & _ & _ & Hcreated & _).
    eapply Hcreated. reflexivity.
Defined.

(** ** The scenario of the spec, run on the sample database *)

Example hiring_scenario :
  registered.1 = mkResponse 201 (Message "User registered successfully") ∧
  logged_in.1 = mkResponse 200 (TokenBody carol_token) ∧
  status resume_saved.1 = 201 ∧
  applied.1 = mkResponse 201 (Msg "Application submitted successfully!") ∧
  applications applied.2
    = applications sample_db ++ [mkApplication 230 10 200 220 "Submitted" 2030 2030] ∧
  r_id <$> Resume_of applied.2 200 = Some 220 ∧
  job_deleted.1 = mkResponse 200 (Msg "Job removed") ∧
  applications job_deleted.2 = [other_application] ∧
  applied_again.1 = mkResponse 404 (Msg "Job not found").
Proof. split_and!; reflexivity. Qed.

(** * Further properties *)

(** ** More on the queries *)

Section RemoveFirst.
Context {D : Type} (f : D → bool).

Lemma remove_first_app_None (l : list D) (d : D) :
  first_match f l = None → f d = true → remove_first f (l ++ [d]) = l.
Proof.
  intros Hm Hd. induction l as [|x l IH]; simpl in *; [by rewrite Hd |].
  destruct (f x); [done |]. by rewrite IH.
Qed.

Lemma elem_of_remove_first (l : list D) (d : D) :
  d ∈ remove_first f l → d ∈ l.
Proof.
  induction l as [|x l IH]; simpl; [done |].
  destruct (f x); [by right |].
  intros [-> | Hd]%elem_of_cons; [left | right; by apply IH].
Qed.

Lemma remove_first_keeps (l : list D) (d : D) :
  d ∈ l → f d = false → d ∈ remove_first f l.
Proof.
  induction l as [|x l IH]; simpl; [done |].
  intros [-> | Hd]%elem_of_cons Hf.
  - rewrite Hf. left.
  - destruct (f x); [done | right; by apply IH].
Qed.

Lemma NoDup_fmap_remove_first {K} (key : D → K) (l : list D) :
  NoDup (key <$> l) → NoDup (key <$> remove_first f l).
Proof.
  induction l as [|x l IH]; simpl; [done |]. csimpl.
  intros [Hx Hl]%NoDup_cons. destruct (f x); [done |]. csimpl.
  apply NoDup_cons. split; [| by apply IH].
  intros (y & Hy & Hin)%list_elem_of_fmap. apply Hx. apply list_elem_of_fmap.
  exists y. split; [done | by apply elem_of_remove_first].
Qed.
End RemoveFirst.

Lemma filter_bool_Prop {D} (f : D → bool) (l : list D) :
  List.filter f l = filter (λ d, f d = true) l.
Proof.
  induction l as [|x l IH]; simpl; [done |].
  rewrite filter_cons. destruct (f x) eqn:Hx.
  - rewrite decide_True by done. by rewrite IH.
  - rewrite decide_False by (by intros ?). done.
Qed.

Lemma filter_ext_elem {D} (P Q : D → Prop) `{∀ x, Decision (P x)} `{∀ x, Decision (Q x)}
    (l : list D) :
  (∀ x, x ∈ l → P x ↔ Q x) → filter P l = filter Q l.
Proof.
  induction l as [|x l IH]; intros Hext; [done |].
  rewrite !filter_cons. rewrite IH by (intros y Hy; apply Hext; by right).
  destruct (decide (P x)) as [HP | HP], (decide (Q x)) as [HQ | HQ]; try done.
  - exfalso. apply HQ, (Hext x); [left | done].
  - exfalso. apply HP, (Hext x); [left | done].
Qed.

(** Documents of one collection with the same key are the same document
    when keys are unique. *)
Lemma unique_key {D K} (key : D → K) (l : list D) (x y : D) :
  NoDup (key <$> l) → x ∈ l → y ∈ l → key x = key y → x = y.
Proof.
  induction l as [|z l IH]; csimpl; intros Hnd Hx Hy Heq; [inversion Hx |].
  apply NoDup_cons in Hnd as [Hz Hnd].
  apply elem_of_cons in Hx as [-> | Hx]; apply elem_of_cons in Hy as [-> | Hy]; try done.
  - exfalso. apply Hz. rewrite Heq. apply list_elem_of_fmap. eauto.
  - exfalso. apply Hz. rewrite <- Heq. apply list_elem_of_fmap. eauto.
  - by apply IH.
Qed.

(** ** DELETE /api/resume *)

(** X1: DELETE /api/resume answers 404 and changes nothing when the
    caller has no resume.  Otherwise it answers 200 and removes the one
    resume that [Resume.findOne({ user })] finds: the resumes of the other
    users stay, and where every user has at most one resume the caller has
    none afterwards. *)
Theorem deleteResume_spec (env : Env) (db : Db) (user_id : ObjectId) :
  connected env = true →
  NoDup (r_id <$> resumes db) →
  (Resume_of db user_id = None →
     deleteResume env user_id db = (mkResponse 404 (Msg "Resume not found"), db)) ∧
  (∀ r, Resume_of db user_id = Some r →
     let db' := mkDb (users db) (recruiterProfiles db)
                     (filter (λ r', r_id r' ≠ r_id r) (resumes db))
                     (jobs db) (applications db) in
     deleteResume env user_id db
       = (mkResponse 200 (Msg "Resume deleted successfully"), db') ∧
     filter (λ r', r_user r' ≠ user_id) (resumes db')
       = filter (λ r', r_user r' ≠ user_id) (resumes db) ∧
     (resumes_unique db → Resume_of db' user_id = None)).
Proof.
  intros Hc Hids. split.
  - intros Hnone. unfold deleteResume. run. rewrite Hc.
    unfold Resume_of in Hnone. by rewrite Hnone.
  - intros r Hr db'. pose proof Hr as Hr'. unfold Resume_of in Hr'.
    apply first_match_Some in Hr' as [Hin Hu]. apply N.eqb_eq in Hu.
    split_and!.
    + unfold deleteResume. run. rewrite Hc. unfold Resume_of in Hr. rewrite Hr. simpl.
      rewrite (remove_first_remove_all r_id _ _ Hids). by rewrite remove_all_filter.
    + unfold db'. cbn [resumes]. rewrite list_filter_filter.
      apply filter_ext_elem. intros r' Hin'. split; [by intros [? ?] |].
      intros Hne. split; [done |]. intros Heq.
      apply Hne. by rewrite (unique_key r_id _ r' r Hids Hin' Hin Heq).
    + intros Huniq. unfold Resume_of, db'. cbn [resumes].
      apply first_match_None. intros r' [Hne Hin']%list_elem_of_filter.
      apply N.eqb_neq. intros Hu'. apply Hne. f_equal.
      unfold resumes_unique in Huniq.
      apply (unique_key r_user _ r' r Huniq Hin' Hin). congruence.
Qed.

(** A user without a resume, and the candidate who has one. *)
Lemma deleteResume_spec_witness :
  deleteResume sample_env 3 sample_db = (mkResponse 404 (Msg "Resume not found"), sample_db) ∧
  deleteResume sample_env 2 sample_db
    = (mkResponse 200 (Msg "Resume deleted successfully"),
       mkDb (users sample_db) (recruiterProfiles sample_db) [] (jobs sample_db)
            (applications sample_db)).
Proof.
  assert (Hnd : NoDup (r_id <$> resumes sample_db)) by distinct.
  destruct (deleteResume_spec sample_env sample_db 3 eq_refl Hnd) as [Hnone _].
  destruct (deleteResume_spec sample_env sample_db 2 eq_refl Hnd) as [_ Hsome].
  split.
  - by apply Hnone.
  - destruct (Hsome sample_resume eq_refl) as (Hdel & _). exact Hdel.
Defined.

(** ** POST /api/resume with the routes that read and delete the resume *)

Lemma Db_eta (db : Db) :
  mkDb (users db) (recruiterProfiles db) (resumes db) (jobs db) (applications db) = db.
Proof. by destruct db. Qed.

Section ResumeRoutes.
Context `{Externals}.

(** X2: a first save of a resume, with a plain body whose paths cast,
    followed by DELETE /api/resume gives back the database as it was
    before the save. *)
Theorem save_then_deleteResume (env env' : Env) (db : Db) (user_id : ObjectId)
    (body fields : gmap string json) :
  connected env = true → connected env' = true →
  plain_update body = true →
  castFields resumeSchema body = Some fields →
  Resume_of db user_id = None →
  (∀ r, r ∈ resumes db → r_id r ≠ oid env 0) →
  deleteResume env' user_id (saveResume env user_id body db).2
  = (mkResponse 200 (Msg "Resume deleted successfully"), db).
Proof.
  intros Hc Hc' Hplain Hf Hnone Hfresh.
  destruct (saveResume_written env db user_id body fields Hc Hplain Hf)
    as (Hres & Hof & _).
  rewrite Hres in Hof |- *. unfold written in *. cbn [snd] in *.
  rewrite Hnone in Hof |- *.
  unfold deleteResume. run. rewrite Hc'. unfold Resume_of in Hof. cbn [resumes] in Hof.
  rewrite Hof. simpl.
  assert (r_id (saved env db user_id fields) = oid env 0) as Hid
    by (unfold saved; by rewrite Hnone).
  rewrite remove_first_app_None; [by rewrite Db_eta | | apply N.eqb_refl].
  apply first_match_None. intros r Hr. apply N.eqb_neq. rewrite Hid. by apply Hfresh.
Qed.

(** X3: after POST /api/resume with a plain body whose paths cast, the
    two reading routes of the candidate answer the resume just written,
    GET /api/my-resume-id its id and GET /api/my-resume the document as
    Mongoose loads it, which is the document the save answered; and an
    application made then refers to that resume. *)
Theorem save_then_read (env env' : Env) (db : Db) (user_id : ObjectId)
    (body fields : gmap string json) :
  connected env = true → connected env' = true →
  plain_update body = true →
  castFields resumeSchema body = Some fields →
  let r := saved env db user_id fields in
  let db' := (saveResume env user_id body db).2 in
  myResumeId env' user_id db' = (Json (r_id r), db') ∧
  myResume env' user_id db' = (Json (Some (hydrate_resume r)), db') ∧
  (saveResume env user_id body db).1
    = mkResponse 201 (ResumeBody "Resume saved successfully!" (hydrate_resume r)) ∧
  (∀ id, has_job db id → ¬ has_application db id user_id →
     ∃ a, applyJob env' user_id id db'
          = (mkResponse 201 (Msg "Application submitted successfully!"),
             mkDb (users db') (recruiterProfiles db') (resumes db') (jobs db')
                  (applications db' ++ [a]))
          ∧ resume a = r_id r ∧ candidate a = user_id ∧ job a = id).
Proof.
  intros Hc Hc' Hplain Hf r db'.
  destruct (saveResume_written env db user_id body fields Hc Hplain Hf)
    as (Hres & Hof & _).
  fold r db' in Hof. unfold Resume_of in Hof.
  assert (Hjobs : jobs db' = jobs db) by (unfold db'; by rewrite Hres).
  assert (Happs : applications db' = applications db) by (unfold db'; by rewrite Hres).
  split_and!.
  - unfold myResumeId, try_reply. run. by rewrite Hc', Hof.
  - unfold myResume, try_reply. run. by rewrite Hc', Hof.
  - by rewrite Hres.
  - intros id Hjob Hno.
    assert (Hjob' : has_job db' id) by (unfold has_job; by rewrite Hjobs).
    assert (Hno' : ¬ has_application db' id user_id)
      by (unfold has_application; by rewrite Happs).
    exists (Application_new env' (oid env' 0) id user_id (r_id r)).
    split; [| done]. unfold applyJob. run. rewrite Hc'.
    destruct (job_lookup_Some _ _ Hjob') as [j ->]. simpl. rewrite Hof. simpl.
    by rewrite (application_lookup_None _ _ _ Hno').
Qed.

(** X4: neither POST /api/resume nor DELETE /api/resume, whatever
    they answer, leads from a database with at most one resume per user to
    one with more. *)
Theorem resumes_unique_kept (env : Env) (db : Db) (user_id : ObjectId)
    (body : gmap string json) :
  resumes_unique db →
  resumes_unique (saveResume env user_id body db).2 ∧
  resumes_unique (deleteResume env user_id db).2.
Proof.
  unfold resumes_unique. intros Huniq. split.
  - destruct (saveResume_shape env db user_id body) as [-> | (r0 & Hu & _ & ->)];
      [done |].
    unfold written. cbn [snd resumes].
    destruct (Resume_of db user_id) as [old|] eqn:Hold.
    + by rewrite owners_update_first.
    + rewrite fmap_app. apply NoDup_app. split_and!; [done | | apply NoDup_singleton].
      intros u (r & -> & Hr)%list_elem_of_fmap Hin.
      apply list_elem_of_singleton in Hin. rewrite Hu in Hin.
      unfold Resume_of in Hold. rewrite first_match_None in Hold.
      specialize (Hold r Hr). by apply N.eqb_neq in Hold.
  - unfold deleteResume. run. destruct (connected env); [| done].
    destruct (first_match _ (resumes db)) as [r|]; simpl; [| done].
    by apply NoDup_fmap_remove_first.
Qed.
End ResumeRoutes.

(** A first resume saved and deleted again. *)
Lemma save_then_deleteResume_witness :
  deleteResume late_env 2
    (saveResume (H := sample_externals) sample_env 2 first_save empty_db).2
  = (mkResponse 200 (Msg "Resume deleted successfully"), empty_db).
Proof.
  apply (save_then_deleteResume (H := sample_externals) sample_env late_env empty_db 2
           first_save first_save eq_refl eq_refl eq_refl eq_refl eq_refl).
  intros r Hr. inversion Hr.
Defined.

(** The candidate saves a second time, reads the id and applies. *)
Lemma save_then_read_witness :
  let db' := (saveResume (H := sample_externals) sample_env 2 second_save sample_db).2 in
  myResumeId late_env 2 db' = (Json 20, db') ∧
  ∃ a, applyJob late_env 2 11 db'
       = (mkResponse 201 (Msg "Application submitted successfully!"),
          mkDb (users db') (recruiterProfiles db') (resumes db') (jobs db')
               (applications db' ++ [a]))
       ∧ resume a = 20.
Proof.
  destruct (save_then_read (H := sample_externals) sample_env late_env sample_db 2
              second_save second_save eq_refl eq_refl eq_refl eq_refl)
    as (Hid & _ & _ & Happly).
  split; [exact Hid |].
  destruct (Happly 11) as (a & Ha & Hr & _).
  - exists other_job. split; [member | done].
  - intros (a & Hin & Hj & Hc). no_member Hin.
  - exists a. split; [exact Ha | exact Hr].
Defined.

(** The sample database has one resume per user, and keeps it so. *)
Lemma resumes_unique_kept_witness :
  resumes_unique (saveResume (H := sample_externals) sample_env 2 first_save sample_db).2 ∧
  resumes_unique (deleteResume sample_env 2 sample_db).2.
Proof.
  apply (resumes_unique_kept (H := sample_externals) sample_env sample_db 2 first_save).
  unfold resumes_unique. distinct.
Defined.

(** ** Invariants of the applications *)

Lemma NoDup_fmap_remove_all {D K} (f : D → bool) (key : D → K) (l : list D) :
  NoDup (key <$> l) → NoDup (key <$> remove_all f l).
Proof.
  induction l as [|x l IH]; simpl; [done |]. csimpl.
  intros [Hx Hl]%NoDup_cons. destruct (f x); [by apply IH |]. csimpl.
  apply NoDup_cons. split; [| by apply IH].
  intros (y & Hy & Hin)%list_elem_of_fmap. apply Hx. apply list_elem_of_fmap.
  exists y. split; [done |]. by apply elem_of_remove_all in Hin as [? _].
Qed.

(** What deleting a job does to the database, whoever asks. *)
Lemma deleteJob_cases (env : Env) (db : Db) (user_id id : ObjectId) :
  ((deleteJob env user_id id db).1 ≠ mkResponse 200 (Msg "Job removed")
   ∧ (deleteJob env user_id id db).2 = db) ∨
  (deleteJob env user_id id db
   = (mkResponse 200 (Msg "Job removed"),
      mkDb (users db) (recruiterProfiles db) (resumes db)
           (remove_first (λ j, j_id j =? id) (jobs db))
           (remove_all (λ a, job a =? id) (applications db)))
   ∧ ∃ j, first_match (λ j, j_id j =? id) (jobs db) = Some j ∧ recruiter j = user_id).
Proof.
  unfold deleteJob. run. destruct (connected env); [| by left].
  destruct (first_match _ (jobs db)) as [j|] eqn:Hj; simpl; [| by left].
  destruct (N.eqb_spec (recruiter j) user_id) as [Hr | Hr]; simpl; [| by left].
  right. split; [done |]. by exists j.
Qed.

(** What applying does to the database, whoever asks. *)
Lemma applyJob_cases (env : Env) (db : Db) (user_id id : ObjectId) :
  (applyJob env user_id id db).2 = db ∨
  (has_job db id ∧ ¬ has_application db id user_id ∧
   ∃ a, job a = id ∧ candidate a = user_id ∧
        applyJob env user_id id db
        = (mkResponse 201 (Msg "Application submitted successfully!"),
           mkDb (users db) (recruiterProfiles db) (resumes db) (jobs db)
                (applications db ++ [a]))).
Proof.
  unfold applyJob. run. destruct (connected env); [| by left].
  destruct (first_match _ (jobs db)) as [j|] eqn:Hj; simpl; [| by left].
  destruct (first_match _ (resumes db)) as [r|] eqn:Hr; simpl; [| by left].
  destruct (first_match _ (applications db)) as [a|] eqn:Ha; simpl; [by left |].
  right. split_and!.
  - apply first_match_Some in Hj as [Hin Hid]. exists j. split; [done | by apply N.eqb_eq].
  - intros (a & Hin & Hja & Hca). rewrite first_match_None in Ha.
    specialize (Ha a Hin). simpl in Ha. rewrite <- Hja, <- Hca, !N.eqb_refl in Ha. done.
  - by eexists (Application_new _ _ _ _ _).
Qed.

(** X5: applying to a job and deleting a job keep the applications
    free of duplicates: at most one per job and candidate. *)
Theorem applications_unique_kept (env : Env) (db : Db) (user_id id : ObjectId) :
  applications_unique db →
  applications_unique (applyJob env user_id id db).2 ∧
  applications_unique (deleteJob env user_id id db).2.
Proof.
  unfold applications_unique. intros Huniq. split.
  - destruct (applyJob_cases env db user_id id) as [-> | (_ & Hno & a & Hj & Hc & ->)];
      [done |].
    cbn [snd applications]. rewrite fmap_app. apply NoDup_app.
    split_and!; [done | | apply NoDup_singleton].
    intros p (a' & -> & Hin)%list_elem_of_fmap Hp. apply list_elem_of_singleton in Hp.
    injection Hp as Hj' Hc'. apply Hno. exists a'. split; [done | split; congruence].
  - destruct (deleteJob_cases env db user_id id) as [[_ ->] | [-> _]]; [done |].
    cbn [snd applications]. by apply NoDup_fmap_remove_all.
Qed.

Section JobReferences.
Context `{Externals}.

(** X6: applying to a job and creating a job keep every stored
    application attached to a stored job, and so does DELETE /jobs/:id
    whenever it answers anything but 500.  When the store goes down
    between the two writes of DELETE /jobs/:id, the answer is 500, the
    job is gone and its applications stay, attached to no job. *)
Theorem applications_have_job_kept (env env' : Env) (db : Db) (user_id id : ObjectId)
    (body : gmap string json) :
  applications_have_job db →
  applications_have_job (applyJob env user_id id db).2 ∧
  applications_have_job (createJob env user_id body db).2 ∧
  deleteJob_at env env user_id id db = deleteJob env user_id id db ∧
  ((deleteJob_at env env' user_id id db).1 ≠ mkResponse 500 (Text "Server Error") →
     applications_have_job (deleteJob_at env env' user_id id db).2) ∧
  (connected env = true → connected env' = false →
   NoDup (j_id <$> jobs db) →
   ∀ j a, j ∈ jobs db → j_id j = id → recruiter j = user_id →
          a ∈ applications db → job a = id →
     deleteJob_at env env' user_id id db
     = (mkResponse 500 (Text "Server Error"),
        mkDb (users db) (recruiterProfiles db) (resumes db)
             (filter (λ j, j_id j ≠ id) (jobs db)) (applications db)) ∧
     ¬ applications_have_job (deleteJob_at env env' user_id id db).2).
Proof.
  unfold applications_have_job. intros Hrefs. split_and!.
  - destruct (applyJob_cases env db user_id id) as [-> | (Hjob & _ & a & Hj & _ & ->)];
      [done |].
    cbn [snd applications]. intros a' [Hin | Hin]%elem_of_app.
    + destruct (Hrefs a' Hin) as (j & Hjin & Hid). by exists j.
    + apply list_elem_of_singleton in Hin as ->. rewrite Hj.
      destruct Hjob as (j & Hjin & Hid). by exists j.
  - destruct (createJob_cases env db user_id body) as [-> | (j & _ & ->)]; [done |].
    cbn [snd applications]. intros a Hin. destruct (Hrefs a Hin) as (j' & Hjin & Hid).
    exists j'. split; [| done]. cbn [jobs]. apply elem_of_app. by left.
  - done.
  - unfold deleteJob_at. run. destruct (connected env); [| by intros []].
    destruct (first_match _ (jobs db)) as [j|] eqn:Hj; simpl; [| by intros _].
    destruct (negb _); simpl; [by intros _ |].
    destruct (connected env'); simpl; [| by intros []]. intros _.
    intros a [Hin Hne]%elem_of_remove_all.
    apply N.eqb_neq in Hne. destruct (Hrefs a Hin) as (j' & Hjin & Hid).
    exists j'. split; [| done]. cbn [jobs]. apply remove_first_keeps; [done |].
    apply N.eqb_neq. congruence.
  - intros Hc Hc' Hids j a Hj <- <- Ha Hja.
    assert (Hrun : deleteJob_at env env' (recruiter j) (j_id j) db
                   = (mkResponse 500 (Text "Server Error"),
                      mkDb (users db) (recruiterProfiles db) (resumes db)
                           (filter (λ j', j_id j' ≠ j_id j) (jobs db)) (applications db))).
    { unfold deleteJob_at. run. rewrite Hc, Hc'.
      rewrite (first_match_unique j_id _ j Hids Hj). simpl. rewrite N.eqb_refl. simpl.
      by rewrite (remove_first_remove_all j_id _ _ Hids), remove_all_filter. }
    split; [done |]. rewrite Hrun. cbn [snd applications jobs]. intros Hall.
    destruct (Hall a Ha) as (j' & Hj' & Hid). unfold has_job in *.
    apply list_elem_of_filter in Hj' as [Hne _]. congruence.
Qed.
End JobReferences.

(** ** DELETE /jobs/:id with the routes that read the job *)

(** X7: once DELETE /jobs/:id has answered 200 the job is gone for
    every reader: no job and no application carries the id, and
    POST /api/jobs/:id/apply, GET /api/public-jobs/:id and
    GET /api/jobs/:id/applications answer 404 for it. *)
Theorem deleteJob_then_gone (env env' : Env) (db db' : Db) (user_id id : ObjectId) :
  NoDup (j_id <$> jobs db) →
  deleteJob env user_id id db = (mkResponse 200 (Msg "Job removed"), db') →
  connected env' = true →
  ¬ has_job db' id ∧
  (∀ a, a ∈ applications db' → job a ≠ id) ∧
  (∀ candidate_id,
     applyJob env' candidate_id id db' = (mkResponse 404 (Msg "Job not found"), db')) ∧
  publicJob env' id db' = (Sent (mkResponse 404 (Msg "Job not found")), db') ∧
  jobApplications env' user_id id db'
    = (Sent (mkResponse 404 (Msg "Job not found")), db').
Proof.
  intros Hids Hdel Hc'.
  destruct (deleteJob_cases env db user_id id) as [[Hne _] | [Hres _]];
    [by rewrite Hdel in Hne |].
  rewrite Hres in Hdel. injection Hdel as <-.
  set (db' := mkDb _ _ _ _ _).
  assert (Hgone : ¬ has_job db' id).
  { intros (j & Hj & Hid). unfold db' in Hj. cbn [jobs] in Hj.
    rewrite (remove_first_remove_all j_id _ _ Hids) in Hj.
    apply elem_of_remove_all in Hj as [_ Hj]. by apply N.eqb_neq in Hj. }
  pose proof (job_lookup_None _ _ Hgone) as Hlookup.
  unfold db' in Hlookup. cbn [jobs] in Hlookup.
  split_and!.
  - done.
  - intros a [_ Ha]%elem_of_remove_all. by apply N.eqb_neq in Ha.
  - intros candidate_id. unfold applyJob. run. by rewrite Hc', Hlookup.
  - unfold publicJob, try_reply. run. by rewrite Hc', Hlookup.
  - unfold jobApplications, try_reply. run. by rewrite Hc', Hlookup.
Qed.

Lemma sample_db_references : applications_have_job sample_db.
Proof.
  intros a Ha. cbn in Ha.
  apply elem_of_cons in Ha as [-> | Ha]; [exists sample_job; split; [member | done] |].
  apply elem_of_cons in Ha as [-> | Ha]; [exists other_job; split; [member | done] |].
  inversion Ha.
Qed.

(** An application and a deletion on the sample database. *)
Lemma applications_unique_kept_witness :
  applications_unique (applyJob sample_env 2 11 sample_db).2 ∧
  applications_unique (deleteJob sample_env 3 10 sample_db).2.
Proof.
  assert (Hunique : applications_unique sample_db)
    by (unfold applications_unique; distinct).
  destruct (applications_unique_kept sample_env sample_db 2 11 Hunique) as [Happly _].
  destruct (applications_unique_kept sample_env sample_db 3 10 Hunique) as [_ Hdelete].
  by split.
Defined.

(** An application, a deletion and a creation on the sample database,
    and the deletion cut short by the store. *)
Lemma applications_have_job_kept_witness :
  applications_have_job (applyJob sample_env 2 11 sample_db).2 ∧
  applications_have_job (deleteJob sample_env 3 10 sample_db).2 ∧
  applications_have_job
    (createJob (H := sample_externals) sample_env 3 sample_job_body sample_db).2 ∧
  deleteJob_at sample_env offline_env 3 10 sample_db
    = (mkResponse 500 (Text "Server Error"),
       mkDb (users sample_db) (recruiterProfiles sample_db) (resumes sample_db)
            [other_job] (applications sample_db)) ∧
  ¬ applications_have_job (deleteJob_at sample_env offline_env 3 10 sample_db).2.
Proof.
  destruct (applications_have_job_kept (H := sample_externals) sample_env offline_env
              sample_db 2 11 sample_job_body sample_db_references) as (Happly & _).
  destruct (applications_have_job_kept (H := sample_externals) sample_env sample_env
              sample_db 3 10 sample_job_body sample_db_references)
    as (_ & Hcreate & Hsame & Hdelete & _).
  destruct (applications_have_job_kept (H := sample_externals) sample_env offline_env
              sample_db 3 10 sample_job_body sample_db_references)
    as (_ & _ & _ & _ & Hcut).
  split_and!.
  - exact Happly.
  - rewrite <- Hsame. by apply Hdelete.
  - exact Hcreate.
  - assert (Hnd : NoDup (j_id <$> jobs sample_db)) by distinct.
    destruct (Hcut eq_refl eq_refl Hnd sample_job sample_application) as [Hrun _];
      [member | done | done | member | done |].
    exact Hrun.
  - assert (Hnd : NoDup (j_id <$> jobs sample_db)) by distinct.
    destruct (Hcut eq_refl eq_refl Hnd sample_job sample_application) as [_ Hbroken];
      [member | done | done | member | done |].
    exact Hbroken.
Defined.

(** The recruiter deletes a job; the candidate then applies in vain. *)
Lemma deleteJob_then_gone_witness :
  let db' := (deleteJob sample_env 3 10 sample_db).2 in
  ¬ has_job db' 10 ∧
  applyJob late_env 2 10 db' = (mkResponse 404 (Msg "Job not found"), db').
Proof.
  assert (Hnd : NoDup (j_id <$> jobs sample_db)) by distinct.
  destruct (deleteJob_then_gone sample_env late_env sample_db
              (deleteJob sample_env 3 10 sample_db).2 3 10 Hnd eq_refl eq_refl)
    as (Hgone & _ & Happly & _).
  split; [exact Hgone | exact (Happly 2)].
Defined.

(** ** The routes that list applications *)

Lemma populate_resume_stored (db : Db) (a : Application) (r : Resume) :
  NoDup (r_id <$> resumes db) → r ∈ resumes db → r_id r = resume a →
  populate_resume db a = Some (hydrate_resume r).
Proof.
  intros Hids Hr Hid. unfold populate_resume. rewrite <- Hid.
  by rewrite (first_match_unique r_id _ r Hids Hr).
Qed.

Lemma populate_resume_None (db : Db) (a : Application) :
  (∀ r, r ∈ resumes db → r_id r ≠ resume a) → populate_resume db a = None.
Proof.
  intros Hnone. unfold populate_resume.
  replace (first_match _ _) with (@None Resume); [done |].
  symmetry. apply first_match_None. intros r Hr. apply N.eqb_neq. by apply Hnone.
Qed.

Lemma populate_candidate_stored (db : Db) (a : Application) (u : User) :
  NoDup (u_id <$> users db) → u ∈ users db → u_id u = candidate a →
  populate_candidate db a = Some (mkCandidateCard (u_id u) (username u)).
Proof.
  intros Hids Hu Hid. unfold populate_candidate. rewrite <- Hid.
  by rewrite (first_match_unique u_id _ u Hids Hu).
Qed.

Lemma jobApplications_Json (env : Env) (db db' : Db) (user_id id : ObjectId)
    (l : list JobApplication) :
  jobApplications env user_id id db = (Json l, db') →
  db' = db ∧
  l = (λ a, mkJobApplication a (populate_candidate db a) (populate_resume db a))
      <$> filter (λ a, job a = id) (applications db).
Proof.
  unfold jobApplications, try_reply, find. run. destruct (connected env); [| done].
  destruct (first_match _ (jobs db)) as [j|]; simpl; [| done].
  destruct (negb _); simpl; [done |]. intros [= <- <-]. split; [done |].
  rewrite filter_bool_Prop. f_equal. apply filter_ext_elem. intros a _.
  apply N.eqb_eq.
Qed.

(** X8: GET /api/jobs/:id/applications answers 404 for an unknown
    job, 401 to a recruiter who does not own the job, and to the owner the
    applications of that job in stored order; each comes with the id and
    username of its candidate and with its resume as Mongoose loads it,
    or without a resume when none of that id is stored. *)
Theorem jobApplications_spec (env : Env) (db : Db) (user_id id : ObjectId) :
  connected env = true →
  NoDup (j_id <$> jobs db) →
  (¬ has_job db id →
     jobApplications env user_id id db
     = (Sent (mkResponse 404 (Msg "Job not found")), db)) ∧
  (∀ j, j ∈ jobs db → j_id j = id → recruiter j ≠ user_id →
     jobApplications env user_id id db
     = (Sent (mkResponse 401 (Msg "User not authorized")), db)) ∧
  (∀ j, j ∈ jobs db → j_id j = id → recruiter j = user_id →
     ∃ l, jobApplications env user_id id db = (Json l, db) ∧
          ja_application <$> l = filter (λ a, job a = id) (applications db) ∧
          ∀ ja, ja ∈ l →
            (∀ u, NoDup (u_id <$> users db) → u ∈ users db →
                  u_id u = candidate (ja_application ja) →
                  ja_candidate ja = Some (mkCandidateCard (u_id u) (username u))) ∧
            (∀ r, NoDup (r_id <$> resumes db) → r ∈ resumes db →
                  r_id r = resume (ja_application ja) →
                  ja_resume ja = Some (hydrate_resume r)) ∧
            ((∀ r, r ∈ resumes db → r_id r ≠ resume (ja_application ja)) →
             ja_resume ja = None)).
Proof.
  intros Hc Hids. split_and!.
  - intros Hno. unfold jobApplications, try_reply. run. rewrite Hc.
    by rewrite (job_lookup_None _ _ Hno).
  - intros j Hj <- Hr. unfold jobApplications, try_reply. run. rewrite Hc.
    rewrite (first_match_unique j_id _ j Hids Hj). simpl.
    apply N.eqb_neq in Hr. by rewrite Hr.
  - intros j Hj <- <-.
    destruct (jobApplications env (recruiter j) (j_id j) db) as [[resp | l] db'] eqn:Hres.
    { exfalso. revert Hres. unfold jobApplications, try_reply, find. run. rewrite Hc.
      rewrite (first_match_unique j_id _ j Hids Hj). simpl. by rewrite N.eqb_refl. }
    apply jobApplications_Json in Hres as [-> ->]. eexists. split; [done |]. split.
    + rewrite <- list_fmap_compose. by rewrite list_fmap_id.
    + intros ja (a & -> & Ha)%list_elem_of_fmap. cbn. split_and!.
      * intros u Hu Hin Hid. by apply populate_candidate_stored.
      * intros r Hr Hin Hid. by apply populate_resume_stored.
      * apply populate_resume_None.
Qed.

(** X9: DELETE /api/resume does not touch the applications.  One
    that refers to the deleted resume stays; the recruiter saw it with
    the resume as Mongoose loads it, and now sees it without a resume. *)
Theorem deleteResume_dangling (env env' : Env) (db : Db) (user_id : ObjectId) (r : Resume) :
  connected env = true →
  NoDup (r_id <$> resumes db) →
  Resume_of db user_id = Some r →
  let db' := (deleteResume env user_id db).2 in
  applications db' = applications db ∧
  (∀ a, resume a = r_id r →
     populate_resume db a = Some (hydrate_resume r) ∧ populate_resume db' a = None) ∧
  (∀ recruiter_id id l db'',
     jobApplications env' recruiter_id id db' = (Json l, db'') →
     ∀ ja, ja ∈ l → resume (ja_application ja) = r_id r → ja_resume ja = None).
Proof.
  intros Hc Hids Hr db'.
  assert (Hres : db' = mkDb (users db) (recruiterProfiles db)
                         (remove_all (λ r', r_id r' =? r_id r) (resumes db))
                         (jobs db) (applications db)).
  { unfold db', deleteResume. run. rewrite Hc. unfold Resume_of in Hr. rewrite Hr. simpl.
    by rewrite (remove_first_remove_all r_id _ _ Hids). }
  assert (Hgone : ∀ a, resume a = r_id r → populate_resume db' a = None).
  { intros a Ha. apply populate_resume_None. rewrite Hres. cbn [resumes].
    intros r' [_ Hr']%elem_of_remove_all. apply N.eqb_neq. by rewrite Ha. }
  split_and!.
  - by rewrite Hres.
  - intros a Ha. split; [| by apply Hgone].
    apply populate_resume_stored; [done | | done].
    unfold Resume_of in Hr. by apply first_match_Some in Hr as [? _].
  - intros recruiter_id id l db'' Hview ja Hja Hresume.
    apply jobApplications_Json in Hview as [_ ->].
    apply list_elem_of_fmap in Hja as (a & -> & _). cbn in *. by apply Hgone.
Qed.

(** X10: GET /api/candidate/applications answers exactly the
    applications of the caller, in stored order.  The job of each is cut
    down to its id, [jobTitle], [companyName] and [location]; where every
    application has its job, none comes without one. *)
Theorem candidateApplications_spec (env : Env) (db : Db) (user_id : ObjectId) :
  connected env = true →
  ∃ l, candidateApplications env user_id db = (Json l, db) ∧
       ca_application <$> l = filter (λ a, candidate a = user_id) (applications db) ∧
       (∀ ca k, ca ∈ l → k ∉ [ "jobTitle"; "companyName"; "location" ] →
          ∀ card, ca_job ca = Some card → jc_fields card !! k = None) ∧
       (applications_have_job db → NoDup (j_id <$> jobs db) →
        ∀ ca, ca ∈ l →
          ∃ j, j ∈ jobs db ∧ j_id j = job (ca_application ca) ∧
               ∃ card, ca_job ca = Some card ∧ jc_id card = j_id j ∧
                 ∀ k, k ∈ [ "jobTitle"; "companyName"; "location" ] →
                      jc_fields card !! k = j_fields j !! k).
Proof.
  intros Hc. eexists. split.
  { unfold candidateApplications, try_reply, find. run. rewrite Hc. simpl. done. }
  rewrite filter_bool_Prop. split_and!.
  - rewrite <- list_fmap_compose, list_fmap_id. apply filter_ext_elem.
    intros a _. apply N.eqb_eq.
  - intros ca k (a & -> & _)%list_elem_of_fmap Hk card. cbn. unfold populate_job.
    destruct (first_match _ (jobs db)) as [j|]; [| done]. intros [= <-]. cbn.
    apply map_lookup_filter_None. right. intros v _ Hin. by apply Hk.
  - intros Hrefs Hids ca (a & -> & Ha)%list_elem_of_fmap. cbn.
    apply list_elem_of_filter in Ha as [_ Ha].
    destruct (Hrefs a Ha) as (j & Hj & Hid). exists j. split_and!; [done | done |].
    unfold populate_job. rewrite <- Hid, (first_match_unique j_id _ j Hids Hj). cbn.
    eexists. split_and!; [done | done |]. intros k Hk. cbn.
    destruct (j_fields j !! k) as [v|] eqn:Hv.
    + apply map_lookup_filter_Some. by split.
    + apply map_lookup_filter_None. by left.
Qed.

(** A job that is not stored, a recruiter who does not own the job, and
    the owner. *)
Lemma jobApplications_spec_witness :
  jobApplications sample_env 3 99 sample_db
    = (Sent (mkResponse 404 (Msg "Job not found")), sample_db) ∧
  jobApplications sample_env 7 10 sample_db
    = (Sent (mkResponse 401 (Msg "User not authorized")), sample_db) ∧
  ∃ l, jobApplications sample_env 3 10 sample_db = (Json l, sample_db) ∧
       ja_application <$> l = [sample_application].
Proof.
  assert (Hnd : NoDup (j_id <$> jobs sample_db)) by distinct.
  destruct (jobApplications_spec sample_env sample_db 3 99 eq_refl Hnd) as (Hnone & _).
  destruct (jobApplications_spec sample_env sample_db 7 10 eq_refl Hnd) as (_ & Hother & _).
  destruct (jobApplications_spec sample_env sample_db 3 10 eq_refl Hnd) as (_ & _ & Hown).
  split_and!.
  - apply Hnone. intros (j & Hj & Hid). no_member Hj.
  - apply (Hother sample_job); [member | done | done].
  - destruct (Hown sample_job) as (l & Hl & Happs & _); [member | done | done |].
    exists l. split; [exact Hl | exact Happs].
Defined.

(** The candidate deletes the resume of the sample application. *)
Lemma deleteResume_dangling_witness :
  let db' := (deleteResume sample_env 2 sample_db).2 in
  applications db' = applications sample_db ∧
  populate_resume sample_db sample_application
    = Some (mkResume 20 2 ({[ "summary" := JStr "a" ]} ∪ schemaDefaults resumeSchema)
              700 700) ∧
  populate_resume db' sample_application = None.
Proof.
  assert (Hnd : NoDup (r_id <$> resumes sample_db)) by distinct.
  destruct (deleteResume_dangling sample_env late_env sample_db 2 sample_resume
              eq_refl Hnd eq_refl) as (Happs & Hpop & _).
  destruct (Hpop sample_application eq_refl) as [Hbefore Hafter].
  by split_and!.
Defined.

(** The applications of the sample candidate. *)
Lemma candidateApplications_spec_witness :
  ∃ l, candidateApplications sample_env 2 sample_db = (Json l, sample_db) ∧
       ca_application <$> l = [sample_application].
Proof.
  destruct (candidateApplications_spec sample_env sample_db 2 eq_refl)
    as (l & Hl & Happs & _).
  exists l. split; [exact Hl | exact Happs].
Defined.

(** ** The routes that list and read jobs *)

Lemma insert_newest_Permutation (j : Job) (l : list Job) :
  insert_newest j l ≡ₚ j :: l.
Proof.
  induction l as [|j' l IH]; simpl; [done |].
  destruct (j_createdAt j' <? j_createdAt j); [done |].
  rewrite IH. apply Permutation_swap.
Qed.

Lemma sort_newest_Permutation (l : list Job) : sort_newest l ≡ₚ l.
Proof.
  induction l as [|j l IH]; simpl; [done |].
  by rewrite insert_newest_Permutation, IH.
Qed.

Lemma insert_newest_sorted (j : Job) (l : list Job) :
  StronglySorted newer_or_same l → StronglySorted newer_or_same (insert_newest j l).
Proof.
  induction 1 as [|j' l Hl IH Hall]; simpl.
  - constructor; [constructor | constructor].
  - destruct (N.ltb_spec (j_createdAt j') (j_createdAt j)) as [Hlt | Hge].
    + constructor; [by constructor |]. constructor.
      * unfold newer_or_same. lia.
      * eapply Forall_impl; [exact Hall |]. unfold newer_or_same. intros x Hx. lia.
    + constructor; [done |].
      rewrite insert_newest_Permutation. by constructor.
Qed.

Lemma sort_newest_sorted (l : list Job) : StronglySorted newer_or_same (sort_newest l).
Proof.
  induction l as [|j l IH]; simpl; [constructor | by apply insert_newest_sorted].
Qed.

Lemma hydrate_sorted (l : list Job) :
  StronglySorted newer_or_same l → StronglySorted newer_or_same (hydrate_job <$> l).
Proof.
  induction 1 as [|j l Hl IH Hall]; csimpl; constructor; [done |].
  apply Forall_fmap. eapply Forall_impl; [exact Hall |]. by intros j'.
Qed.

(** X11: GET /jobs answers the jobs of the calling recruiter and
    GET /api/public-jobs all jobs, each of them once, as Mongoose loads
    them, newest first. *)
Theorem job_listings (env : Env) (db : Db) (user_id : ObjectId) :
  connected env = true →
  (∃ l, getJobs env user_id db = (Json l, db) ∧
        l ≡ₚ hydrate_job <$> filter (λ j, recruiter j = user_id) (jobs db) ∧
        StronglySorted newer_or_same l) ∧
  (∃ l, publicJobs env db = (Json l, db) ∧
        l ≡ₚ hydrate_job <$> jobs db ∧ StronglySorted newer_or_same l).
Proof.
  intros Hc. split.
  - eexists. split.
    { unfold getJobs, try_reply, find. run. rewrite Hc. simpl. done. }
    split; [| apply hydrate_sorted, sort_newest_sorted].
    rewrite sort_newest_Permutation, filter_bool_Prop.
    erewrite filter_ext_elem; [done |]. intros j _. apply N.eqb_eq.
  - eexists. split.
    { unfold publicJobs, try_reply, find. run. rewrite Hc. simpl. done. }
    split; [| apply hydrate_sorted, sort_newest_sorted].
    rewrite sort_newest_Permutation. clear. induction (jobs db) as [|j l IH]; simpl; [done |].
    by rewrite IH.
Qed.

Lemma elem_of_sort_newest_filter (f : Job → bool) (l : list Job) (j : Job) :
  j ∈ sort_newest (List.filter f l) ↔ j ∈ l ∧ f j = true.
Proof.
  rewrite sort_newest_Permutation, filter_bool_Prop, list_elem_of_filter. tauto.
Qed.

Lemma arrayDefaults_lookup (schema : list SchemaPath) (p : string) (v : json) :
  arrayDefaults schema !! p = Some v → v = JArr [].
Proof.
  induction schema as [|sp rest IH]; simpl; [done |].
  destruct (path_type sp); try exact IH;
    (destruct (decide (path_name sp = p)) as [<- | Hne];
     [rewrite lookup_insert_eq; congruence | by rewrite lookup_insert_ne]).
Qed.

(** The empty arrays a new document starts with do not matter to the
    validators. *)
Lemma validate_arrayDefaults (schema schema' : list SchemaPath) (m : gmap string json) :
  validate schema m = true → validate schema (m ∪ arrayDefaults schema') = true.
Proof.
  unfold validate. rewrite !forallb_forall. intros Hvalid sp Hsp.
  specialize (Hvalid sp Hsp). unfold validatePath in *.
  apply andb_prop in Hvalid as [Hreq Henum]. apply andb_true_intro. split.
  - destruct (path_required sp); [| done]. simpl in *. unfold required_String in *.
    destruct (m !! path_name sp) as [v|] eqn:Hv; [| done].
    by rewrite (lookup_union_Some_l _ _ _ _ Hv).
  - destruct (path_enum sp) as [values|]; [| done]. unfold enum_String in *.
    destruct (m !! path_name sp) as [v|] eqn:Hv.
    + by rewrite (lookup_union_Some_l _ _ _ _ Hv).
    + rewrite lookup_union_r by done.
      destruct (arrayDefaults schema' !! path_name sp) as [v|] eqn:Hd; [| done].
      by rewrite (arrayDefaults_lookup _ _ _ Hd).
Qed.

(** The defaults of [jobSchema] are its empty arrays. *)
Lemma jobSchema_defaults : schemaDefaults jobSchema = arrayDefaults jobSchema.
Proof. reflexivity. Qed.

Section JobRoundTrip.
Context `{Externals}.

(** What a created job is. *)
Lemma createJob_created (env : Env) (db db' : Db) (user_id : ObjectId)
    (body : gmap string json) (j : Job) :
  createJob env user_id body db = (mkResponse 201 (JobBody j), db') →
  j_id j = oid env 0 ∧ recruiter j = user_id ∧
  validate jobSchema (j_fields j) = true ∧
  hydrate_job j = j ∧
  db' = mkDb (users db) (recruiterProfiles db) (resumes db) (jobs db ++ [j])
             (applications db).
Proof.
  unfold createJob, Job_save.
  destruct (Job_validate _) as [[r m]|] eqn:Hv; [| done].
  pose proof (Job_validate_recruiter _ _ _ _ Hv) as ->.
  assert (Hm : validate jobSchema m = true ∧ hydrate jobSchema m = m).
  { revert Hv. unfold Job_validate.
    destruct (_ !! "recruiter" ≫= castObjectId) as [r|]; [| done].
    cbn [mbind option_bind].
    destruct (castFields jobSchema _) as [m'|]; [| done]. cbn [mbind option_bind].
    destruct (validate jobSchema m') eqn:Hvalid; [| done]. intros [= _ <-]. split.
    - exact (validate_arrayDefaults jobSchema jobSchema m' Hvalid).
    - unfold hydrate. rewrite jobSchema_defaults, <- (assoc_L (∪)).
      by rewrite (idemp_L (∪)). }
  destruct Hm as [Hm Hhydrated].
  unfold try_catch, bind, insertOne, query, ret.
  destruct (connected env); [| done]. intros [= <- <-].
  split_and!; try done. unfold hydrate_job.
  cbn [j_id recruiter j_fields j_createdAt j_updatedAt]. by rewrite Hhydrated.
Qed.

(** X12: a job that POST /jobs answered with 201 is read back by
    GET /api/public-jobs/:id, is listed by GET /api/public-jobs and by
    GET /jobs of its recruiter, and is in the GET /jobs of nobody else. *)
Theorem createJob_then_read (env env' : Env) (db db' : Db) (user_id : ObjectId)
    (body : gmap string json) (j : Job) :
  createJob env user_id body db = (mkResponse 201 (JobBody j), db') →
  connected env' = true →
  (∀ j', j' ∈ jobs db → j_id j' ≠ oid env 0) →
  publicJob env' (j_id j) db' = (Json j, db') ∧
  (∃ l, getJobs env' user_id db' = (Json l, db') ∧ j ∈ l) ∧
  (∃ l, publicJobs env' db' = (Json l, db') ∧ j ∈ l) ∧
  (∀ other, other ≠ user_id →
     ∃ l, getJobs env' other db' = (Json l, db') ∧ j ∉ l).
Proof.
  intros Hcreate Hc' Hfresh.
  destruct (createJob_created _ _ _ _ _ _ Hcreate) as (Hid & Hr & _ & Hloaded & ->).
  assert (Hin : j ∈ jobs db ++ [j]) by (apply elem_of_app; right; left).
  split_and!.
  - unfold publicJob, try_reply. run. rewrite Hc'.
    rewrite first_match_app_None.
    + rewrite N.eqb_refl. simpl. by rewrite Hloaded.
    + apply first_match_None. intros j' Hj'. apply N.eqb_neq. rewrite Hid. by apply Hfresh.
  - eexists. split.
    { unfold getJobs, try_reply, find. run. rewrite Hc'. simpl. done. }
    rewrite <- Hloaded at 1. apply list_elem_of_fmap_2.
    apply elem_of_sort_newest_filter. split; [done | by apply N.eqb_eq].
  - eexists. split.
    { unfold publicJobs, try_reply, find. run. rewrite Hc'. simpl. done. }
    rewrite <- Hloaded at 1. apply list_elem_of_fmap_2.
    by apply elem_of_sort_newest_filter.
  - intros other Hother. eexists. split.
    { unfold getJobs, try_reply, find. run. rewrite Hc'. simpl. done. }
    intros (j0 & Hj0 & [_ Hmine]%elem_of_sort_newest_filter)%list_elem_of_fmap.
    apply N.eqb_eq in Hmine. apply (f_equal recruiter) in Hj0. cbn in Hj0. congruence.
Qed.

(** X13: POST /jobs and DELETE /jobs/:id keep every stored job valid:
    it has the required paths of [jobSchema] and an employment type of the
    enumeration. *)
Theorem jobs_valid_kept (env : Env) (db : Db) (user_id id : ObjectId)
    (body : gmap string json) :
  jobs_valid db →
  jobs_valid (createJob env user_id body db).2 ∧
  jobs_valid (deleteJob env user_id id db).2.
Proof.
  unfold jobs_valid. intros Hvalid. split.
  - destruct (createJob env user_id body db) as [resp db'] eqn:Hres.
    destruct (createJob_cases env db user_id body) as [Hfail | (j & _ & Hok)].
    + rewrite Hfail in Hres. by injection Hres as _ <-.
    + rewrite Hok in Hres. injection Hres as _ <-.
      destruct (createJob_created _ _ _ _ _ _ Hok) as (_ & _ & Hj & _ & _).
      cbn. intros j' [Hj' | Hj']%elem_of_app; [by apply Hvalid |].
      by apply list_elem_of_singleton in Hj' as ->.
  - destruct (deleteJob_cases env db user_id id) as [[_ ->] | [-> _]]; [done |].
    cbn. intros j Hj. apply Hvalid. by apply elem_of_remove_first in Hj.
Qed.
End JobRoundTrip.

(** ** GET /api/resume/:id *)

(** X14: GET /api/resume/:id is behind [auth] alone: whoever holds
    a token that is accepted, of whatever role, reads any stored resume by
    its id, as Mongoose loads it, and gets 404 for an id that is not
    stored. *)
Theorem getResume_any_role (env : Env) (db : Db) (token : option Token)
    (user : TokenUser) (id : ObjectId) :
  auth env token = inr user →
  connected env = true →
  NoDup (r_id <$> resumes db) →
  (∀ r, r ∈ resumes db → r_id r = id →
     GET_api_resume env token id db = (Json (hydrate_resume r), db)) ∧
  ((∀ r, r ∈ resumes db → r_id r ≠ id) →
     GET_api_resume env token id db
     = (Sent (mkResponse 404 (Msg "Resume not found")), db)).
Proof.
  intros Hauth Hc Hids. unfold GET_api_resume, guarded_reply. rewrite Hauth.
  unfold getResume, try_reply. run. rewrite Hc. split.
  - intros r Hr <-. by rewrite (first_match_unique r_id _ r Hids Hr).
  - intros Hno.
    assert (first_match (λ d, r_id d =? id) (resumes db) = None) as ->; [| done].
    apply first_match_None. intros r Hr. apply N.eqb_neq. by apply Hno.
Qed.

(** The listing of the sample recruiter. *)
Lemma job_listings_witness :
  ∃ l, getJobs sample_env 3 sample_db = (Json l, sample_db) ∧
       l ≡ₚ hydrate_job <$> [sample_job; other_job] ∧ StronglySorted newer_or_same l.
Proof.
  destruct (job_listings sample_env sample_db 3 eq_refl) as [(l & Hl & Hperm & Hsorted) _].
  exists l. split_and!; [exact Hl | exact Hperm | exact Hsorted].
Defined.

(** The sample recruiter posts a job and reads it back. *)
Lemma createJob_then_read_witness :
  let db' := (createJob (H := sample_externals) sample_env 3 sample_job_body sample_db).2 in
  ∃ j, publicJob late_env 100 db' = (Json j, db') ∧
       ∃ l, getJobs late_env 3 db' = (Json l, db') ∧ j ∈ l.
Proof.
  assert (Hfresh : ∀ j', j' ∈ jobs sample_db → j_id j' ≠ oid sample_env 0)
    by (intros j' Hj'; no_member Hj').
  destruct (createJob_then_read (H := sample_externals) sample_env late_env sample_db _ 3
              sample_job_body _ eq_refl eq_refl Hfresh) as (Hread & Hown & _).
  eexists. split; [exact Hread | exact Hown].
Defined.

Lemma sample_db_jobs_valid : jobs_valid sample_db.
Proof.
  intros j Hj. cbn in Hj.
  apply elem_of_cons in Hj as [-> | Hj]; [reflexivity |].
  apply elem_of_cons in Hj as [-> | Hj]; [reflexivity |].
  inversion Hj.
Qed.

Lemma jobs_valid_kept_witness :
  jobs_valid (createJob (H := sample_externals) sample_env 3 sample_job_body sample_db).2 ∧
  jobs_valid (deleteJob sample_env 3 10 sample_db).2.
Proof.
  exact (jobs_valid_kept (H := sample_externals) sample_env sample_db 3 10 sample_job_body
           sample_db_jobs_valid).
Defined.

(** A recruiter reads the resume of the sample candidate. *)
Lemma getResume_any_role_witness :
  GET_api_resume sample_env (Some rita_token) 20 sample_db
  = (Json (mkResume 20 2 ({[ "summary" := JStr "a" ]} ∪ schemaDefaults resumeSchema) 700 700),
     sample_db).
Proof.
  assert (Hnd : NoDup (r_id <$> resumes sample_db)) by distinct.
  destruct (getResume_any_role sample_env sample_db (Some rita_token)
              (mkTokenUser 3 "Recruiter") 20 eq_refl eq_refl Hnd) as [Hfound _].
  apply (Hfound sample_resume); [member | done].
Defined.

(** ** POST /register, once more *)

Section RegisterMore.
Context `{Externals}.




(** The user a successful registration adds. *)
Lemma register_new_user (env : Env) (db db' : Db) (name secret role' : string)
    (profileData : gmap string json) :
  register env name secret role' profileData db
  = (mkResponse 201 (Message "User registered successfully"), db') →
  ¬ has_username db name ∧
  ∃ p, users db' = users db ++ [mkUser (oid env 0) name (bcrypt_hash secret) role' p].
Proof.
  unfold register, try_catch, bind, findOne, query, ret.
  cbv beta iota delta [docs UserModel].
  destruct (connected env) eqn:Hc; [| done].
  destruct (first_match _ (users db)) as [u|] eqn:Hu; [done |].
  assert (Hfree : ¬ has_username db name).
  { intros (u & Hin & Hn). rewrite first_match_None in Hu.
    specialize (Hu u Hin). simpl in Hu. by apply String.eqb_neq in Hu. }
  destruct (String.eqb role' "Recruiter").
  - pose proof (RecruiterProfile_save_users env (oid env 1) (oid env 0) profileData db)
      as Hp.
    destruct (RecruiterProfile_save env (oid env 1) (oid env 0) profileData db)
      as [[[]|e] db1]; simpl in Hp; [| done].
    unfold User_save, insertOne, query, throw. destruct (User_validate _); [| done].
    rewrite Hc. intros [= <-]. split; [done |]. eexists. cbn. by rewrite Hp.
  - unfold User_save, insertOne, query, throw. destruct (User_validate _); [| done].
    rewrite Hc. intros [= <-]. split; [done |]. by eexists.
Qed.

(** X17: where bcrypt accepts a password against its own hash, a
    user who registered logs in with the same password: the token carries
    the id and the role of the registration and is accepted by [auth] for
    five hours.  A password that bcrypt refuses is answered with 400. *)
Theorem register_then_login (env env' env'' : Env) (db db' : Db)
    (name secret role' : string) (profileData : gmap string json) :
  register env name secret role' profileData db
  = (mkResponse 201 (Message "User registered successfully"), db') →
  connected env' = true →
  bcrypt_compare secret (bcrypt_hash secret) = true →
  let token := jwt_sign (mkTokenUser (oid env 0) role') (JWT_SECRET env') (now env') in
  login env' name (Some secret) db' = (mkResponse 200 (TokenBody token), db') ∧
  (JWT_SECRET env'' = JWT_SECRET env' → now env'' < now env' + 5 * 3600 →
     auth env'' (Some token) = inr (mkTokenUser (oid env 0) role')) ∧
  (∀ wrong, bcrypt_compare wrong (bcrypt_hash secret) = false →
     login env' name (Some wrong) db'
     = (mkResponse 400 (Msg "Invalid credentials"), db')).
Proof.
  intros Hreg Hc' Hbcrypt token.
  destruct (register_new_user _ _ _ _ _ _ _ Hreg) as (Hfree & p & Husers).
  assert (Hfound : first_match (λ u, String.eqb (username u) name) (users db')
                   = Some (mkUser (oid env 0) name (bcrypt_hash secret) role' p)).
  { rewrite Husers, (first_match_app_None _ _ _ (username_lookup_None _ _ Hfree)).
    cbn. by rewrite String.eqb_refl. }
  split_and!.
  - unfold login, try_catch, bind, findOne, query, ret.
    cbv beta iota delta [docs UserModel]. rewrite Hc', Hfound.
    unfold bcrypt_compare_body, ret. cbn [password u_id role]. by rewrite Hbcrypt.
  - intros Hkey Hlt. unfold token, auth, jwt_sign, jwt_verify. cbn.
    rewrite Hkey, String.eqb_refl.
    destruct (N.leb_spec (now env' + expiresIn) (now env'')) as [Hle | _]; [| done].
    unfold expiresIn in Hle. lia.
  - intros wrong Hwrong. unfold login, try_catch, bind, findOne, query, ret.
    cbv beta iota delta [docs UserModel]. rewrite Hc', Hfound.
    unfold bcrypt_compare_body, ret. cbn [password u_id role]. by rewrite Hwrong.
Qed.
End RegisterMore.



(** Carol registers, logs in and presents the token. *)
Lemma register_then_login_witness :
  login (H := sample_externals) (env_at 2010 210) "carol" (Some "pw") registered.2
    = (mkResponse 200 (TokenBody carol_token), registered.2) ∧
  auth (env_at 2020 220) (Some carol_token) = inr (mkTokenUser 200 "Candidate").
Proof.
  destruct (register_then_login (H := sample_externals) (env_at 2000 200) (env_at 2010 210)
              (env_at 2020 220) sample_db registered.2 "carol" "pw" "Candidate" ∅
              eq_refl eq_refl eq_refl) as (Hlogin & Hauth & _).
  split; [exact Hlogin |]. apply Hauth; [reflexivity | cbn; lia].
Defined.

(** ** The user administration *)

Section UpdateFirst.
Context {D : Type} (f : D → bool).

Lemma fmap_update_first_found {E} (h : D → E) (l : list D) (d d' : D) :
  first_match f l = Some d → h d' = h d →
  h <$> update_first f (λ _, d') l = h <$> l.
Proof.
  intros Hm Hh. induction l as [|x l IH]; [done |]. simpl in *.
  destruct (f x).
  - injection Hm as ->. csimpl. by rewrite Hh.
  - csimpl. by rewrite IH.
Qed.

Lemma update_first_others (l : list D) (d' x : D) :
  f d' = true → f x = false →
  x ∈ update_first f (λ _, d') l ↔ x ∈ l.
Proof.
  intros Hd Hx. induction l as [|y l IH]; [done |]. simpl.
  destruct (f y) eqn:Hy.
  - rewrite !elem_of_cons. split; intros [-> | Hin]; auto; congruence.
  - rewrite !elem_of_cons, IH. done.
Qed.
End UpdateFirst.

Lemma user_lookup_None (db : Db) (id : ObjectId) :
  (∀ u, u ∈ users db → u_id u ≠ id) →
  first_match (λ u, u_id u =? id) (users db) = None.
Proof.
  intros Hno. apply first_match_None. intros u Hu. apply N.eqb_neq. by apply Hno.
Qed.

Lemma user_lookup_Some (db : Db) (u : User) :
  NoDup (u_id <$> users db) → u ∈ users db →
  first_match (λ v, u_id v =? u_id u) (users db) = Some u.
Proof. apply (first_match_unique u_id). Qed.

Section UserAdministration.
Context `{Externals}.

(** X18: PUT /api/users/:id/role with a role of the enumeration
    answers 404 for an unknown user.  For another user than the caller it
    answers 500 when the validator of the role refuses it; otherwise it
    answers the user with the new role, stores that user under the same
    id and username, and leaves the other users and the other collections
    as they are. *)
Theorem changeRole_updates (env : Env) (db : Db) (actor id : ObjectId)
    (body : gmap string json) (s : string) :
  connected env = true →
  NoDup (u_id <$> users db) →
  body !! "role" = Some (JStr s) →
  s ∈ roles →
  ((∀ u, u ∈ users db → u_id u ≠ id) →
     changeRole env actor id body db = (mkResponse 404 (Msg "User not found"), db)) ∧
  (∀ u, u ∈ users db → u_id u = id → id ≠ actor →
     (User_validate_role s = false →
        changeRole env actor id body db = (mkResponse 500 (Text "Server Error"), db)) ∧
     (User_validate_role s = true →
        ∃ u' db',
          changeRole env actor id body db = (mkResponse 200 (UserBody u'), db') ∧
          u_id u' = id ∧ username u' = username u ∧ role u' = s ∧
          first_match (λ v, u_id v =? id) (users db') = Some u' ∧
          u_id <$> users db' = u_id <$> users db ∧
          (∀ v, u_id v ≠ id → v ∈ users db' ↔ v ∈ users db) ∧
          recruiterProfiles db' = recruiterProfiles db ∧ resumes db' = resumes db ∧
          jobs db' = jobs db ∧ applications db' = applications db)).
Proof.
  intros Hc Hnd Hbody Hs.
  assert (Hincl : includes_role (body !! "role") = true).
  { apply includes_role_names. by exists s. }
  unfold changeRole. rewrite Hincl. cbn [negb].
  unfold try_catch, bind, findById, findOne, query, ret.
  cbv beta iota delta [docs doc_id UserModel]. rewrite Hc. split.
  - intros Hno. by rewrite (user_lookup_None _ _ Hno).
  - intros u Hu <- Hne.
    rewrite (user_lookup_Some _ _ Hnd Hu).
    apply N.eqb_neq in Hne. rewrite Hne, Hbody. split.
    + intros Hv. rewrite Hv. unfold throw. done.
    + intros Hv. rewrite Hv. unfold replaceOne, query. rewrite Hc.
      cbv beta iota delta [docs doc_id set_docs UserModel u_id].
      eexists _, _. split; [reflexivity |]. cbn [users recruiterProfiles resumes jobs
        applications u_id username role].
      split_and!; try done.
      * apply first_match_update_first with (d := u).
        -- by apply user_lookup_Some.
        -- apply N.eqb_refl.
      * apply fmap_update_first_found with (d := u); [| done].
        by apply user_lookup_Some.
      * intros v Hvid. apply update_first_others.
        -- apply N.eqb_refl.
        -- by apply N.eqb_neq.
Qed.

(** X19: DELETE /api/users/:id answers 404 for an unknown user, 400
    to an administrator who names themselves, and otherwise removes that
    user and nothing else: the profiles, resumes, jobs and applications
    are as before. *)
Theorem deleteUser_spec (env : Env) (db : Db) (actor id : ObjectId) :
  connected env = true →
  NoDup (u_id <$> users db) →
  ((∀ u, u ∈ users db → u_id u ≠ id) →
     deleteUser env actor id db = (mkResponse 404 (Msg "User not found"), db)) ∧
  (∀ u, u ∈ users db → u_id u = id →
     (id = actor →
        deleteUser env actor id db
        = (mkResponse 400 (Msg "You cannot delete your own account."), db)) ∧
     (id ≠ actor →
        deleteUser env actor id db
        = (mkResponse 200 (Msg "User removed"),
           mkDb (filter (λ v, u_id v ≠ id) (users db)) (recruiterProfiles db)
                (resumes db) (jobs db) (applications db)))).
Proof.
  intros Hc Hnd. unfold deleteUser, try_catch, bind, findById, findOne, query, ret.
  cbv beta iota delta [docs doc_id UserModel]. rewrite Hc. split.
  - intros Hno. by rewrite (user_lookup_None _ _ Hno).
  - intros u Hu <-. rewrite (user_lookup_Some _ _ Hnd Hu). split.
    + intros <-. by rewrite N.eqb_refl.
    + intros Hne. apply N.eqb_neq in Hne. rewrite Hne.
      unfold deleteOne, query. rewrite Hc.
      cbv beta iota delta [docs doc_id set_docs UserModel].
      by rewrite (remove_first_remove_all u_id _ _ Hnd), remove_all_filter.
Qed.

(** The database after a user was removed. *)
Lemma deleteUser_removed (env : Env) (db db' : Db) (actor : ObjectId) (u : User) :
  NoDup (u_id <$> users db) →
  u ∈ users db →
  deleteUser env actor (u_id u) db = (mkResponse 200 (Msg "User removed"), db') →
  db' = mkDb (filter (λ v, u_id v ≠ u_id u) (users db)) (recruiterProfiles db)
             (resumes db) (jobs db) (applications db).
Proof.
  intros Hnd Hu. unfold deleteUser, try_catch, bind, findById, findOne, query, ret.
  cbv beta iota delta [docs doc_id UserModel].
  destruct (connected env) eqn:Hc; [| done].
  rewrite (user_lookup_Some _ _ Hnd Hu).
  destruct (u_id u =? actor); [done |].
  unfold deleteOne, query. rewrite Hc.
  cbv beta iota delta [docs doc_id set_docs UserModel].
  rewrite (remove_first_remove_all u_id _ _ Hnd), remove_all_filter.
  by intros [= <-].
Qed.

(** What [applyJob] does is the same whoever is registered. *)
Lemma applyJob_users (env : Env) (db : Db) (user_id id : ObjectId) (us : list User) :
  applyJob env user_id id
    (mkDb us (recruiterProfiles db) (resumes db) (jobs db) (applications db))
  = let r := applyJob env user_id id db in
    (r.1, mkDb us (recruiterProfiles r.2) (resumes r.2) (jobs r.2) (applications r.2)).
Proof.
  unfold applyJob. run.
  destruct (connected env); [| reflexivity].
  destruct (first_match _ (jobs db)); simpl; [| reflexivity].
  destruct (first_match _ (resumes db)); simpl; [| reflexivity].
  destruct (first_match _ (applications db)); reflexivity.
Qed.

(** X20: what a deleted user leaves behind.  The documents of the
    other collections stay, the applications of the user are shown without
    a candidate, a login under the username is answered with 400, and a
    token issued before the deletion does at POST /api/jobs/:id/apply what
    it did before. *)
Theorem deleteUser_leaves_traces (env env' : Env) (db db' : Db) (actor : ObjectId)
    (u : User) :
  NoDup (u_id <$> users db) →
  u ∈ users db →
  deleteUser env actor (u_id u) db = (mkResponse 200 (Msg "User removed"), db') →
  (recruiterProfiles db', resumes db', jobs db', applications db')
  = (recruiterProfiles db, resumes db, jobs db, applications db) ∧
  (∀ a, candidate a = u_id u → populate_candidate db' a = None) ∧
  (∀ token id,
     (POST_api_jobs_apply env' token id db').1 = (POST_api_jobs_apply env' token id db).1) ∧
  (connected env' = true → NoDup (username <$> users db) →
   ∀ secret,
     login env' (username u) secret db'
     = (mkResponse 400 (Msg "Invalid credentials"), db')).
Proof.
  intros Hnd Hu Hdel. rewrite (deleteUser_removed _ _ _ _ _ Hnd Hu Hdel).
  cbn [users recruiterProfiles resumes jobs applications].
  split_and!.
  - done.
  - intros a Ha. unfold populate_candidate. cbn [users].
    replace (first_match _ _) with (@None User); [done |].
    symmetry. apply first_match_None. intros v Hv.
    apply list_elem_of_filter in Hv as [Hv _]. rewrite Ha. by apply N.eqb_neq.
  - intros token id. unfold POST_api_jobs_apply, guarded.
    destruct (auth env' token) as [r | tu]; [done |].
    destruct (isCandidate tu); [done |].
    by rewrite applyJob_users.
  - intros Hc' Hnames secret.
    unfold login, try_catch, bind, findOne, query, ret.
    cbv beta iota delta [docs UserModel]. cbn [users]. rewrite Hc'.
    replace (first_match _ _) with (@None User); [done |].
    symmetry. apply first_match_None. intros v Hv.
    apply list_elem_of_filter in Hv as [Hid Hv]. apply String.eqb_neq.
    intros Hname. apply Hid. f_equal.
    by apply (unique_key username (users db)).
Qed.

(** X21: the script that creates the administrator does nothing when
    a user with the role Admin is stored.  Otherwise it stores the user
    [admin] with the hashed password, after which a second run does
    nothing; when the validation fails it stores nothing. *)
Theorem createAdmin_spec (env : Env) (db : Db) :
  connected env = true →
  let new_admin := mkUser (oid env 0) "admin" (bcrypt_hash "adminpassword") "Admin" None in
  let db' := mkDb (users db ++ [new_admin]) (recruiterProfiles db) (resumes db) (jobs db)
                  (applications db) in
  ((∃ u, u ∈ users db ∧ role u = "Admin") →
     createAdmin env db = ("Admin user already exists.", db)) ∧
  ((∀ u, u ∈ users db → role u ≠ "Admin") →
     (¬ has_username db "admin" →
      User_validate (mkUser (oid env 0) "admin" "adminpassword" "Admin" None) = true →
        createAdmin env db = ("Admin user created successfully!", db') ∧
        ∀ env'', connected env'' = true →
          createAdmin env'' db' = ("Admin user already exists.", db')) ∧
     (User_validate (mkUser (oid env 0) "admin" "adminpassword" "Admin" None) = false →
        createAdmin env db = ("Error creating admin user:", db))).
Proof.
  intros Hc new_admin db'. split; [| intros Hnone; split].
  - intros (u & Hu & Hrole).
    unfold createAdmin, bind, findOne, query, ret.
    cbv beta iota delta [docs UserModel]. rewrite Hc.
    destruct (first_match_is_Some (λ u, String.eqb (role u) "Admin") (users db) u Hu)
      as [a ->]; [by apply String.eqb_eq | done].
  - assert (Hm : first_match (λ u, String.eqb (role u) "Admin") (users db) = None).
    { apply first_match_None. intros u Hu. apply String.eqb_neq. by apply Hnone. }
    intros _ Hv. split.
    + unfold createAdmin, bind, findOne, query, ret.
      cbv beta iota delta [docs UserModel]. rewrite Hc, Hm.
      unfold User_save, insertOne, query. by rewrite Hv, Hc.
    + intros env'' Hc''. unfold createAdmin, bind, findOne, query, ret.
      cbv beta iota delta [docs UserModel]. rewrite Hc''. unfold db'. cbn [users].
      by rewrite (first_match_app_None _ _ _ Hm).
  - assert (Hm : first_match (λ u, String.eqb (role u) "Admin") (users db) = None).
    { apply first_match_None. intros u Hu. apply String.eqb_neq. by apply Hnone. }
    intros Hv. unfold createAdmin, bind, findOne, query, ret.
    cbv beta iota delta [docs UserModel]. rewrite Hc, Hm.
    unfold User_save, throw. by rewrite Hv.
Qed.
End UserAdministration.

(** The administrator makes the sample candidate a recruiter. *)
Lemma changeRole_updates_witness :
  changeRole (H := sample_externals) sample_env 1 99 to_recruiter sample_db
    = (mkResponse 404 (Msg "User not found"), sample_db) ∧
  ∃ u' db',
    changeRole (H := sample_externals) sample_env 1 2 to_recruiter sample_db
      = (mkResponse 200 (UserBody u'), db') ∧
    username u' = "alice" ∧ role u' = "Recruiter".
Proof.
  assert (Hnd : NoDup (u_id <$> users sample_db)) by distinct.
  assert (Hrole : "Recruiter" ∈ roles) by member.
  destruct (changeRole_updates (H := sample_externals) sample_env sample_db 1 99
              to_recruiter "Recruiter" eq_refl Hnd eq_refl Hrole) as [Hnone _].
  destruct (changeRole_updates (H := sample_externals) sample_env sample_db 1 2
              to_recruiter "Recruiter" eq_refl Hnd eq_refl Hrole) as [_ Hsome].
  split.
  - apply Hnone. intros u Hu. no_member Hu.
  - destruct (Hsome alice) as [_ Hok]; [member | done | done |].
    destruct (Hok eq_refl) as (u' & db' & Hrun & _ & Hname & Hnew & _).
    exists u', db'. by split_and!.
Defined.

(** The administrator deletes nobody, themselves, the sample candidate. *)
Lemma deleteUser_spec_witness :
  deleteUser sample_env 1 99 sample_db = (mkResponse 404 (Msg "User not found"), sample_db) ∧
  deleteUser sample_env 1 1 sample_db
    = (mkResponse 400 (Msg "You cannot delete your own account."), sample_db) ∧
  deleteUser sample_env 1 2 sample_db
    = (mkResponse 200 (Msg "User removed"),
       mkDb [admin; rita] (recruiterProfiles sample_db) (resumes sample_db)
            (jobs sample_db) (applications sample_db)).
Proof.
  assert (Hnd : NoDup (u_id <$> users sample_db)) by distinct.
  destruct (deleteUser_spec sample_env sample_db 1 99 eq_refl Hnd) as [Hnone _].
  destruct (deleteUser_spec sample_env sample_db 1 1 eq_refl Hnd) as [_ Hself].
  destruct (deleteUser_spec sample_env sample_db 1 2 eq_refl Hnd) as [_ Hother].
  split_and!.
  - apply Hnone. intros u Hu. no_member Hu.
  - destruct (Hself admin) as [Hrefused _]; [member | done |]. by apply Hrefused.
  - destruct (Hother alice) as [_ Hremoved]; [member | done |]. by apply Hremoved.
Defined.

(** The deleted candidate cannot log in, and applies with the old token. *)
Lemma deleteUser_leaves_traces_witness :
  let db' := (deleteUser sample_env 1 2 sample_db).2 in
  resumes db' = resumes sample_db ∧
  login (H := sample_externals) late_env "alice" (Some "wonderland") db'
    = (mkResponse 400 (Msg "Invalid credentials"), db') ∧
  (POST_api_jobs_apply late_env (Some alice_token) 11 db').1
    = mkResponse 201 (Msg "Application submitted successfully!").
Proof.
  assert (Hnd : NoDup (u_id <$> users sample_db)) by distinct.
  assert (Hnames : NoDup (username <$> users sample_db)) by distinct.
  assert (Halice : alice ∈ users sample_db) by member.
  destruct (deleteUser_leaves_traces (H := sample_externals) sample_env late_env sample_db
              (deleteUser sample_env 1 2 sample_db).2 1 alice Hnd Halice eq_refl)
    as (Hkept & _ & Happly & Hlogin).
  split_and!.
  - exact (f_equal (λ t, t.1.1.2) Hkept).
  - exact (Hlogin eq_refl Hnames (Some "wonderland")).
  - rewrite (Happly (Some alice_token) 11). reflexivity.
Defined.

(** The script on the sample database, and on an empty one. *)
Lemma createAdmin_spec_witness :
  createAdmin (H := sample_externals) sample_env sample_db
    = ("Admin user already exists.", sample_db) ∧
  createAdmin (H := sample_externals) sample_env empty_db
    = ("Admin user created successfully!",
       mkDb [mkUser 100 "admin" "$2a$adminpassword" "Admin" None] [] [] [] []).
Proof.
  destruct (createAdmin_spec (H := sample_externals) sample_env sample_db eq_refl)
    as [Hexists _].
  destruct (createAdmin_spec (H := sample_externals) sample_env empty_db eq_refl)
    as [_ Hnone].
  split.
  - apply Hexists. exists admin. split; [member | done].
  - destruct Hnone as [Hcreated _]; [intros u Hu; inversion Hu |].
    destruct Hcreated as [Hrun _]; [intros (u & Hu & _); inversion Hu | reflexivity |].
    exact Hrun.
Defined.

(** ** The middleware in front of the routes *)

Section Gates.
Context `{Externals} (env : Env).

(** X22: a request that [auth] turns away is answered 401, with
    nothing written, by each of these thirteen routes behind it (all but
    PUT /api/resume/template and GET /api/users): POST and DELETE
    /api/resume, POST /api/jobs/:id/apply, POST /jobs, DELETE /jobs/:id,
    PUT /api/users/:id/role, DELETE /api/users/:id, GET /api/my-resume-id,
    GET /api/my-resume, GET /api/resume/:id, GET /jobs,
    GET /api/candidate/applications and GET /api/jobs/:id/applications. *)
Theorem routes_refuse_unauthenticated (token : option Token) (r : Response) (db : Db)
    (id : ObjectId) (body : gmap string json) :
  auth env token = inl r →
  status r = 401 ∧
  POST_api_resume env token body db = (r, db) ∧
  DELETE_api_resume env token db = (r, db) ∧
  POST_api_jobs_apply env token id db = (r, db) ∧
  POST_jobs env token body db = (r, db) ∧
  DELETE_jobs env token id db = (r, db) ∧
  PUT_api_users_role env token id body db = (r, db) ∧
  DELETE_api_users env token id db = (r, db) ∧
  GET_api_my_resume_id env token db = (Sent r, db) ∧
  GET_api_my_resume env token db = (Sent r, db) ∧
  GET_api_resume env token id db = (Sent r, db) ∧
  GET_jobs env token db = (Sent r, db) ∧
  GET_api_candidate_applications env token db = (Sent r, db) ∧
  GET_api_jobs_applications env token id db = (Sent r, db).
Proof.
  intros Hauth.
  unfold POST_api_resume, DELETE_api_resume, POST_api_jobs_apply, POST_jobs, DELETE_jobs,
    PUT_api_users_role, DELETE_api_users, GET_api_my_resume_id, GET_api_my_resume,
    GET_api_resume, GET_jobs, GET_api_candidate_applications, GET_api_jobs_applications,
    guarded, guarded_reply.
  rewrite Hauth. split_and!; try done.
  revert Hauth. unfold auth. destruct token as [t|]; [| by intros [= <-]].
  destruct (jwt_verify _ _ _); [done | by intros [= <-]].
Qed.

(** X23: a token of another role is turned away with nothing
    written: with 403 at POST and DELETE /api/resume,
    POST /api/jobs/:id/apply, GET /api/my-resume-id, GET /api/my-resume
    and GET /api/candidate/applications by [isCandidate]; with 401 at
    POST /jobs, DELETE /jobs/:id, GET /jobs and
    GET /api/jobs/:id/applications by [isRecruiter]; with 403 at
    PUT /api/users/:id/role and DELETE /api/users/:id by [isAdmin]. *)
Theorem routes_refuse_wrong_role (token : option Token) (user : TokenUser) (db : Db)
    (id : ObjectId) (body : gmap string json) :
  auth env token = inr user →
  (tu_role user ≠ "Candidate" →
     let r := mkResponse 403 (Msg "Only candidates can perform this action.") in
     POST_api_resume env token body db = (r, db) ∧
     DELETE_api_resume env token db = (r, db) ∧
     POST_api_jobs_apply env token id db = (r, db) ∧
     GET_api_my_resume_id env token db = (Sent r, db) ∧
     GET_api_my_resume env token db = (Sent r, db) ∧
     GET_api_candidate_applications env token db = (Sent r, db)) ∧
  (tu_role user ≠ "Recruiter" →
     let r := mkResponse 401 (Msg "Only recruiters can access this route") in
     POST_jobs env token body db = (r, db) ∧
     DELETE_jobs env token id db = (r, db) ∧
     GET_jobs env token db = (Sent r, db) ∧
     GET_api_jobs_applications env token id db = (Sent r, db)) ∧
  (tu_role user ≠ "Admin" →
     let r := mkResponse 403 (Msg "Admin access denied") in
     PUT_api_users_role env token id body db = (r, db) ∧
     DELETE_api_users env token id db = (r, db)).
Proof.
  intros Hauth.
  unfold POST_api_resume, DELETE_api_resume, POST_api_jobs_apply, POST_jobs, DELETE_jobs,
    PUT_api_users_role, DELETE_api_users, GET_api_my_resume_id, GET_api_my_resume,
    GET_jobs, GET_api_candidate_applications, GET_api_jobs_applications,
    guarded, guarded_reply, isCandidate, isRecruiter, isAdmin.
  rewrite Hauth. split_and!; intros Hrole; apply String.eqb_neq in Hrole; by rewrite Hrole.
Qed.

(** X24: POST /login and these eight GET routes leave the database as
    it is, whatever they answer: /api/my-resume-id, /api/my-resume,
    /api/resume/:id, /jobs, /api/public-jobs, /api/public-jobs/:id,
    /api/candidate/applications and /api/jobs/:id/applications, the six of
    them that are behind middleware also taken with it. *)
Theorem reads_never_write (db : Db) (token : option Token) (user_id id : ObjectId)
    (name : string) (secret : option string) :
  (login env name secret db).2 = db ∧
  (myResumeId env user_id db).2 = db ∧
  (myResume env user_id db).2 = db ∧
  (getResume env id db).2 = db ∧
  (getJobs env user_id db).2 = db ∧
  (publicJobs env db).2 = db ∧
  (publicJob env id db).2 = db ∧
  (candidateApplications env user_id db).2 = db ∧
  (jobApplications env user_id id db).2 = db ∧
  (GET_api_my_resume_id env token db).2 = db ∧
  (GET_api_my_resume env token db).2 = db ∧
  (GET_api_resume env token id db).2 = db ∧
  (GET_jobs env token db).2 = db ∧
  (GET_api_candidate_applications env token db).2 = db ∧
  (GET_api_jobs_applications env token id db).2 = db.
Proof.
  assert (H1 : (myResumeId env user_id db).2 = db ∧ (myResume env user_id db).2 = db ∧
               (getResume env id db).2 = db).
  { unfold myResumeId, myResume, getResume, try_reply, bind, findById, findOne, query, ret.
    cbv beta iota delta [docs doc_id ResumeModel].
    destruct (connected env); [| done]. by destruct (first_match _ _), (first_match _ _). }
  assert (H2 : ∀ u, (getJobs env u db).2 = db).
  { intros u. unfold getJobs, try_reply, bind, find, query, ret.
    by destruct (connected env). }
  assert (H3 : ∀ u, (candidateApplications env u db).2 = db).
  { intros u. unfold candidateApplications, try_reply, bind, find, query, ret.
    by destruct (connected env). }
  assert (H4 : ∀ u, (jobApplications env u id db).2 = db).
  { intros u. unfold jobApplications, try_reply, bind, findById, findOne, find, query, ret.
    cbv beta iota delta [docs doc_id JobModel].
    destruct (connected env); [| done]. destruct (first_match _ _); [| done].
    by destruct (negb _). }
  destruct H1 as (Hid & Hmine & Hget).
  unfold GET_api_my_resume_id, GET_api_my_resume, GET_api_resume, GET_jobs,
    GET_api_candidate_applications, GET_api_jobs_applications, guarded_reply.
  split_and!; try done.
  - unfold login, try_catch, bind, findOne, query, ret.
    destruct (connected env); [| done]. destruct (first_match _ _); [| done].
    destruct secret; [| done]. unfold bcrypt_compare_body, ret. by destruct (negb _).
  - unfold publicJobs, try_reply, bind, find, query, ret. by destruct (connected env).
  - unfold publicJob, try_reply, bind, findById, findOne, query, ret.
    destruct (connected env); [| done]. by destruct (first_match _ _).
  - destruct (auth env token); [done |]. destruct (isCandidate _); [done |].
    clear Hid Hmine Hget. unfold myResumeId, try_reply, bind, findOne, query, ret.
    destruct (connected env); [| done]. by destruct (first_match _ _).
  - destruct (auth env token); [done |]. destruct (isCandidate _); [done |].
    unfold myResume, try_reply, bind, findOne, query, ret.
    by destruct (connected env).
  - by destruct (auth env token).
  - destruct (auth env token); [done |]. by destruct (isRecruiter _).
  - destruct (auth env token); [done |]. by destruct (isCandidate _).
  - destruct (auth env token); [done |]. by destruct (isRecruiter _).
Qed.
End Gates.

(** No token, and a token that has expired. *)
Lemma routes_refuse_unauthenticated_witness :
  DELETE_api_users sample_env None 2 sample_db
    = (mkResponse 401 (Msg "No token, authorization denied"), sample_db) ∧
  GET_api_resume expired_env (Some alice_token) 20 sample_db
    = (Sent (mkResponse 401 (Msg "Token is not valid")), sample_db).
Proof.
  destruct (routes_refuse_unauthenticated (H := sample_externals) sample_env None
              (mkResponse 401 (Msg "No token, authorization denied")) sample_db 2 ∅ eq_refl)
    as (_ & _ & _ & _ & _ & _ & _ & Hdelete & _).
  destruct (routes_refuse_unauthenticated (H := sample_externals) expired_env
              (Some alice_token) (mkResponse 401 (Msg "Token is not valid")) sample_db 20 ∅
              eq_refl)
    as (_ & _ & _ & _ & _ & _ & _ & _ & _ & _ & Hread & _).
  by split.
Defined.

(** The sample candidate at the routes of the recruiter and of the
    administrator. *)
Lemma routes_refuse_wrong_role_witness :
  DELETE_jobs sample_env (Some alice_token) 10 sample_db
    = (mkResponse 401 (Msg "Only recruiters can access this route"), sample_db) ∧
  DELETE_api_users sample_env (Some alice_token) 3 sample_db
    = (mkResponse 403 (Msg "Admin access denied"), sample_db).
Proof.
  destruct (routes_refuse_wrong_role (H := sample_externals) sample_env (Some alice_token)
              (mkTokenUser 2 "Candidate") sample_db 10 ∅ eq_refl) as (_ & Hrecruiter & _).
  destruct (routes_refuse_wrong_role (H := sample_externals) sample_env (Some alice_token)
              (mkTokenUser 2 "Candidate") sample_db 3 ∅ eq_refl) as (_ & _ & Hadmin).
  destruct Hrecruiter as (_ & Hjob & _); [done |].
  destruct Hadmin as (_ & Huser); [done |].
  by split.
Defined.
